(** * cursor-auto-register: a shallow embedding of the three Python modules

    - [tokenManager/cursor.py]  the remote usage client        (Module [Cursor])
    - [database.py]             engine and session lifecycle   (Module [Database])
    - [reset_machine.py]        the machine-identity rewriter  (Module [ResetMachine])

    Module [Py] holds the fragment of the Python runtime the three rely on,
    Module [Sha2] the two hash functions [reset_machine.py] takes from
    [hashlib].  The modules [PyFacts], [CursorSpec], [DatabaseSpec],
    [Sha2Facts] and [ResetMachineSpec] hold the properties.

    The Python values the code handles after [json.load] / [response.json()]
    are embedded as the inductive type [Py.value].  Effects (stdout, the log,
    the configuration file, the entropy source, the calls made on the database
    objects) are threaded explicitly.

    Exceptions come in two layers.  [Py.exn] holds the instances of Python's
    [Exception] class, which is what every handler of the three modules
    names; the first embedding of [database.py] and [reset_machine.py] is
    over these, with a terminal that takes every line.  [Py.thrown] adds the
    exceptions beside [Exception] ([KeyboardInterrupt],
    [asyncio.CancelledError], ...); the second embedding of the two modules
    ([Database.get_session_task], [ResetMachine.reset_machine_ids_on]) is over
    these, performs the class test of every [except] clause, and runs on a
    host whose terminal can refuse a line.  The two embeddings are proved to
    agree where the first applies. *)

From Stdlib Require Import ZArith List String Ascii Bool Lia Floats.
Import ListNotations.
Local Open Scope string_scope.
Local Open Scope Z_scope.

(* ===================================================================== *)
(** * The Python runtime fragment the three modules rely on              *)
(* ===================================================================== *)

Module Py.

(** ** Exceptions *)

(** The exception classes that can reach the handlers of the modelled code,
    all below [Exception] in the class hierarchy; the classes beside
    [Exception] are [signal_class] below. *)
Inductive exn_class : Type :=
| Exception
| AttributeError
| TypeError
| KeyError
| OverflowError
| ValueError
| JSONDecodeError
| UnicodeDecodeError
| UnicodeEncodeError
| OSError
| FileNotFoundError
| IsADirectoryError
| PermissionError
| ConnectionError
| SQLAlchemyError.

(** An exception instance: its class and what [str(e)] prints. *)
Record exn : Type := mk_exn { exn_cls : exn_class; exn_str : string }.

Definition exn_class_eqb (c d : exn_class) : bool :=
  match c, d with
  | Exception, Exception | AttributeError, AttributeError
  | TypeError, TypeError | KeyError, KeyError
  | OverflowError, OverflowError | ValueError, ValueError
  | JSONDecodeError, JSONDecodeError
  | UnicodeDecodeError, UnicodeDecodeError
  | UnicodeEncodeError, UnicodeEncodeError
  | OSError, OSError | FileNotFoundError, FileNotFoundError
  | IsADirectoryError, IsADirectoryError
  | PermissionError, PermissionError
  | ConnectionError, ConnectionError
  | SQLAlchemyError, SQLAlchemyError => true
  | _, _ => false
  end.

(** The direct base class; [Exception] is the root of the fragment. *)
Definition base (c : exn_class) : option exn_class :=
  match c with
  | Exception => None
  | JSONDecodeError | UnicodeDecodeError
  | UnicodeEncodeError => Some ValueError
  | FileNotFoundError | IsADirectoryError
  | PermissionError | ConnectionError => Some OSError
  | _ => Some Exception
  end.

Fixpoint subclass_upto (depth : nat) (c d : exn_class) : bool :=
  exn_class_eqb c d ||
  match depth, base c with
  | S k, Some p => subclass_upto k p d
  | _, _ => false
  end.

(** [issubclass(c, d)]; the hierarchy above has depth two. *)
Definition issubclass (c d : exn_class) : bool := subclass_upto 2 c d.

(** [isinstance(e, d)], the test an [except d] clause performs. *)
Definition isinstance (e : exn) (d : exn_class) : bool :=
  issubclass (exn_cls e) d.

(** The outcome of evaluating a Python expression or statement. *)
Inductive result (A : Type) : Type :=
| Return (a : A)
| Raise (e : exn).
Arguments Return {A} a.
Arguments Raise {A} e.

Definition rbind {A B} (r : result A) (k : A -> result B) : result B :=
  match r with
  | Return a => k a
  | Raise e => Raise e
  end.

(** ** Exceptions beside [Exception] *)

(** The classes that derive from [BaseException] without deriving from
    [Exception]; an [except Exception] clause lets their instances through. *)
Inductive signal_class : Type :=
| KeyboardInterrupt
| SystemExit
| GeneratorExit
| CancelledError.                    (* [asyncio.CancelledError] *)

Record signal : Type := mk_signal {
  signal_cls : signal_class;
  signal_str : string
}.

(** What a statement can raise: an instance of [Exception], or one of the
    above. *)
Inductive thrown : Type :=
| Exc (e : exn)
| Sig (s : signal).

(** How a statement ends when both kinds are taken into account. *)
Inductive outcome (A : Type) : Type :=
| Returns (a : A)
| Raises (t : thrown).
Arguments Returns {A} a.
Arguments Raises {A} t.

Definition of_result {A} (r : result A) : outcome A :=
  match r with
  | Return a => Returns a
  | Raise e => Raises (Exc e)
  end.

(** ** Values *)

(** The values [json.load] produces: [None], [bool], [int], [float], [str],
    [list], and [dict] with string keys kept in insertion order. *)
#[local] Set Warnings "-register-all".
Inductive value : Type :=
| VNone
| VBool (b : bool)
| VInt (z : Z)
| VFloat (f : float)
| VStr (s : string)
| VList (l : list value)
| VDict (d : list (string * value)).

#[local] Set Warnings "register-all".

Definition dict : Type := list (string * value).

Definition type_name (v : value) : string :=
  match v with
  | VNone => "NoneType"
  | VBool _ => "bool"
  | VInt _ => "int"
  | VFloat _ => "float"
  | VStr _ => "str"
  | VList _ => "list"
  | VDict _ => "dict"
  end.

(** ** Dictionaries *)

(** [d.get(k)] at the level of the dictionary: the binding of [k], if any. *)
Fixpoint dict_get (d : dict) (k : string) : option value :=
  match d with
  | [] => None
  | (k', v) :: rest => if String.eqb k' k then Some v else dict_get rest k
  end.

(** [k in d] *)
Definition dict_mem (d : dict) (k : string) : bool :=
  match dict_get d k with Some _ => true | None => false end.

(** [d[k] = v]: an existing key keeps its position, a new key goes last. *)
Fixpoint dict_set (d : dict) (k : string) (v : value) : dict :=
  match d with
  | [] => [(k, v)]
  | (k', v') :: rest =>
      if String.eqb k' k then (k', v) :: rest
      else (k', v') :: dict_set rest k v
  end.

(** [d.update(other)]: the bindings of [other] are stored one by one, in
    [other]'s order. *)
Definition dict_update (d other : dict) : dict :=
  fold_left (fun acc kv => dict_set acc (fst kv) (snd kv)) other d.

Definition dict_keys (d : dict) : list string := map fst d.

(** ** Strings *)

(** [needle in hay] for two [str]: [needle] occurs as a substring. *)
Fixpoint str_contains (needle hay : string) : bool :=
  String.prefix needle hay ||
  match hay with
  | EmptyString => false
  | String _ rest => str_contains needle rest
  end.

(** ** Bytes *)

(** The integer of a byte, as iterating over [bytes] yields it. *)
Definition byte_val (b : Byte.byte) : Z := Z.of_N (Byte.to_N b).

(** ** Operators on values *)

(** [obj.get(key, None)]: only [dict] has the method. *)
Definition py_get (obj : value) (key : string) : result value :=
  match obj with
  | VDict d =>
      match dict_get d key with
      | Some v => Return v
      | None => Return VNone
      end
  | _ => Raise (mk_exn AttributeError
                  ("'" ++ type_name obj ++ "' object has no attribute 'get'"))
  end.

(** [key in obj] for a [str] key: key membership on a [dict], substring test
    on a [str], element test on a [list]; the other types are not
    containers. *)
Definition py_contains (key : string) (obj : value) : result bool :=
  match obj with
  | VDict d => Return (dict_mem d key)
  | VStr s => Return (str_contains key s)
  | VList l =>
      Return (existsb (fun v => match v with
                                | VStr s => String.eqb s key
                                | _ => false
                                end) l)
  | _ => Raise (mk_exn TypeError
                  ("argument of type '" ++ type_name obj ++ "' is not iterable"))
  end.

(** [obj[key]] for a [str] key. *)
Definition py_getitem (obj : value) (key : string) : result value :=
  match obj with
  | VDict d =>
      match dict_get d key with
      | Some v => Return v
      | None => Raise (mk_exn KeyError ("'" ++ key ++ "'"))
      end
  | VStr _ =>
      Raise (mk_exn TypeError "string indices must be integers, not 'str'")
  | VList _ =>
      Raise (mk_exn TypeError "list indices must be integers or slices, not str")
  | _ => Raise (mk_exn TypeError
                  ("'" ++ type_name obj ++ "' object is not subscriptable"))
  end.

(** [bool] is a subclass of [int]: [True] counts as 1, [False] as 0. *)
Definition as_int (v : value) : option Z :=
  match v with
  | VInt z => Some z
  | VBool true => Some 1
  | VBool false => Some 0
  | _ => None
  end.

(** Conversion of an [int] to a double, rounding to nearest even;
    [OverflowError] when the integer is beyond the largest double. *)
Definition float_of_int (z : Z) : result float :=
  let f := SF2Prim (binary_normalize 53 1024 z 0 false) in
  if PrimFloat.is_infinity f
  then Raise (mk_exn OverflowError "int too large to convert to float")
  else Return f.

(** [a - b]: integer subtraction on [int]/[bool], IEEE subtraction as soon as
    one operand is a [float]; no other pair of JSON values supports [-]. *)
Definition py_sub (a b : value) : result value :=
  match as_int a, as_int b with
  | Some x, Some y => Return (VInt (x - y))
  | _, _ =>
      match a, b, as_int a, as_int b with
      | VFloat x, VFloat y, _, _ => Return (VFloat (PrimFloat.sub x y))
      | VFloat x, _, _, Some y =>
          rbind (float_of_int y) (fun fy => Return (VFloat (PrimFloat.sub x fy)))
      | _, VFloat y, Some x, _ =>
          rbind (float_of_int x) (fun fx => Return (VFloat (PrimFloat.sub fx y)))
      | _, _, _, _ =>
          Raise (mk_exn TypeError
                   ("unsupported operand type(s) for -: '" ++ type_name a
                    ++ "' and '" ++ type_name b ++ "'"))
      end
  end.

(** [obj.update(other)]: only [dict] has the method; it mutates [obj], which
    the embedding returns as the new value. *)
Definition py_update (obj : value) (other : dict) : result value :=
  match obj with
  | VDict d => Return (VDict (dict_update d other))
  | _ => Raise (mk_exn AttributeError
                  ("'" ++ type_name obj ++ "' object has no attribute 'update'"))
  end.

End Py.

Export Py.

(* ===================================================================== *)
(** * tokenManager/cursor.py: the remote usage client                    *)
(* ===================================================================== *)

Module Cursor.

(** What [requests.get(url, headers=headers)] puts on the wire. *)
Record request : Type := GET {
  req_url : string;
  req_headers : list (string * string)
}.

(** What the client reads of a [requests.Response]: [response.json()] either
    decodes the body to a value or raises the library's decoding error. *)
Record response : Type := mk_response {
  status_code : Z;
  json : result value
}.

(** A header of the [headers] dictionary literal. *)
Fixpoint header (hs : list (string * string)) (name : string) : option string :=
  match hs with
  | [] => None
  | (n, v) :: rest => if String.eqb n name then Some v else header rest name
  end.

(** The [headers] literal both operations build (lines 50-53 and 88-91). *)
Definition headers (user token : string) : list (string * string) :=
  [ ("Content-Type", "application/json");
    ("Cookie", "WorkosCursorSessionToken=" ++ user ++ "%3A%3A" ++ token) ].

(** Lines 59-70 of [get_remaining_balance], on the decoded body. *)
Definition remaining_balance_of (body : value) : result value :=
  rbind (py_get body "gpt-4") (fun usage =>
  match usage with
  | VNone => Return VNone
  | _ =>
      rbind (py_contains "maxRequestUsage" usage) (fun has_max =>
      if negb has_max then Return VNone
      else
        rbind (py_contains "numRequests" usage) (fun has_num =>
        if negb has_num then Return VNone
        else
          rbind (py_getitem usage "maxRequestUsage") (fun max_usage =>
          rbind (py_getitem usage "numRequests") (fun num =>
          py_sub max_usage num))))
  end).

Section Client.

(** The remote service together with the transport: what [requests.get]
    returns, or the error it raises, for a request. *)
Variable requests_get : request -> result response.

(** [Cursor.get_remaining_balance(user, token)]: the requests sent, and the
    outcome of the call. *)
Definition get_remaining_balance (user token : string)
  : list request * result value :=
  let url := "https://www.cursor.com/api/usage?user=" ++ user in
  let req := GET url (headers user token) in
  ([req],
   rbind (requests_get req) (fun response =>
   rbind (json response) remaining_balance_of)).

(** [Cursor.get_trial_remaining_days(user, token)] *)
Definition get_trial_remaining_days (user token : string)
  : list request * result value :=
  let url := "https://www.cursor.com/api/auth/stripe" in
  let req := GET url (headers user token) in
  ([req],
   rbind (requests_get req) (fun response =>
   rbind (json response) (fun body =>
   py_get body "daysRemainingOnTrial"))).

End Client.

(** ** Percent-encoding, the reading of "URL-encoded" the claims are
    compared with *)

(** RFC 3986 unreserved characters: letters, digits, [-], [.], [_], [~]. *)
Definition unreserved (c : ascii) : bool :=
  let n := Z.of_nat (nat_of_ascii c) in
  ((65 <=? n) && (n <=? 90)) || ((97 <=? n) && (n <=? 122))
  || ((48 <=? n) && (n <=? 57))
  || (n =? 45) || (n =? 46) || (n =? 95) || (n =? 126).

Definition hex_upper (n : Z) : ascii :=
  ascii_of_nat (Z.to_nat (if n <? 10 then 48 + n else 55 + n)).

(** Every byte outside the unreserved set becomes [%XX]. *)
Fixpoint url_encode (s : string) : string :=
  match s with
  | EmptyString => EmptyString
  | String c rest =>
      if unreserved c then String c (url_encode rest)
      else
        let n := Z.of_nat (nat_of_ascii c) in
        String "%" (String (hex_upper (n / 16))
                      (String (hex_upper (n mod 16)) (url_encode rest)))
  end.

Fixpoint all_unreserved (s : string) : bool :=
  match s with
  | EmptyString => true
  | String c rest => unreserved c && all_unreserved rest
  end.

(** A service that answers every request with status 200 and the given
    body. *)
Definition answering (body : value) : request -> result response :=
  fun _ => Return (mk_response 200 (Return body)).


(** ** The behaviour the specification states for
    [get_remaining_balance], to compare the code with *)

(** The usage sub-object of a response body, when the body has one. *)
Definition usage_sub_object (body : value) : option dict :=
  match body with
  | VDict d =>
      match dict_get d "gpt-4" with
      | Some (VDict usage) => Some usage
      | _ => None
      end
  | _ => None
  end.

(** "returns [None] if the sub-object or either of its two keys is absent;
    otherwise returns their difference". *)
Definition returns_as_stated (body : value) (outcome : result value) : Prop :=
  match usage_sub_object body with
  | None => outcome = Return VNone
  | Some usage =>
      match dict_get usage "maxRequestUsage", dict_get usage "numRequests" with
      | Some a, Some b => exists r, py_sub a b = Return r /\ outcome = Return r
      | _, _ => outcome = Return VNone
      end
  end.

(** ** Vocabulary for the further properties *)

(** The call ends with an exception of class [c]. *)
Definition raises {A} (c : exn_class) (r : result A) : Prop :=
  exists msg, r = Raise (mk_exn c msg).

(** The character [c] occurs in [s]. *)
Fixpoint has_char (c : ascii) (s : string) : bool :=
  match s with
  | EmptyString => false
  | String c' rest => Ascii.eqb c' c || has_char c rest
  end.

(** What a caller can read back of a response without knowing its status:
    the decoded body, or the error on the way to it. *)
Definition decoded (requests_get : request -> result response) (req : request)
  : result value :=
  rbind (requests_get req) json.

End Cursor.

(* ===================================================================== *)
(** * database.py: engine and session lifecycle                          *)
(* ===================================================================== *)

Module Database.

(** The six messages the module hands to [logger.error] / [logger.info];
    [detail] is the [str(e)] interpolated into the message. *)
Inductive log_message : Type :=
| SessionError (detail : string)      (* line 117, error *)
| RollbackFailed (detail : string)    (* line 121, error *)
| CloseFailed (detail : string)       (* line 128, error *)
| DisposeFailed (detail : string)     (* line 132, error *)
| InitSucceeded                       (* line 154, info  *)
| InitFailed (detail : string).       (* line 156, error *)

(** The calls the module makes on SQLAlchemy objects and on the logger, in
    the order it makes them.  [UserCode] stands for what the body of an
    [async with get_session()] block does with the session. *)
Inductive event : Type :=
| CreateAsyncEngine (url : string) (echo : bool)
                    (connect_args : dict) (future : bool)
| NewSession
| Execute (sql : string)
| UserCode (label : string)
| Rollback
| Close
| Dispose
| Begin
| CreateAll
| Commit
| TxRollback
| Log (m : log_message).

(** How the database library answers: for each call that can fail, the
    exception it raises, if any. *)
Record faults : Type := mk_faults {
  create_async_engine_fault : option exn;
  execute_fault : option exn;
  rollback_fault : option exn;
  close_fault : option exn;
  dispose_fault : option exn;
  begin_fault : option exn;
  create_all_fault : option exn;
  commit_fault : option exn
}.

(** A computation: the calls it made, and how it ended. *)
Definition M (A : Type) : Type := list event * result A.

Definition ret {A} (a : A) : M A := ([], Return a).

Definition raise {A} (e : exn) : M A := ([], Raise e).

Definition bind {A B} (m : M A) (k : A -> M B) : M B :=
  match m with
  | (t, Return a) => let (t', r) := k a in ((t ++ t')%list, r)
  | (t, Raise e) => (t, Raise e)
  end.

(** A library call: it is made, then it returns or raises. *)
Definition call (ev : event) (fault : option exn) : M unit :=
  ([ev], match fault with Some e => Raise e | None => Return tt end).

Definition log (m : log_message) : M unit := ([Log m], Return tt).

(** [try: m  except Exception as e: handler e], for the exceptions of
    [exn], which are all instances of [Exception]; [except_Exception] below
    is the clause over everything that can be raised, with its class test. *)
Definition try_except {A} (m : M A) (handler : exn -> M A) : M A :=
  match m with
  | (t, Return a) => (t, Return a)
  | (t, Raise e) => let (t', r) := handler e in ((t ++ t')%list, r)
  end.

(** [try: m  finally: cleanup]: the cleanup always runs; an exception of the
    cleanup replaces the outcome of [m]. *)
Definition try_finally {A} (m : M A) (cleanup : M unit) : M A :=
  let (t, r) := m in
  match cleanup with
  | (t', Return _) => ((t ++ t')%list, r)
  | (t', Raise e') => ((t ++ t')%list, Raise e')
  end.

Declare Scope db_scope.
Delimit Scope db_scope with db.
Notation "x <- c ;; k" := (bind c (fun x => k))
  (at level 61, c at next level, right associativity) : db_scope.
Notation "c ;; k" := (bind c (fun _ => k))
  (at level 61, right associativity) : db_scope.
Local Open Scope db_scope.

Section Lifecycle.

(** [config.DATABASE_URL] *)
Variable DATABASE_URL : string.

Variable lib : faults.

(** The [connect_args] expression of line 82. *)
Definition connect_args : dict :=
  if str_contains "sqlite" DATABASE_URL
  then [("check_same_thread", VBool false)]
  else [].

(** [create_engine()], lines 66-86 *)
Definition create_engine : M unit :=
  call (CreateAsyncEngine DATABASE_URL false connect_args true)
       (create_async_engine_fault lib).

(** [async with get_session() as session: body], lines 89-132: the generator
    runs up to its [yield], the body runs, an exception of the body is thrown
    back in at the [yield], and the generator runs to its end. *)
Definition get_session {A} (body : M A) : M A :=
  create_engine ;;
  call NewSession None ;;
  try_finally
    (try_except
       (call (Execute "SELECT 1") (execute_fault lib) ;;
        body)
       (fun e =>
          log (SessionError (exn_str e)) ;;
          try_except (call Rollback (rollback_fault lib))
                     (fun rollback_error =>
                        log (RollbackFailed (exn_str rollback_error))) ;;
          raise e))
    (try_except (call Close (close_fault lib))
                (fun e => log (CloseFailed (exn_str e))) ;;
     try_except (call Dispose (dispose_fault lib))
                (fun e => log (DisposeFailed (exn_str e)))).

(** [async with engine.begin() as conn: body]: the transaction is committed
    when the body ends normally and rolled back when it raises, the exception
    of the body then leaving the block. *)
Definition engine_begin {A} (body : M A) : M A :=
  call Begin (begin_fault lib) ;;
  match body with
  | (t, Return a) => (t, Return tt) ;; call Commit (commit_fault lib) ;; ret a
  | (t, Raise e) => (t, Return tt) ;; call TxRollback None ;; raise e
  end.

(** [init_db()], lines 135-157 *)
Definition init_db : M unit :=
  try_except
    (create_engine ;;
     engine_begin (call CreateAll (create_all_fault lib)) ;;
     call Dispose (dispose_fault lib) ;;
     log InitSucceeded)
    (fun e =>
       log (InitFailed (exn_str e)) ;;
       raise e).

End Lifecycle.

(** What a handler of the form [except Exception as e: error(...)] adds to
    the trace for the outcome of the call it guards. *)
Definition logged (message : string -> log_message) (fault : option exn)
  : list event :=
  match fault with
  | Some e => [Log (message (exn_str e))]
  | None => []
  end.

(** The number of [engine.dispose()] calls of a trace. *)
Definition disposes (t : list event) : nat :=
  List.length (filter (fun ev => match ev with Dispose => true | _ => false end) t).

(** The connection string names the SQLite family: the text [sqlite] occurs
    in it. *)
Definition mentions_sqlite (url : string) : Prop :=
  exists before after, url = before ++ "sqlite" ++ after.

(** A library in which no call fails. *)
Definition healthy : faults :=
  mk_faults None None None None None None None None.

(** A library whose [session.close()], [session.rollback()] and
    [engine.dispose()] all fail. *)
Definition failing_cleanup : faults :=
  mk_faults None None
    (Some (mk_exn SQLAlchemyError "rollback failed"))
    (Some (mk_exn SQLAlchemyError "close failed"))
    (Some (mk_exn SQLAlchemyError "dispose failed"))
    None None None.


(** A body that inserts a row and then fails. *)
Definition failing_body : M unit :=
  ([UserCode "session.add(account)"], Raise (mk_exn ValueError "bad account")).

(** The number of [commit] calls of a trace. *)
Definition commits (t : list event) : nat :=
  List.length (filter (fun ev => match ev with Commit => true | _ => false end) t).

(** The messages a trace hands to the logger, oldest first. *)
Fixpoint log_lines (t : list event) : list log_message :=
  match t with
  | [] => []
  | Log m :: rest => m :: log_lines rest
  | _ :: rest => log_lines rest
  end.

(** The first call of [init_db] that fails, in the order the function
    makes them. *)
Definition first_fault (lib : faults) : option exn :=
  match create_async_engine_fault lib with
  | Some e => Some e
  | None =>
  match begin_fault lib with
  | Some e => Some e
  | None =>
  match create_all_fault lib with
  | Some e => Some e
  | None =>
  match commit_fault lib with
  | Some e => Some e
  | None => dispose_fault lib
  end end end end.

(** A library whose [create_async_engine] rejects the connection string. *)
Definition failing_engine : faults :=
  mk_faults (Some (mk_exn SQLAlchemyError "Could not parse SQLAlchemy URL"))
    None None None None None None None.

(** A library whose connectivity check fails. *)
Definition unreachable : faults :=
  mk_faults None (Some (mk_exn ConnectionError "refused"))
    None None None None None None.

(** A library whose [engine.dispose()] fails. *)
Definition failing_dispose : faults :=
  mk_faults None None None None
    (Some (mk_exn SQLAlchemyError "dispose failed")) None None None.

(** A body that inserts a row, commits, and returns the row count. *)
Definition committing_body : M Z :=
  ([UserCode "session.add(account)"; Commit], Return 1).

(** ** "Indicates a file-based embedded database family", the reading of
    the specification the code is compared with *)

(** The dialect of a connection string [dialect+driver://...]: the name
    before the first [+] or [:]. *)
Fixpoint dialect (url : string) : string :=
  match url with
  | EmptyString => EmptyString
  | String c rest =>
      if (Ascii.eqb c "+" || Ascii.eqb c ":")%bool then EmptyString
      else String c (dialect rest)
  end.

(** The connection string is one of the SQLite dialect. *)
Definition sqlite_family (url : string) : bool :=
  String.eqb (dialect url) "sqlite".

(** ** The session helper in a task that can be cancelled *)

(** The exceptions outside [Exception] that reach the helper: while it sets
    up the session, before its [try] is entered, or at one of its four
    [await]s.  The task is cancelled there, or the process is interrupted. *)
Record interrupts : Type := mk_interrupts {
  setup_interrupt : option signal;        (* lines 106-110 *)
  execute_interrupt : option signal;      (* line 113 *)
  rollback_interrupt : option signal;     (* line 119 *)
  close_interrupt : option signal;        (* line 126 *)
  dispose_interrupt : option signal       (* line 130 *)
}.

(** A computation that can also end by such an exception. *)
Definition Task (A : Type) : Type := list event * outcome A.

Definition task_raise {A} (t : thrown) : Task A := ([], Raises t).

Definition task_bind {A B} (m : Task A) (k : A -> Task B) : Task B :=
  match m with
  | (t, Returns a) => let (t', r) := k a in ((t ++ t')%list, r)
  | (t, Raises x) => (t, Raises x)
  end.

(** A computation of the first embedding, as a task. *)
Definition task_of {A} (m : M A) : Task A := (fst m, of_result (snd m)).

(** What an [await] raises: the interrupt if there is one, else the fault of
    the library. *)
Definition await_raises (fault : option exn) (interrupt : option signal)
  : option thrown :=
  match interrupt, fault with
  | Some s, _ => Some (Sig s)
  | None, Some e => Some (Exc e)
  | None, None => None
  end.

(** [await call]: the call is made, then it returns or raises. *)
Definition await (ev : event) (fault : option exn) (interrupt : option signal)
  : Task unit :=
  ([ev], match await_raises fault interrupt with
         | Some t => Raises t
         | None => Returns tt
         end).

(** [try: m  except Exception as e: handler e], with the class test the
    clause performs. *)
Definition except_Exception {A} (m : Task A) (handler : exn -> Task A)
  : Task A :=
  match m with
  | (t, Returns a) => (t, Returns a)
  | (t, Raises (Exc e)) =>
      if isinstance e Exception
      then let (t', r) := handler e in ((t ++ t')%list, r)
      else (t, Raises (Exc e))
  | (t, Raises (Sig s)) => (t, Raises (Sig s))
  end.

(** [try: m  finally: cleanup]: the cleanup always runs; an exception of the
    cleanup replaces the outcome of [m]. *)
Definition finally {A} (m : Task A) (cleanup : Task unit) : Task A :=
  let (t, r) := m in
  match cleanup with
  | (t', Returns _) => ((t ++ t')%list, r)
  | (t', Raises x) => ((t ++ t')%list, Raises x)
  end.

Declare Scope task_scope.
Delimit Scope task_scope with task.
Notation "x <- c ;; k" := (task_bind c (fun x => k))
  (at level 61, c at next level, right associativity) : task_scope.
Notation "c ;; k" := (task_bind c (fun _ => k))
  (at level 61, right associativity) : task_scope.
Local Open Scope task_scope.

Section Interruptible.

Variable DATABASE_URL : string.
Variable lib : faults.
Variable signals : interrupts.

(** [async with get_session() as session: body], lines 89-132, in a task
    that can be cancelled or interrupted. *)
Definition get_session_task {A} (body : Task A) : Task A :=
  task_of (create_engine DATABASE_URL lib) ;;
  await NewSession None (setup_interrupt signals) ;;
  finally
    (except_Exception
       (await (Execute "SELECT 1")
              (execute_fault lib) (execute_interrupt signals) ;;
        body)
       (fun e =>
          task_of (log (SessionError (exn_str e))) ;;
          except_Exception
            (await Rollback (rollback_fault lib) (rollback_interrupt signals))
            (fun rollback_error =>
               task_of (log (RollbackFailed (exn_str rollback_error)))) ;;
          task_raise (Exc e)))
    (except_Exception
       (await Close (close_fault lib) (close_interrupt signals))
       (fun e => task_of (log (CloseFailed (exn_str e)))) ;;
     except_Exception
       (await Dispose (dispose_fault lib) (dispose_interrupt signals))
       (fun e => task_of (log (DisposeFailed (exn_str e))))).

(** The [try] of the helper with its handler (lines 111-122), and its
    [finally] block (lines 123-132). *)
Definition session_scope {A} (body : Task A) : Task A :=
  except_Exception
    (await (Execute "SELECT 1")
           (execute_fault lib) (execute_interrupt signals) ;;
     body)
    (fun e =>
       task_of (log (SessionError (exn_str e))) ;;
       except_Exception
         (await Rollback (rollback_fault lib) (rollback_interrupt signals))
         (fun rollback_error =>
            task_of (log (RollbackFailed (exn_str rollback_error)))) ;;
       task_raise (Exc e)).

Definition session_cleanup : Task unit :=
  except_Exception
    (await Close (close_fault lib) (close_interrupt signals))
    (fun e => task_of (log (CloseFailed (exn_str e)))) ;;
  except_Exception
    (await Dispose (dispose_fault lib) (dispose_interrupt signals))
    (fun e => task_of (log (DisposeFailed (exn_str e)))).

End Interruptible.

(** No cancellation, no interrupt. *)
Definition undisturbed : interrupts :=
  mk_interrupts None None None None None.



(** A body that is cancelled while it waits. *)
Definition cancelled_body : Task unit :=
  ([UserCode "await asyncio.sleep(60)"],
   Raises (Sig (mk_signal CancelledError ""))).

(** What the handler of line 115 adds to the trace for an exception of the
    scope. *)
Definition handled (lib : faults) (t : thrown) : list event :=
  match t with
  | Exc e => ([Log (SessionError (exn_str e)); Rollback]
              ++ logged RollbackFailed (rollback_fault lib))%list
  | Sig _ => []
  end.

End Database.

(* ===================================================================== *)
(** * hashlib: SHA-256 and SHA-512 as FIPS 180-4 defines them            *)
(* ===================================================================== *)

Module Sha2.

(** The parameters in which SHA-256 and SHA-512 differ (FIPS 180-4). *)
Record variant : Type := mk_variant {
  word_bits : Z;                 (* w *)
  word_bytes : nat;              (* w / 8 *)
  rounds : nat;
  big_sigma0 : Z * Z * Z;        (* three rotations *)
  big_sigma1 : Z * Z * Z;
  small_sigma0 : Z * Z * Z;      (* two rotations and a shift *)
  small_sigma1 : Z * Z * Z
}.

Definition v256 : variant :=
  mk_variant 32 4 64 (2, 13, 22) (6, 11, 25) (7, 18, 3) (17, 19, 10).

Definition v512 : variant :=
  mk_variant 64 8 80 (28, 34, 39) (14, 18, 41) (1, 8, 7) (19, 61, 6).

(** *** The constants: fractional parts of roots of the first primes *)

Definition is_prime (n : nat) : bool :=
  forallb (fun d => negb (Nat.eqb (Nat.modulo n d) 0)) (seq 2 (n - 2)).

Definition first_primes (count : nat) : list Z :=
  map Z.of_nat (firstn count (filter is_prime (seq 2 420))).

(** The largest [r] in [lo..hi] with [r^3 <= n]. *)
Fixpoint cube_root_between (fuel : nat) (lo hi n : Z) : Z :=
  match fuel with
  | O => lo
  | S k =>
      if hi <=? lo then lo
      else
        let mid := (lo + hi + 1) / 2 in
        if mid * mid * mid <=? n then cube_root_between k mid hi n
        else cube_root_between k lo (mid - 1) n
  end.

Definition cube_root (n : Z) : Z := cube_root_between 400 0 (2 ^ 80) n.

(** The first [w] bits of the fractional part of the square root, and of the
    cube root, of [p]. *)
Definition frac_sqrt (w p : Z) : Z := Z.sqrt (p * 2 ^ (2 * w)) mod 2 ^ w.
Definition frac_cbrt (w p : Z) : Z := cube_root (p * 2 ^ (3 * w)) mod 2 ^ w.

Definition initial_hash (v : variant) : list Z :=
  map (frac_sqrt (word_bits v)) (first_primes 8).

Definition round_constants (v : variant) : list Z :=
  map (frac_cbrt (word_bits v)) (first_primes (rounds v)).

(** *** Words *)

Section Words.
Variable v : variant.

Definition wrap (x : Z) : Z := x mod 2 ^ word_bits v.

Definition rotr (n x : Z) : Z :=
  wrap (Z.lor (Z.shiftr x n) (Z.shiftl x (word_bits v - n))).

Definition rot3 (r : Z * Z * Z) (x : Z) : Z :=
  let '(a, b, c) := r in Z.lxor (Z.lxor (rotr a x) (rotr b x)) (rotr c x).

Definition rot2_shift (r : Z * Z * Z) (x : Z) : Z :=
  let '(a, b, c) := r in Z.lxor (Z.lxor (rotr a x) (rotr b x)) (Z.shiftr x c).

Definition ch (x y z : Z) : Z :=
  Z.lxor (Z.land x y) (Z.land (wrap (Z.lnot x)) z).

Definition maj (x y z : Z) : Z :=
  Z.lxor (Z.lxor (Z.land x y) (Z.land x z)) (Z.land y z).

(** The next word of the message schedule, from the sixteen before it, the
    latest first. *)
Definition next_word (recent : list Z) : Z :=
  wrap (rot2_shift (small_sigma1 v) (nth 1 recent 0) + nth 6 recent 0
        + rot2_shift (small_sigma0 v) (nth 14 recent 0) + nth 15 recent 0).

(** One round on the working variables [a..h]. *)
Definition round (k wt : Z) (s : list Z) : list Z :=
  match s with
  | [a; b; c; d; e; f; g; h] =>
      let t1 := h + rot3 (big_sigma1 v) e + ch e f g + k + wt in
      let t2 := rot3 (big_sigma0 v) a + maj a b c in
      [wrap (t1 + t2); a; b; c; wrap (d + t1); e; f; g]
  | _ => s
  end.

(** The rounds that remain, with their constants [ks]; [pending] holds the
    words of the block not yet used, [recent] the schedule so far. *)
Fixpoint run_rounds (ks pending recent s : list Z) : list Z :=
  match ks with
  | [] => s
  | k :: ks' =>
      let wt := match pending with
                | x :: _ => x
                | [] => next_word recent
                end in
      run_rounds ks' (tl pending) (wt :: recent) (round k wt s)
  end.

Definition add8 (h s : list Z) : list Z :=
  match h, s with
  | [h0; h1; h2; h3; h4; h5; h6; h7], [a; b; c; d; e; f; g; i] =>
      [wrap (h0 + a); wrap (h1 + b); wrap (h2 + c); wrap (h3 + d);
       wrap (h4 + e); wrap (h5 + f); wrap (h6 + g); wrap (h7 + i)]
  | _, _ => h
  end.

(** The compression of one block of sixteen words into the hash value. *)
Definition compress (ks h block : list Z) : list Z :=
  add8 h (run_rounds ks block [] h).

(** *** Bytes *)

Definition byte_of (z : Z) : Byte.byte :=
  match Byte.of_N (Z.to_N (z mod 256)) with
  | Some b => b
  | None => Byte.x00
  end.

(** The [n] low bytes of [z], the most significant first. *)
Fixpoint big_endian (n : nat) (z : Z) : list Byte.byte :=
  match n with
  | O => []
  | S k => byte_of (Z.shiftr z (8 * Z.of_nat k)) :: big_endian k z
  end.

Definition word_of_bytes (bs : list Byte.byte) : Z :=
  fold_left (fun acc b => acc * 256 + byte_val b) bs 0.

(** Cutting a list into pieces of [size] elements. *)
Fixpoint chunks {A} (fuel size : nat) (l : list A) : list (list A) :=
  match fuel, l with
  | O, _ | _, [] => []
  | S k, _ => firstn size l :: chunks k size (skipn size l)
  end.

(** The message followed by [0x80], zeros, and its length in bits, up to a
    whole number of blocks. *)
Definition pad (msg : list Byte.byte) : list Byte.byte :=
  let block := (16 * word_bytes v)%nat in
  let len_field := (2 * word_bytes v)%nat in
  let used := (List.length msg + 1 + len_field)%nat in
  let zeros := ((block - used mod block) mod block)%nat in
  msg ++ [Byte.x80] ++ repeat Byte.x00 zeros
      ++ big_endian len_field (8 * Z.of_nat (List.length msg)).

Definition blocks (msg : list Byte.byte) : list (list Z) :=
  let padded := pad msg in
  map (fun block => map word_of_bytes
                      (chunks 16 (word_bytes v) block))
      (chunks (List.length padded) (16 * word_bytes v) padded).

Definition digest_with (h0 ks : list Z) (msg : list Byte.byte)
  : list Byte.byte :=
  flat_map (big_endian (word_bytes v))
           (fold_left (compress ks) (blocks msg) h0).

End Words.

Definition H256 : list Z := Eval vm_compute in initial_hash v256.
Definition K256 : list Z := Eval vm_compute in round_constants v256.
Definition H512 : list Z := Eval vm_compute in initial_hash v512.
Definition K512 : list Z := Eval vm_compute in round_constants v512.

Definition sha256 (msg : list Byte.byte) : list Byte.byte :=
  digest_with v256 H256 K256 msg.

Definition sha512 (msg : list Byte.byte) : list Byte.byte :=
  digest_with v512 H512 K512 msg.

End Sha2.

(* ===================================================================== *)
(** * reset_machine.py: the machine-identity rewriter                    *)
(* ===================================================================== *)

Module ResetMachine.

(** ** Bytes, hexadecimal text and UUIDs *)

(** [int.from_bytes(bs, "big")] *)
Definition int_from_bytes (bs : list Byte.byte) : Z :=
  fold_left (fun acc b => acc * 256 + byte_val b) bs 0.

(** The lowercase hexadecimal digit of a nibble. *)
Definition hex_digit (n : Z) : ascii :=
  ascii_of_nat (Z.to_nat (if n <? 10 then 48 + n else 87 + n)).

(** ['%0wx' % z] for [0 <= z < 16^w]: the [w] low nibbles of [z], the most
    significant first. *)
Fixpoint hex_width (w : nat) (z : Z) : string :=
  match w with
  | O => EmptyString
  | S k =>
      String (hex_digit (Z.land (Z.shiftr z (4 * Z.of_nat k)) 15))
             (hex_width k z)
  end.

(** [bytes.hex()], which [hexdigest()] returns: two digits per byte. *)
Fixpoint hex_of_bytes (bs : list Byte.byte) : string :=
  match bs with
  | [] => EmptyString
  | b :: rest => hex_width 2 (byte_val b) ++ hex_of_bytes rest
  end.

(** [str.upper()] on ASCII text. *)
Definition upper_char (c : ascii) : ascii :=
  let n := nat_of_ascii c in
  if (Nat.leb 97 n && Nat.leb n 122)%bool then ascii_of_nat (n - 32) else c.

Fixpoint upper (s : string) : string :=
  match s with
  | EmptyString => EmptyString
  | String c rest => String (upper_char c) (upper rest)
  end.

(** The integer of [uuid.UUID(bytes=bs, version=4)]: the variant bits are set
    to [10], the version nibble to 4. *)
Definition uuid4_int (bs : list Byte.byte) : Z :=
  let i := int_from_bytes bs in
  let i := Z.land i (Z.lnot (Z.shiftl 0xc000 48)) in
  let i := Z.lor i (Z.shiftl 0x8000 48) in
  let i := Z.land i (Z.lnot (Z.shiftl 0xf000 64)) in
  Z.lor i (Z.shiftl 4 76).

(** [str(u)] for a UUID of integer [i]: 8-4-4-4-12 hexadecimal digits. *)
Definition uuid_str (i : Z) : string :=
  let h := hex_width 32 i in
  substring 0 8 h ++ "-" ++ substring 8 4 h ++ "-" ++ substring 12 4 h
  ++ "-" ++ substring 16 4 h ++ "-" ++ substring 20 12 h.

(** The version nibble and the variant bits of a UUID integer. *)
Definition uuid_version (i : Z) : Z := Z.land (Z.shiftr i 76) 15.
Definition uuid_variant (i : Z) : Z := Z.land (Z.shiftr i 62) 3.

(** Lowercase hexadecimal digits, as [hexdigest()] and [str(uuid)] use. *)
Definition is_lower_hex (c : ascii) : bool :=
  let n := nat_of_ascii c in
  ((Nat.leb 48 n && Nat.leb n 57) || (Nat.leb 97 n && Nat.leb n 102))%bool.

Fixpoint all_chars (p : ascii -> bool) (s : string) : bool :=
  match s with
  | EmptyString => true
  | String c rest => p c && all_chars p rest
  end.

(** ** The hash functions of [hashlib] *)

(** [hashlib.sha256(m).digest()] and [hashlib.sha512(m).digest()], with the
    digest sizes the library documents. *)
Class Hashlib : Type := {
  sha256 : list Byte.byte -> list Byte.byte;
  sha512 : list Byte.byte -> list Byte.byte;
  sha256_digest_size : forall m, List.length (sha256 m) = 32%nat;
  sha512_digest_size : forall m, List.length (sha512 m) = 64%nat
}.

(** ** The world the script runs in *)

(** What is at a path. *)
Inductive node : Type :=
| Missing
| Directory
| File (content : string).

(** A path as the operating system presents it: what is there, what
    [os.access(path, R_OK | W_OK)] answers, and the errors [open] and the
    write raise, if any ([write_fault]: the number of characters that reach
    the file before the error). *)
Record entry : Type := mk_entry {
  at_path : node;
  access_rw : bool;
  open_read_fault : option exn;
  open_write_fault : option exn;
  write_fault : option (nat * exn)
}.

(** The lines the script prints, one constructor per [print] call. *)
Inductive message : Type :=
| Checking                                  (* line 79  *)
| ConfigMissing (path : string)             (* line 83  *)
| CannotReadWrite                           (* line 90  *)
| ReadOnlyHint (path : string)              (* line 93  *)
| Reading                                   (* line 99  *)
| Generating                                (* line 104 *)
| Saving                                    (* line 111 *)
| ResetDone                                 (* line 116 *)
| NewIdsHeader                              (* line 117 *)
| NewId (key : string) (val : value)        (* line 120 *)
| PermissionProblem (detail : string)       (* line 126 *)
| RunAsAdminHint                            (* line 127 *)
| ResetFailed (detail : string).            (* line 133 *)

Record world : Type := mk_world {
  fs : string -> entry;          (* the file system, by path *)
  stdout : list message;         (* what has been printed, oldest first *)
  entropy : nat -> Byte.byte;    (* the bytes [os.urandom] will deliver *)
  drawn : nat                    (* how many of them have been delivered *)
}.

Definition set_node (w : world) (path : string) (n : node) : world :=
  let e := fs w path in
  mk_world
    (fun p => if String.eqb p path
              then mk_entry n (access_rw e) (open_read_fault e)
                            (open_write_fault e) (write_fault e)
              else fs w p)
    (stdout w) (entropy w) (drawn w).

(** A statement: it may read and change the world, and returns or raises. *)
Definition IO (A : Type) : Type := world -> result A * world.

Definition io_ret {A} (a : A) : IO A := fun w => (Return a, w).

Definition io_raise {A} (e : exn) : IO A := fun w => (Raise e, w).

Definition io_bind {A B} (m : IO A) (k : A -> IO B) : IO B :=
  fun w =>
    match m w with
    | (Return a, w') => k a w'
    | (Raise e, w') => (Raise e, w')
    end.

Definition lift {A} (r : result A) : IO A := fun w => (r, w).

Declare Scope io_scope.
Delimit Scope io_scope with io.
Notation "x <- c ;; k" := (io_bind c (fun x => k))
  (at level 61, c at next level, right associativity) : io_scope.
Notation "c ;; k" := (io_bind c (fun _ => k))
  (at level 61, right associativity) : io_scope.
Local Open Scope io_scope.

(** The world after some lines have been printed. *)
Definition printed (w : world) (ms : list message) : world :=
  mk_world (fs w) (stdout w ++ ms)%list (entropy w) (drawn w).

(** [print(...)] on a terminal that takes every line; [print_on] below is
    [print] on a terminal that can refuse one. *)
Definition print (m : message) : IO unit :=
  fun w => (Return tt, printed w [m]).

(** [os.urandom(n)] *)
Definition os_urandom (n : nat) : IO (list Byte.byte) :=
  fun w => (Return (map (entropy w) (seq (drawn w) n)),
            mk_world (fs w) (stdout w) (entropy w) (drawn w + n)%nat).

(** [os.path.exists(path)] *)
Definition os_path_exists (path : string) : IO bool :=
  fun w => (Return (match at_path (fs w path) with
                    | Missing => false
                    | _ => true
                    end), w).

(** [os.access(path, os.R_OK | os.W_OK)] *)
Definition os_access_rw (path : string) : IO bool :=
  fun w => (Return (match at_path (fs w path) with
                    | Missing => false
                    | _ => access_rw (fs w path)
                    end), w).

(** [with open(path, "r", encoding="utf-8") as f: f.read()], with the error
    POSIX systems give for a directory; [read_text_on] below tells Windows
    apart. *)
Definition read_text (path : string) : IO string :=
  fun w =>
    match open_read_fault (fs w path) with
    | Some e => (Raise e, w)
    | None =>
        match at_path (fs w path) with
        | Missing => (Raise (mk_exn FileNotFoundError path), w)
        | Directory => (Raise (mk_exn IsADirectoryError path), w)
        | File content => (Return content, w)
        end
    end.

(** [with open(path, "w", encoding="utf-8") as f: f.write(text)]: opening
    truncates the file; a failing write leaves what had reached it. *)
Definition write_text (path text : string) : IO unit :=
  fun w =>
    match open_write_fault (fs w path) with
    | Some e => (Raise e, w)
    | None =>
        match at_path (fs w path) with
        | Directory => (Raise (mk_exn IsADirectoryError path), w)
        | _ =>
            match write_fault (fs w path) with
            | Some (k, e) => (Raise e, set_node w path (File (substring 0 k text)))
            | None => (Return tt, set_node w path (File text))
            end
        end
    end.

(** [try: m  except PermissionError as e: h1 e  except Exception as e: h2 e]
    for the exceptions of [exn], all instances of [Exception];
    [hosted_try_except] below is the statement over everything that can be
    raised. *)
Definition io_try_except {A} (m : IO A)
           (on_permission_error on_exception : exn -> IO A) : IO A :=
  fun w =>
    match m w with
    | (Return a, w') => (Return a, w')
    | (Raise e, w') =>
        if isinstance e PermissionError then on_permission_error e w'
        else on_exception e w'
    end.

(** [for key, value in d.items(): print(...)] *)
Fixpoint print_ids (d : dict) : IO unit :=
  match d with
  | [] => io_ret tt
  | (key, val) :: rest => print (NewId key val) ;; print_ids rest
  end.

(** ** [MachineIDResetter] *)

Record MachineIDResetter : Type := { db_path : string }.

Section Resetter.

Context {hashlib : Hashlib}.

(** [json.load]: decoding the text of the file to a value, or the error the
    decoder raises. *)
Variable json_load : string -> result value.

(** [json.dumps(value, indent=4)], the text [json.dump] writes. *)
Variable json_dump : value -> string.

(** [uuid.uuid4()], as its integer *)
Definition uuid4 : IO Z :=
  bs <- os_urandom 16 ;;
  io_ret (uuid4_int bs).

(** [generate_new_ids(self)], lines 46-71 *)
Definition generate_new_ids (self : MachineIDResetter) : IO dict :=
  u <- uuid4 ;;
  let dev_device_id := uuid_str u in
  r32 <- os_urandom 32 ;;
  let machine_id := hex_of_bytes (sha256 r32) in
  r64 <- os_urandom 64 ;;
  let mac_machine_id := hex_of_bytes (sha512 r64) in
  u' <- uuid4 ;;
  let sqm_id := "{" ++ upper (uuid_str u') ++ "}" in
  io_ret [ ("telemetry.devDeviceId", VStr dev_device_id);
        ("telemetry.macMachineId", VStr mac_machine_id);
        ("telemetry.machineId", VStr machine_id);
        ("telemetry.sqmId", VStr sqm_id) ].

(** The [try] block of [reset_machine_ids], lines 79-122 *)
Definition reset_attempt (self : MachineIDResetter) : IO bool :=
  print Checking ;;
  present <- os_path_exists (db_path self) ;;
  if negb present then
    print (ConfigMissing (db_path self)) ;;
    io_ret false
  else
    allowed <- os_access_rw (db_path self) ;;
    if negb allowed then
      print CannotReadWrite ;;
      print (ReadOnlyHint (db_path self)) ;;
      io_ret false
    else
      print Reading ;;
      text <- read_text (db_path self) ;;
      config <- lift (json_load text) ;;
      print Generating ;;
      new_ids <- generate_new_ids self ;;
      config <- lift (py_update config new_ids) ;;
      print Saving ;;
      write_text (db_path self) (json_dump config) ;;
      print ResetDone ;;
      print NewIdsHeader ;;
      print_ids new_ids ;;
      io_ret true.

(** [reset_machine_ids(self)], lines 73-134 *)
Definition reset_machine_ids (self : MachineIDResetter) : IO bool :=
  io_try_except (reset_attempt self)
    (fun e =>
       print (PermissionProblem (exn_str e)) ;;
       print RunAsAdminHint ;;
       io_ret false)
    (fun e =>
       print (ResetFailed (exn_str e)) ;;
       io_ret false).

End Resetter.

(** The [n] bytes the entropy source delivers after the first [from]. *)
Definition draw (w : world) (from n : nat) : list Byte.byte :=
  map (entropy w) (seq (drawn w + from) n).

(** *** A machine to run the script on *)

(** An entropy source that delivers the bytes 0, 1, 2, ... *)
Definition counting : nat -> Byte.byte :=
  fun n => match Byte.of_N (N.of_nat (n mod 256)) with
           | Some b => b
           | None => Byte.x00
           end.

Definition sample_self : MachineIDResetter :=
  {| db_path := "/home/u/.config/Cursor/User/globalStorage/storage.json" |}.

(** A file system with one file, at [path]. *)
Definition one_file (path : string) (e : entry) : string -> entry :=
  fun p => if String.eqb p path then e
           else mk_entry Missing false None None None.

(** A decoder that knows one text. *)
Definition decoding (text : string) (v : value) : string -> result value :=
  fun t => if String.eqb t text then Return v
           else Raise (mk_exn JSONDecodeError "Expecting value").

(** A stand-in for the encoder, which only tells objects from the rest. *)
Definition sample_dump (v : value) : string :=
  match v with
  | VDict d => "{" ++ String.concat "," (dict_keys d) ++ "}"
  | _ => "?"
  end.

(** The object of the specification's example. *)
Definition sample_config : value :=
  VDict [("a", VInt 1); ("telemetry.machineId", VStr "old")].

(** A machine whose configuration file holds [sample_config]. *)
Definition sample_world : world :=
  mk_world (one_file (db_path sample_self)
              (mk_entry (File "CONFIG") true None None None))
           [] counting 0.

(** The same file, holding a JSON array. *)
Definition array_world : world :=
  mk_world (one_file (db_path sample_self)
              (mk_entry (File "[]") true None None None))
           [] counting 0.

(** The same file, which [open(..., "w")] refuses to open. *)
Definition locked_world : world :=
  mk_world (one_file (db_path sample_self)
              (mk_entry (File "CONFIG") true None
                 (Some (mk_exn PermissionError "[Errno 13] Permission denied"))
                 None))
           [] counting 0.

(** A machine without the configuration file. *)
Definition empty_world : world :=
  mk_world (fun _ => mk_entry Missing false None None None) [] counting 0.

(** The four keys [generate_new_ids] produces. *)
Definition telemetry_keys : list string :=
  [ "telemetry.devDeviceId"; "telemetry.macMachineId";
    "telemetry.machineId"; "telemetry.sqmId" ].

(** ** Reading the identifiers back, to compare what [generate_new_ids]
    writes with *)

(** The value of a hexadecimal digit of either case, as [int(c, 16)] reads
    it. *)
Definition digit_value (c : ascii) : option Z :=
  let n := Z.of_nat (nat_of_ascii c) in
  if (48 <=? n) && (n <=? 57) then Some (n - 48)
  else if (97 <=? n) && (n <=? 102) then Some (n - 87)
  else if (65 <=? n) && (n <=? 70) then Some (n - 55)
  else None.

(** [uuid.UUID(text).int]: braces and dashes are dropped, the digits are read
    in base 16. *)
Fixpoint read_uuid (acc : Z) (s : string) : option Z :=
  match s with
  | EmptyString => Some acc
  | String c rest =>
      if (Ascii.eqb c "-" || Ascii.eqb c "{" || Ascii.eqb c "}")%bool
      then read_uuid acc rest
      else match digit_value c with
           | Some d => read_uuid (16 * acc + d) rest
           | None => None
           end
  end.

Definition uuid_of_text (s : string) : option Z := read_uuid 0 s.

(** [bytes.fromhex(text)]: two digits per byte. *)
Fixpoint bytes_fromhex (s : string) : option (list Byte.byte) :=
  match s with
  | EmptyString => Some []
  | String hi (String lo rest) =>
      match digit_value hi, digit_value lo, bytes_fromhex rest with
      | Some x, Some y, Some bs =>
          match Byte.of_N (Z.to_N (16 * x + y)) with
          | Some b => Some (b :: bs)
          | None => None
          end
      | _, _, _ => None
      end
  | String _ EmptyString => None
  end.

(** Bit [n] of the sixteen bytes the entropy source delivers from position
    [from] on, read as one big-endian integer: bit 0 is the lowest bit of the
    last byte. *)
Definition entropy_bit (w : world) (from : nat) (n : Z) : bool :=
  Z.testbit (byte_val (entropy w (drawn w + from + (15 - Z.to_nat (n / 8)))%nat))
            (n mod 8).

(** ** Vocabulary for the further properties *)

(** The world after [n] more bytes of entropy have been delivered. *)
Definition drew (w : world) (n : nat) : world :=
  mk_world (fs w) (stdout w) (entropy w) (drawn w + n).

(** The identifiers [generate_new_ids] returns in a world. *)
Definition new_ids_of {hashlib : Hashlib} (self : MachineIDResetter)
  (w : world) : dict :=
  match fst (generate_new_ids self w) with
  | Return ids => ids
  | Raise _ => []
  end.

(** The lines the loop of line 119 prints for a dictionary. *)
Definition id_lines (ids : dict) : list message :=
  map (fun kv => NewId (fst kv) (snd kv)) ids.

(** Uppercase hexadecimal digits. *)
Definition is_upper_hex (c : ascii) : bool :=
  let n := nat_of_ascii c in
  ((Nat.leb 48 n && Nat.leb n 57) || (Nat.leb 65 n && Nat.leb n 70))%bool.

(** The 8-4-4-4-12 layout of a UUID text from position [i] on: dashes at
    positions 8, 13, 18 and 23, digits elsewhere, 36 characters in all. *)
Fixpoint uuid_layout_from (digit : ascii -> bool) (i : nat) (s : string)
  : bool :=
  match s with
  | EmptyString => Nat.eqb i 36
  | String c rest =>
      (if (Nat.eqb i 8 || Nat.eqb i 13 || Nat.eqb i 18 || Nat.eqb i 23)%bool
       then Ascii.eqb c "-" else digit c)
      && uuid_layout_from digit (S i) rest
  end.

Definition uuid_layout (digit : ascii -> bool) (s : string) : bool :=
  uuid_layout_from digit 0 s.

(** *** Construction *)

(** The two errors [__init__] raises: [EnvironmentError] when [APPDATA] is
    not set on Windows, [NotImplementedError] for a platform it does not
    know. *)
Inductive construction_error : Type :=
| AppDataNotSet
| UnsupportedPlatform (platform : string).

(** What [__init__] uses of the [os] module. *)
Record os_module : Type := {
  getenv : string -> option string;
  path_join : string -> list string -> string;
  path_expanduser : string -> string;
  path_abspath : string -> string
}.

(** [MachineIDResetter.__init__], lines 23-44, for [sys.platform] as
    given. *)
Definition __init__ (os : os_module) (platform : string)
  : construction_error + MachineIDResetter :=
  if String.eqb platform "win32" then
    match getenv os "APPDATA" with
    | None => inl AppDataNotSet
    | Some appdata =>
        inr {| db_path := path_join os appdata
                            ["Cursor"; "User"; "globalStorage"; "storage.json"] |}
    end
  else if String.eqb platform "darwin" then
    inr {| db_path :=
             path_abspath os
               (path_expanduser os
                  "~/Library/Application Support/Cursor/User/globalStorage/storage.json") |}
  else if String.eqb platform "linux" then
    inr {| db_path :=
             path_abspath os
               (path_expanduser os
                  "~/.config/Cursor/User/globalStorage/storage.json") |}
  else inl (UnsupportedPlatform platform).

(** An [os] module for a POSIX account [u] whose home is [/home/u], with
    paths that need no normalisation. *)
Definition posix_os : os_module :=
  {| getenv := fun _ => None;
     path_join := fun first rest => String.concat "/" (first :: rest);
     path_expanduser := fun p => "/home/u" ++ substring 1 (String.length p - 1) p;
     path_abspath := fun p => p |}.

(** *** The script *)

(** What the script shows: the lines of the reset, between the banner and
    the closing rule, and the prompt of [input]. *)
Inductive script_line : Type :=
| Rule (after_blank_line : bool)     (* lines 140, 142, 149 *)
| Title                              (* line 141 *)
| Said (m : message)
| ExitPrompt.                        (* line 150 *)

(** How the script ends: normally, or with the traceback of an exception
    nothing catches. *)
Inductive script_end : Type :=
| Finished
| ConstructionFailed (err : construction_error)
| ResetRaised (e : exn)
| EndOfInput.                        (* [EOFError] of [input] *)

(** The world with a terminal on which nothing has been shown yet. *)
Definition fresh_terminal (w : world) : world :=
  mk_world (fs w) [] (entropy w) (drawn w).

(** The block under [if __name__ == "__main__"], lines 138-150; [stdin] is
    the line the operator types, if the input has not ended. *)
Definition main {hashlib : Hashlib}
  (json_load : string -> result value) (json_dump : value -> string)
  (os : os_module) (platform : string) (stdin : option string) (w : world)
  : script_end * world * list script_line :=
  let banner := [Rule true; Title; Rule false] in
  match __init__ os platform with
  | inl err => (ConstructionFailed err, w, banner)
  | inr resetter =>
      match reset_machine_ids json_load json_dump resetter (fresh_terminal w)
      with
      | (Raise e, w') => (ResetRaised e, w', banner ++ map Said (stdout w'))%list
      | (Return _, w') =>
          (match stdin with
           | Some _ => Finished
           | None => EndOfInput
           end,
           w',
           banner ++ map Said (stdout w') ++ [Rule true; ExitPrompt])%list
      end
  end.

(** *** More machines *)

(** The configuration path is a directory. *)
Definition directory_world : world :=
  mk_world (one_file (db_path sample_self)
              (mk_entry Directory true None None None))
           [] counting 0.

(** The disk fills up after ten characters of the new configuration. *)
Definition full_disk_world : world :=
  mk_world (one_file (db_path sample_self)
              (mk_entry (File "CONFIG") true None None
                 (Some (10%nat, mk_exn OSError
                                  "[Errno 28] No space left on device"))))
           [] counting 0.

(** ** The script on a host that can refuse a line or interrupt *)

(** The statements of the [try] block other than the [print] calls. *)
Inductive statement : Type :=
| PathExists          (* line 82  *)
| Access              (* line 89  *)
| OpenRead            (* line 100 *)
| JsonLoad            (* line 101 *)
| GenerateNewIds      (* line 105 *)
| Update              (* line 108 *)
| OpenWrite           (* line 112 *)
| JsonDump.           (* line 113 *)

(** The host of a run: [sys.platform]; what [print] raises for a line the
    terminal cannot take, if anything ([UnicodeEncodeError] for text outside
    its encoding, [OSError] when the stream is gone); and the exception
    outside [Exception] that arrives when a statement is about to run, if
    any ([KeyboardInterrupt] when the operator presses Ctrl-C). *)
Record host : Type := mk_host {
  sys_platform : string;
  terminal : script_line -> option thrown;
  interrupt : statement -> option signal
}.

(** A statement on a host: besides returning or raising an instance of
    [Exception] it can end by any exception. *)
Definition Hosted (A : Type) : Type := world -> outcome A * world.

Definition hosted_ret {A} (a : A) : Hosted A := fun w => (Returns a, w).

Definition hosted_bind {A B} (m : Hosted A) (k : A -> Hosted B) : Hosted B :=
  fun w =>
    match m w with
    | (Returns a, w') => k a w'
    | (Raises t, w') => (Raises t, w')
    end.

(** A statement of the first embedding, on a host. *)
Definition hosted {A} (m : IO A) : Hosted A :=
  fun w => let (r, w') := m w in (of_result r, w').

(** A statement before which an interrupt can arrive. *)
Definition interruptible {A} (h : host) (s : statement) (m : Hosted A)
  : Hosted A :=
  fun w =>
    match interrupt h s with
    | Some sg => (Raises (Sig sg), w)
    | None => m w
    end.

Declare Scope host_scope.
Delimit Scope host_scope with host.
Notation "x <- c ;; k" := (hosted_bind c (fun x => k))
  (at level 61, c at next level, right associativity) : host_scope.
Notation "c ;; k" := (hosted_bind c (fun _ => k))
  (at level 61, right associativity) : host_scope.
Local Open Scope host_scope.

(** [print(...)]: the line reaches the terminal, or [print] raises. *)
Definition print_on (h : host) (m : message) : Hosted unit :=
  fun w =>
    match terminal h (Said m) with
    | Some t => (Raises t, w)
    | None => (Returns tt, printed w [m])
    end.

(** [os.access(path, os.R_OK | os.W_OK)]: on Windows every directory
    passes. *)
Definition os_access_rw_on (h : host) (path : string) : Hosted bool :=
  fun w => (Returns (match at_path (fs w path) with
                     | Missing => false
                     | Directory =>
                         if String.eqb (sys_platform h) "win32" then true
                         else access_rw (fs w path)
                     | File _ => access_rw (fs w path)
                     end), w).

(** What [open] raises for a directory: [PermissionError] on Windows,
    [IsADirectoryError] elsewhere. *)
Definition open_directory_error (h : host) (path : string) : exn :=
  if String.eqb (sys_platform h) "win32"
  then mk_exn PermissionError path
  else mk_exn IsADirectoryError path.

(** [with open(path, "r", encoding="utf-8") as f: f.read()] *)
Definition read_text_on (h : host) (path : string) : Hosted string :=
  fun w =>
    match open_read_fault (fs w path) with
    | Some e => (Raises (Exc e), w)
    | None =>
        match at_path (fs w path) with
        | Missing => (Raises (Exc (mk_exn FileNotFoundError path)), w)
        | Directory => (Raises (Exc (open_directory_error h path)), w)
        | File content => (Returns content, w)
        end
    end.

(** [with open(path, "w", encoding="utf-8") as f: f.write(text)]: an
    interrupt that arrives once the file is open finds it truncated. *)
Definition write_text_on (h : host) (path text : string) : Hosted unit :=
  interruptible h OpenWrite
    (fun w =>
       match open_write_fault (fs w path) with
       | Some e => (Raises (Exc e), w)
       | None =>
           match at_path (fs w path) with
           | Directory => (Raises (Exc (open_directory_error h path)), w)
           | _ =>
               match interrupt h JsonDump with
               | Some sg => (Raises (Sig sg), set_node w path (File ""))
               | None =>
                   match write_fault (fs w path) with
                   | Some (k, e) =>
                       (Raises (Exc e),
                        set_node w path (File (substring 0 k text)))
                   | None => (Returns tt, set_node w path (File text))
                   end
               end
           end
       end).

(** [try: m  except PermissionError as e: h1 e  except Exception as e: h2 e],
    with the class tests of the two clauses. *)
Definition hosted_try_except {A} (m : Hosted A)
           (on_permission_error on_exception : exn -> Hosted A) : Hosted A :=
  fun w =>
    match m w with
    | (Returns a, w') => (Returns a, w')
    | (Raises (Exc e), w') =>
        if isinstance e PermissionError then on_permission_error e w'
        else if isinstance e Exception then on_exception e w'
        else (Raises (Exc e), w')
    | (Raises (Sig s), w') => (Raises (Sig s), w')
    end.

(** [for key, value in d.items(): print(...)] *)
Fixpoint print_ids_on (h : host) (d : dict) : Hosted unit :=
  match d with
  | [] => hosted_ret tt
  | (key, val) :: rest => print_on h (NewId key val) ;; print_ids_on h rest
  end.

Section HostedResetter.

Context {hashlib : Hashlib}.
Variable json_load : string -> result value.
Variable json_dump : value -> string.
Variable h : host.

(** The [try] block of [reset_machine_ids], lines 79-122 *)
Definition reset_attempt_on (self : MachineIDResetter) : Hosted bool :=
  print_on h Checking ;;
  present <- interruptible h PathExists
               (hosted (os_path_exists (db_path self))) ;;
  if negb present then
    print_on h (ConfigMissing (db_path self)) ;;
    hosted_ret false
  else
    allowed <- interruptible h Access (os_access_rw_on h (db_path self)) ;;
    if negb allowed then
      print_on h CannotReadWrite ;;
      print_on h (ReadOnlyHint (db_path self)) ;;
      hosted_ret false
    else
      print_on h Reading ;;
      text <- interruptible h OpenRead (read_text_on h (db_path self)) ;;
      config <- interruptible h JsonLoad (hosted (lift (json_load text))) ;;
      print_on h Generating ;;
      new_ids <- interruptible h GenerateNewIds
                   (hosted (generate_new_ids self)) ;;
      config <- interruptible h Update
                  (hosted (lift (py_update config new_ids))) ;;
      print_on h Saving ;;
      write_text_on h (db_path self) (json_dump config) ;;
      print_on h ResetDone ;;
      print_on h NewIdsHeader ;;
      print_ids_on h new_ids ;;
      hosted_ret true.

(** [reset_machine_ids(self)], lines 73-134 *)
Definition reset_machine_ids_on (self : MachineIDResetter) : Hosted bool :=
  hosted_try_except (reset_attempt_on self)
    (fun e =>
       print_on h (PermissionProblem (exn_str e)) ;;
       print_on h RunAsAdminHint ;;
       hosted_ret false)
    (fun e =>
       print_on h (ResetFailed (exn_str e)) ;;
       hosted_ret false).

End HostedResetter.

(** How the script ends on a host. *)
Inductive script_exit : Type :=
| Exited
| NotConstructed (err : construction_error)
| Traceback (t : thrown)
| InputEnded.                        (* [EOFError] of [input] *)

(** What the script has shown when it has run up to a line the terminal
    refuses, or through all of [ls]. *)
Fixpoint print_lines (h : host) (ls : list script_line)
  : option thrown * list script_line :=
  match ls with
  | [] => (None, [])
  | l :: rest =>
      match terminal h l with
      | Some t => (Some t, [])
      | None => let (r, shown) := print_lines h rest in (r, l :: shown)
      end
  end.

(** The block under [if __name__ == "__main__"], lines 138-150 *)
Definition main_on {hashlib : Hashlib}
  (json_load : string -> result value) (json_dump : value -> string)
  (h : host) (os : os_module) (stdin : option string) (w : world)
  : script_exit * world * list script_line :=
  match print_lines h [Rule true; Title; Rule false] with
  | (Some t, shown) => (Traceback t, w, shown)
  | (None, banner) =>
      match __init__ os (sys_platform h) with
      | inl err => (NotConstructed err, w, banner)
      | inr resetter =>
          match reset_machine_ids_on json_load json_dump h resetter
                  (fresh_terminal w)
          with
          | (Raises t, w') =>
              (Traceback t, w', banner ++ map Said (stdout w'))%list
          | (Returns _, w') =>
              match print_lines h [Rule true; ExitPrompt] with
              | (Some t, shown) =>
                  (Traceback t, w',
                   banner ++ map Said (stdout w') ++ shown)%list
              | (None, closing) =>
                  (match stdin with
                   | Some _ => Exited
                   | None => InputEnded
                   end,
                   w',
                   banner ++ map Said (stdout w') ++ closing)%list
              end
          end
      end
  end.

(** A POSIX host whose terminal takes every line and where nothing
    interrupts. *)
Definition quiet_host : host :=
  mk_host "linux" (fun _ => None) (fun _ => None).

(** The same with a terminal whose encoding is ASCII: it takes the rules,
    which are made of [=], and refuses every line with an emoji or Chinese
    text, which is every other line of the script. *)
Definition ascii_terminal : host :=
  mk_host "linux"
    (fun l => match l with
              | Rule _ => None
              | _ => Some (Exc (mk_exn UnicodeEncodeError
                                  "'ascii' codec can't encode character"))
              end)
    (fun _ => None).

(** The operator presses Ctrl-C while the file is being decoded. *)
Definition interrupted_load : host :=
  mk_host "linux" (fun _ => None)
    (fun s => match s with
              | JsonLoad => Some (mk_signal KeyboardInterrupt "")
              | _ => None
              end).

(** A Windows host. *)
Definition windows_host : host :=
  mk_host "win32" (fun _ => None) (fun _ => None).

(** A statement that never ends by an exception outside [Exception]. *)
Definition raises_no_signal {A} (m : Hosted A) : Prop :=
  forall w s w', m w <> (Raises (Sig s), w').

End ResetMachine.

(* ===================================================================== *)
(** * Facts about the runtime fragment                                   *)
(* ===================================================================== *)

Module PyFacts.

Lemma isinstance_Exception (e : exn) : isinstance e Exception = true.
Proof. destruct e as [c msg]; destruct c; reflexivity. Qed.

Lemma isinstance_PermissionError (e : exn) :
  isinstance e PermissionError = true <-> exn_cls e = PermissionError.
Proof.
  destruct e as [c msg]; destruct c; cbn; split; intro H;
    first [reflexivity | discriminate H].
Qed.

(** *** Dictionaries *)

Lemma dict_get_set_same (d : dict) (k : string) (v : value) :
  dict_get (dict_set d k v) k = Some v.
Proof.
  induction d as [|[k' v'] rest IH]; cbn.
  - now rewrite String.eqb_refl.
  - destruct (String.eqb k' k) eqn:E; cbn; rewrite E; [reflexivity | exact IH].
Qed.

Lemma dict_get_set_other (d : dict) (k k' : string) (v : value) :
  k <> k' -> dict_get (dict_set d k v) k' = dict_get d k'.
Proof.
  intros Hne. induction d as [|[k0 v0] rest IH]; cbn.
  - destruct (String.eqb k k') eqn:E; [|reflexivity].
    apply String.eqb_eq in E. contradiction.
  - destruct (String.eqb k0 k) eqn:E; cbn.
    + apply String.eqb_eq in E. subst k0.
      destruct (String.eqb k k') eqn:E'; [|reflexivity].
      apply String.eqb_eq in E'. contradiction.
    + now rewrite IH.
Qed.

(** [update] leaves alone every key the other dictionary does not have. *)
Lemma dict_get_update_frame (other d : dict) (k : string) :
  ~ In k (dict_keys other) ->
  dict_get (dict_update d other) k = dict_get d k.
Proof.
  unfold dict_update. revert d.
  induction other as [|[k0 v0] rest IH]; intros d Hnot; cbn.
  - reflexivity.
  - rewrite IH.
    + apply dict_get_set_other. intro E. apply Hnot. left. exact E.
    + intro Hin. apply Hnot. right. exact Hin.
Qed.

(** A key of the other dictionary that occurs once in it ends with the
    other dictionary's value. *)
Lemma dict_get_update_last (other d : dict) (k : string) (v : value) :
  ~ In k (dict_keys other) ->
  dict_get (dict_update (dict_set d k v) other) k = Some v.
Proof.
  intro Hnot. rewrite dict_get_update_frame by exact Hnot.
  apply dict_get_set_same.
Qed.

(** A key of the other dictionary ends with the other dictionary's value. *)
Lemma dict_get_update_in (other d : dict) (k : string) :
  NoDup (dict_keys other) -> In k (dict_keys other) ->
  dict_get (dict_update d other) k = dict_get other k.
Proof.
  unfold dict_update. revert d.
  induction other as [|[k0 v0] rest IH]; intros d Hnd Hin; cbn in *.
  - contradiction.
  - inversion Hnd as [|? ? Hnotin Hnd']; subst.
    destruct (String.eqb k0 k) eqn:E.
    + apply String.eqb_eq in E. subst k0.
      apply (dict_get_update_last rest d k v0 Hnotin).
    + apply String.eqb_neq in E. destruct Hin as [Hin|Hin]; [contradiction|].
      apply IH; assumption.
Qed.

Lemma dict_keys_set (d : dict) (k : string) (v : value) :
  dict_keys (dict_set d k v) =
  if dict_mem d k then dict_keys d else (dict_keys d ++ [k])%list.
Proof.
  unfold dict_mem, dict_keys. induction d as [|[k0 v0] rest IH]; cbn.
  - reflexivity.
  - destruct (String.eqb k0 k) eqn:E; cbn.
    + reflexivity.
    + rewrite IH. now destruct (dict_get rest k).
Qed.

Lemma dict_mem_keys (d : dict) (k : string) :
  dict_mem d k = true <-> In k (dict_keys d).
Proof.
  unfold dict_mem, dict_keys. induction d as [|[k0 v0] rest IH]; cbn.
  - split; [discriminate | tauto].
  - destruct (String.eqb k0 k) eqn:E.
    + apply String.eqb_eq in E. split; auto.
    + apply String.eqb_neq in E. rewrite IH. split; [auto | intros [H|H]; tauto].
Qed.

(** The keys of a dictionary are unique, and [d[k] = v] keeps them so. *)
Lemma dict_set_NoDup (d : dict) (k : string) (v : value) :
  NoDup (dict_keys d) -> NoDup (dict_keys (dict_set d k v)).
Proof.
  intro Hnd. rewrite dict_keys_set.
  destruct (dict_mem d k) eqn:E; [exact Hnd|].
  apply NoDup_app; [exact Hnd | repeat constructor; intros [] | ].
  intros x Hx [Hk|[]]. subst x.
  apply dict_mem_keys in Hx. congruence.
Qed.

Lemma dict_update_NoDup (other d : dict) :
  NoDup (dict_keys d) -> NoDup (dict_keys (dict_update d other)).
Proof.
  unfold dict_update. revert d.
  induction other as [|[k v] rest IH]; intros d Hnd; cbn; [exact Hnd|].
  apply IH, dict_set_NoDup, Hnd.
Qed.

(** *** Substrings *)

Lemma prefix_iff (p s : string) :
  String.prefix p s = true <-> exists rest, s = p ++ rest.
Proof.
  revert s. induction p as [|c p IH]; intros s.
  - destruct s; cbn; split; eauto.
  - destruct s as [|c' s]; cbn.
    + split; [discriminate | intros [rest H]; discriminate H].
    + destruct (ascii_dec c c') as [->|Hne].
      * rewrite IH. split; intros [rest H]; exists rest.
        -- now rewrite H.
        -- now injection H.
      * split; [discriminate|]. intros [rest H]. injection H as Hc _.
        now elim Hne.
Qed.

(** [str_contains] decides the occurrence of the needle somewhere in the
    text. *)
Lemma str_contains_iff (needle hay : string) :
  str_contains needle hay = true <->
  exists before after, hay = before ++ needle ++ after.
Proof.
  induction hay as [|c hay IH].
  - cbn [str_contains]. rewrite orb_false_r, prefix_iff. split.
    + intros [rest H]. exists "", rest. exact H.
    + intros [before [after H]]. destruct before; [|discriminate H].
      exists after. exact H.
  - cbn [str_contains]. rewrite orb_true_iff, prefix_iff, IH. split.
    + intros [[rest H] | [before [after H]]].
      * exists "", rest. exact H.
      * exists (String c before), after. cbn. now rewrite H.
    + intros [before [after H]]. destruct before as [|c' before].
      * left. exists after. exact H.
      * right. cbn in H. injection H as _ H. eauto.
Qed.

(** *** The order of the keys *)

Lemma dict_mem_set_other (d : dict) (k k' : string) (v : value) :
  k <> k' -> dict_mem (dict_set d k v) k' = dict_mem d k'.
Proof. intro H. unfold dict_mem. now rewrite dict_get_set_other. Qed.

(** [update] keeps the keys of the dictionary in their order and puts the
    new keys of the other dictionary after them, in the other's order. *)
Lemma dict_keys_update (other d : dict) :
  NoDup (dict_keys other) ->
  dict_keys (dict_update d other)
  = (dict_keys d
       ++ filter (fun k => negb (dict_mem d k)) (dict_keys other))%list.
Proof.
  unfold dict_update. revert d.
  induction other as [|[k v] rest IH]; intros d Hnd.
  - cbn. now rewrite app_nil_r.
  - cbn [fold_left fst snd]. inversion Hnd as [|? ? Hnotin Hnd']; subst.
    change (map fst rest) with (dict_keys rest) in *.
    rewrite (IH (dict_set d k v) Hnd'), dict_keys_set.
    assert (Hfilter :
      filter (fun x => negb (dict_mem (dict_set d k v) x)) (dict_keys rest)
      = filter (fun x => negb (dict_mem d x)) (dict_keys rest)).
    { apply filter_ext_in. intros x Hx.
      rewrite dict_mem_set_other; [reflexivity|].
      intros ->. contradiction. }
    rewrite Hfilter.
    change (dict_keys ((k, v) :: rest)) with (k :: dict_keys rest).
    cbn [filter]. destruct (dict_mem d k); cbn [negb].
    + reflexivity.
    + now rewrite <- app_assoc.
Qed.

Lemma dict_get_in (d : dict) (k : string) (v : value) :
  NoDup (dict_keys d) -> In (k, v) d -> dict_get d k = Some v.
Proof.
  unfold dict_keys. induction d as [|[k0 v0] rest IH]; intros Hnd Hin.
  - contradiction.
  - cbn in *. inversion Hnd as [|? ? Hnotin Hnd']; subst.
    destruct Hin as [Heq|Hin].
    + injection Heq as -> ->. now rewrite String.eqb_refl.
    + destruct (String.eqb k0 k) eqn:E; [|now apply IH].
      apply String.eqb_eq in E. subst k0.
      elim Hnotin. apply (in_map fst) in Hin. exact Hin.
Qed.

End PyFacts.

(* ===================================================================== *)
(** * tokenManager/cursor.py: properties                                 *)
(* ===================================================================== *)

Module CursorSpec.
Import Cursor.

(** *** The decoded body *)

Lemma remaining_balance_no_usage (d : dict) :
  dict_get d "gpt-4" = None \/ dict_get d "gpt-4" = Some VNone ->
  remaining_balance_of (VDict d) = Return VNone.
Proof.
  unfold remaining_balance_of, py_get.
  intros [H|H]; rewrite H; reflexivity.
Qed.

Lemma remaining_balance_key_missing (d usage : dict) :
  dict_get d "gpt-4" = Some (VDict usage) ->
  dict_get usage "maxRequestUsage" = None \/
  dict_get usage "numRequests" = None ->
  remaining_balance_of (VDict d) = Return VNone.
Proof.
  unfold remaining_balance_of, py_get. intros Hu Hk. rewrite Hu.
  cbn [rbind py_contains]. unfold dict_mem.
  destruct (dict_get usage "maxRequestUsage") as [a|]; [|reflexivity].
  destruct Hk as [Hk|Hk]; [discriminate Hk|]. now rewrite Hk.
Qed.

Lemma remaining_balance_difference (d usage : dict) (a b : value) :
  dict_get d "gpt-4" = Some (VDict usage) ->
  dict_get usage "maxRequestUsage" = Some a ->
  dict_get usage "numRequests" = Some b ->
  remaining_balance_of (VDict d) = py_sub a b.
Proof.
  unfold remaining_balance_of, py_get. intros Hu Ha Hb. rewrite Hu.
  cbn [rbind py_contains py_getitem]. unfold dict_mem.
  now rewrite Ha, Hb.
Qed.

(** The usual answer of the service: 500 allowed, 120 used. *)
Example balance_500_120 :
  remaining_balance_of
    (VDict [("gpt-4", VDict [("numRequests", VInt 120);
                             ("maxRequestUsage", VInt 500)])])
  = Return (VInt 380).
Proof. reflexivity. Qed.

(** No clamping: an account beyond its limit has a negative balance. *)
Example balance_over_limit :
  remaining_balance_of
    (VDict [("gpt-4", VDict [("numRequests", VInt 650);
                             ("maxRequestUsage", VInt 500)])])
  = Return (VInt (-150)).
Proof. reflexivity. Qed.

(** A limit the service reports as [null] is present, so the subtraction is
    attempted and fails. *)
Example balance_null_limit :
  remaining_balance_of
    (VDict [("gpt-4", VDict [("numRequests", VInt 3);
                             ("maxRequestUsage", VNone)])])
  = Raise (mk_exn TypeError
             "unsupported operand type(s) for -: 'NoneType' and 'int'").
Proof. reflexivity. Qed.

(** A usage entry that is a number is no container. *)
Example balance_usage_number :
  remaining_balance_of (VDict [("gpt-4", VInt 5)])
  = Raise (mk_exn TypeError "argument of type 'int' is not iterable").
Proof. reflexivity. Qed.

(** Fractional counts subtract as doubles. *)
Example balance_float :
  remaining_balance_of
    (VDict [("gpt-4", VDict [("numRequests", VFloat 120.5);
                             ("maxRequestUsage", VInt 500)])])
  = Return (VFloat 379.5).
Proof. reflexivity. Qed.

(** *** The whole call *)

(** C1 (as amended).  For every user and token, when the service answers
    [get_remaining_balance]'s request with a body that decodes to a JSON
    object: the call returns [None] if the object has no ["gpt-4"] member or
    a [null] one, and if that member is an object lacking ["maxRequestUsage"]
    or ["numRequests"]; when the member is an object holding both keys the
    call yields Python's [maxRequestUsage - numRequests], which for two
    integers is their difference, negative when the account is beyond its
    limit. *)
Theorem get_remaining_balance_object_body
  (requests_get : request -> result response)
  (user token : string) (resp : response) (d : dict) :
  requests_get (GET ("https://www.cursor.com/api/usage?user=" ++ user)
                    (headers user token)) = Return resp ->
  json resp = Return (VDict d) ->
  let outcome := snd (get_remaining_balance requests_get user token) in
  (dict_get d "gpt-4" = None \/ dict_get d "gpt-4" = Some VNone ->
   outcome = Return VNone)
  /\ (forall usage, dict_get d "gpt-4" = Some (VDict usage) ->
      (dict_get usage "maxRequestUsage" = None \/
       dict_get usage "numRequests" = None ->
       outcome = Return VNone)
      /\ (forall a b,
            dict_get usage "maxRequestUsage" = Some a ->
            dict_get usage "numRequests" = Some b ->
            outcome = py_sub a b)
      /\ (forall m n,
            dict_get usage "maxRequestUsage" = Some (VInt m) ->
            dict_get usage "numRequests" = Some (VInt n) ->
            outcome = Return (VInt (m - n)))).
Proof.
  intros Hget Hjson outcome. subst outcome.
  unfold get_remaining_balance. cbn [snd]. rewrite Hget. cbn [rbind].
  rewrite Hjson. cbn [rbind]. split.
  - apply remaining_balance_no_usage.
  - intros usage Hu. repeat split.
    + apply (remaining_balance_key_missing d usage Hu).
    + intros a b. now apply remaining_balance_difference.
    + intros m n Hm Hn.
      now rewrite (remaining_balance_difference d usage _ _ Hu Hm Hn).
Qed.

Lemma get_remaining_balance_object_body_witness :
  snd (get_remaining_balance
         (answering (VDict [("gpt-4", VDict [("numRequests", VInt 120);
                                             ("maxRequestUsage", VInt 500)])]))
         "user_01" "tok")
  = Return (VInt (500 - 120)).
Proof.
  pose proof (get_remaining_balance_object_body
                (answering (VDict [("gpt-4", VDict [("numRequests", VInt 120);
                                                    ("maxRequestUsage", VInt 500)])]))
                "user_01" "tok" _ _ eq_refl eq_refl) as H.
  destruct H as [_ H].
  destruct (H _ eq_refl) as [_ [_ Hdiff]].
  apply Hdiff; reflexivity.
Defined.

(** C1 (as stated) fails: a body that is a JSON array has no usage
    sub-object, and the call raises [AttributeError] where the claim has it
    return [None]. *)
Lemma get_remaining_balance_array_body :
  ~ returns_as_stated (VList [])
      (snd (get_remaining_balance (answering (VList [])) "user_01" "tok")).
Proof.
  unfold returns_as_stated. cbn. discriminate.
Qed.

(** The same for an object whose limit is [null]: both keys are present and
    there is no difference to return. *)
Lemma get_remaining_balance_null_limit :
  let body := VDict [("gpt-4", VDict [("numRequests", VInt 3);
                                      ("maxRequestUsage", VNone)])] in
  ~ returns_as_stated body
      (snd (get_remaining_balance (answering body) "user_01" "tok")).
Proof.
  unfold returns_as_stated. cbn. intros [r [H _]]. discriminate H.
Qed.

(** *** The session cookie *)

Lemma url_encode_app (s t : string) :
  url_encode (s ++ t) = url_encode s ++ url_encode t.
Proof.
  induction s as [|c s IH]; cbn; [reflexivity|].
  rewrite IH. now destruct (unreserved c).
Qed.

Lemma url_encode_unreserved (s : string) :
  all_unreserved s = true -> url_encode s = s.
Proof.
  induction s as [|c s IH]; cbn; [reflexivity|].
  intro H. apply andb_true_iff in H. destruct H as [Hc Hs].
  now rewrite Hc, IH.
Qed.

(** The separator the two f-strings spell out is the encoded [::]. *)
Lemma separator_encoded : url_encode "::" = "%3A%3A".
Proof. reflexivity. Qed.







(** User identifiers and tokens made of unreserved characters (letters,
    digits, [-], [.], [_], [~]) need no escaping: for them the cookie value is
    the URL-encoding of the whole of [user::token]. *)
Lemma session_cookie_whole_encoding (user token : string) :
  all_unreserved user = true ->
  all_unreserved token = true ->
  header (headers user token) "Cookie"
  = Some ("WorkosCursorSessionToken=" ++ url_encode (user ++ "::" ++ token)).
Proof.
  intros Hu Ht. rewrite !url_encode_app.
  now rewrite (url_encode_unreserved _ Hu), (url_encode_unreserved _ Ht).
Qed.

(** The user identifier and the token themselves are sent as they are. *)
Example session_cookie_verbatim :
  header (headers "a:b" "t") "Cookie"
  = Some "WorkosCursorSessionToken=a:b%3A%3At".
Proof. reflexivity. Qed.

(** *** Further properties of the client *)

Lemma get_remaining_balance_via
  (requests_get : request -> result response) (user token : string) :
  snd (get_remaining_balance requests_get user token)
  = rbind (decoded requests_get
             (GET ("https://www.cursor.com/api/usage?user=" ++ user)
                  (headers user token)))
          remaining_balance_of.
Proof.
  unfold get_remaining_balance, decoded. cbn [snd].
  now destruct (requests_get _).
Qed.

Lemma get_trial_remaining_days_via
  (requests_get : request -> result response) (user token : string) :
  snd (get_trial_remaining_days requests_get user token)
  = rbind (decoded requests_get
             (GET "https://www.cursor.com/api/auth/stripe"
                  (headers user token)))
          (fun body => py_get body "daysRemainingOnTrial").
Proof.
  unfold get_trial_remaining_days, decoded. cbn [snd].
  now destruct (requests_get _).
Qed.

Lemma py_get_not_dict (body : value) (key : string) :
  (forall d, body <> VDict d) -> raises AttributeError (py_get body key).
Proof.
  intro H. destruct body; cbn; try (eexists; reflexivity).
  now elim (H d).
Qed.

(** X1.  [get_trial_remaining_days] hands back what the body holds under
    ["daysRemainingOnTrial"], whatever its type, and [None] when the key is
    absent; a body that is not a JSON object makes it raise
    [AttributeError]. *)
Theorem get_trial_remaining_days_body
  (requests_get : request -> result response)
  (user token : string) (resp : response) (body : value) :
  requests_get (GET "https://www.cursor.com/api/auth/stripe"
                    (headers user token)) = Return resp ->
  json resp = Return body ->
  let outcome := snd (get_trial_remaining_days requests_get user token) in
  (forall d v, body = VDict d ->
     dict_get d "daysRemainingOnTrial" = Some v -> outcome = Return v)
  /\ (forall d, body = VDict d ->
      dict_get d "daysRemainingOnTrial" = None -> outcome = Return VNone)
  /\ ((forall d, body <> VDict d) -> raises AttributeError outcome).
Proof.
  intros Hget Hjson outcome. subst outcome.
  rewrite get_trial_remaining_days_via. unfold decoded.
  rewrite Hget. cbn [rbind]. rewrite Hjson. cbn [rbind].
  split; [|split].
  - intros d v -> Hv. cbn. now rewrite Hv.
  - intros d -> Hv. cbn. now rewrite Hv.
  - apply py_get_not_dict.
Qed.

Lemma get_trial_remaining_days_body_witness :
  snd (get_trial_remaining_days
         (answering (VDict [("membershipType", VStr "free_trial");
                            ("daysRemainingOnTrial", VInt 7)]))
         "user_01" "tok")
  = Return (VInt 7).
Proof.
  destruct (get_trial_remaining_days_body
              (answering (VDict [("membershipType", VStr "free_trial");
                                 ("daysRemainingOnTrial", VInt 7)]))
              "user_01" "tok" _ _ eq_refl eq_refl) as [Hpresent _].
  apply (Hpresent [("membershipType", VStr "free_trial");
                   ("daysRemainingOnTrial", VInt 7)]); reflexivity.
Defined.

(** X2.  Neither operation handles a failure of the transport or of the
    decoding: an exception of [requests.get], or of [response.json()], is the
    outcome of the call. *)
Theorem client_errors_propagate
  (requests_get : request -> result response) (user token : string) (e : exn) :
  (decoded requests_get
     (GET ("https://www.cursor.com/api/usage?user=" ++ user)
          (headers user token)) = Raise e ->
   snd (get_remaining_balance requests_get user token) = Raise e)
  /\ (decoded requests_get
        (GET "https://www.cursor.com/api/auth/stripe" (headers user token))
      = Raise e ->
      snd (get_trial_remaining_days requests_get user token) = Raise e).
Proof.
  rewrite get_remaining_balance_via, get_trial_remaining_days_via.
  split; intros ->; reflexivity.
Qed.

Lemma client_errors_propagate_witness :
  snd (get_remaining_balance
         (fun _ => Raise (mk_exn ConnectionError "Max retries exceeded"))
         "user_01" "tok")
  = Raise (mk_exn ConnectionError "Max retries exceeded")
  /\ snd (get_trial_remaining_days
            (fun _ => Return (mk_response 502
                                (Raise (mk_exn JSONDecodeError
                                          "Expecting value"))))
            "user_01" "tok")
     = Raise (mk_exn JSONDecodeError "Expecting value").
Proof.
  split.
  - apply (client_errors_propagate
             (fun _ => Raise (mk_exn ConnectionError "Max retries exceeded"))
             "user_01" "tok"). reflexivity.
  - apply (client_errors_propagate
             (fun _ => Return (mk_response 502
                                 (Raise (mk_exn JSONDecodeError
                                           "Expecting value"))))
             "user_01" "tok"). reflexivity.
Defined.

(** X3.  The HTTP status is never looked at: two services whose answers
    decode alike give both operations the same outcome, whatever status codes
    they answer with. *)
Theorem status_code_ignored
  (service service' : request -> result response) (user token : string) :
  (forall req, decoded service req = decoded service' req) ->
  snd (get_remaining_balance service user token)
  = snd (get_remaining_balance service' user token)
  /\ snd (get_trial_remaining_days service user token)
     = snd (get_trial_remaining_days service' user token).
Proof.
  intro H.
  rewrite !get_remaining_balance_via, !get_trial_remaining_days_via.
  now rewrite !H.
Qed.

Lemma status_code_ignored_witness :
  snd (get_remaining_balance
         (fun _ => Return (mk_response 401
                             (Return (VDict [("error", VStr "not_authenticated")]))))
         "user_01" "tok")
  = snd (get_remaining_balance
           (answering (VDict [("error", VStr "not_authenticated")]))
           "user_01" "tok").
Proof.
  apply (status_code_ignored
           (fun _ => Return (mk_response 401
                               (Return (VDict [("error", VStr "not_authenticated")]))))
           (answering (VDict [("error", VStr "not_authenticated")]))
           "user_01" "tok").
  intro req. reflexivity.
Defined.

(** A rejected session is reported as "no balance": the error body has no
    usage entry. *)
Example unauthenticated_balance :
  snd (get_remaining_balance
         (fun _ => Return (mk_response 401
                             (Return (VDict [("error", VStr "not_authenticated")]))))
         "user_01" "tok")
  = Return VNone.
Proof. reflexivity. Qed.

Lemma existsb_str (key : string) (l : list value) :
  existsb (fun v => match v with
                    | VStr s => String.eqb s key
                    | _ => false
                    end) l = true
  <-> In (VStr key) l.
Proof.
  rewrite existsb_exists. split.
  - intros [v [Hin Hv]]. destruct v; try discriminate Hv.
    apply String.eqb_eq in Hv. now subst.
  - intro Hin. exists (VStr key). split; [exact Hin | apply String.eqb_refl].
Qed.

(** X4.  A ["gpt-4"] member that is not an object is still searched with
    [in]: for a string the two key names are looked for as substrings, for an
    array as elements.  The call returns [None] unless both are found, and
    raises [TypeError] when they are, or when the member is a number or a
    boolean. *)
Theorem usage_of_another_type
  (requests_get : request -> result response)
  (user token : string) (resp : response) (d : dict) (usage : value) :
  requests_get (GET ("https://www.cursor.com/api/usage?user=" ++ user)
                    (headers user token)) = Return resp ->
  json resp = Return (VDict d) ->
  dict_get d "gpt-4" = Some usage ->
  let outcome := snd (get_remaining_balance requests_get user token) in
  (forall s, usage = VStr s ->
     (str_contains "maxRequestUsage" s = true ->
      str_contains "numRequests" s = true -> raises TypeError outcome)
     /\ (str_contains "maxRequestUsage" s = false \/
         str_contains "numRequests" s = false -> outcome = Return VNone))
  /\ (forall l, usage = VList l ->
      (In (VStr "maxRequestUsage") l -> In (VStr "numRequests") l ->
       raises TypeError outcome)
      /\ (~ In (VStr "maxRequestUsage") l \/ ~ In (VStr "numRequests") l ->
          outcome = Return VNone))
  /\ ((exists b, usage = VBool b) \/ (exists z, usage = VInt z) \/
      (exists f, usage = VFloat f) -> raises TypeError outcome).
Proof.
  intros Hget Hjson Husage outcome. subst outcome.
  rewrite get_remaining_balance_via. unfold decoded.
  rewrite Hget. cbn [rbind]. rewrite Hjson. cbn [rbind].
  unfold remaining_balance_of, py_get. rewrite Husage. cbn [rbind].
  split; [|split].
  - intros s ->. cbn [py_contains rbind]. split.
    + intros -> ->. cbn. eexists. reflexivity.
    + intros [H|H].
      * now rewrite H.
      * destruct (str_contains "maxRequestUsage" s); cbn; [|reflexivity].
        now rewrite H.
  - intros l ->. cbn [py_contains rbind]. split.
    + intros Hmax Hnum. apply existsb_str in Hmax, Hnum.
      rewrite Hmax, Hnum. cbn. eexists. reflexivity.
    + intros [H|H].
      * destruct (existsb _ l) eqn:E at 1; [|reflexivity].
        apply existsb_str in E. contradiction.
      * destruct (existsb _ l) at 1; cbn; [|reflexivity].
        destruct (existsb _ l) eqn:E; [|reflexivity].
        apply existsb_str in E. contradiction.
  - intros [[b ->] | [[z ->] | [f ->]]]; cbn; eexists; reflexivity.
Qed.

Lemma usage_of_another_type_witness :
  snd (get_remaining_balance
         (answering (VDict [("gpt-4", VStr "maxRequestUsage")]))
         "user_01" "tok")
  = Return VNone.
Proof.
  destruct (usage_of_another_type
              (answering (VDict [("gpt-4", VStr "maxRequestUsage")]))
              "user_01" "tok" _ _ (VStr "maxRequestUsage")
              eq_refl eq_refl eq_refl) as [Hstr _].
  destruct (Hstr _ eq_refl) as [_ Hnone].
  apply Hnone. right. reflexivity.
Defined.

Lemma append_inv_head (p a b : string) : p ++ a = p ++ b -> a = b.
Proof.
  induction p as [|c p IH]; cbn; intro H; [exact H|].
  injection H as H. exact (IH H).
Qed.

Lemma split_at_separator (u1 u2 t1 t2 : string) :
  has_char "%" u1 = false -> has_char "%" u2 = false ->
  u1 ++ "%3A%3A" ++ t1 = u2 ++ "%3A%3A" ++ t2 ->
  u1 = u2 /\ t1 = t2.
Proof.
  revert u2. induction u1 as [|c u1 IH]; intros u2 H1 H2 H.
  - destruct u2 as [|c2 u2].
    + split; [reflexivity|]. exact (append_inv_head "%3A%3A" _ _ H).
    + cbn in H. injection H as Hc _. subst c2. cbn in H2. discriminate H2.
  - destruct u2 as [|c2 u2].
    + cbn in H. injection H as Hc _. subst c. cbn in H1. discriminate H1.
    + cbn in H. injection H as Hc H. subst c2.
      cbn in H1, H2. apply orb_false_iff in H1, H2.
      destruct (IH u2 (proj2 H1) (proj2 H2) H) as [-> ->].
      split; reflexivity.
Qed.

(** X5.  For user identifiers without a percent sign the cookie determines
    the credential: two calls that send the same headers were made for the
    same user and the same token. *)
Theorem session_cookie_injective (user user' token token' : string) :
  has_char "%" user = false ->
  has_char "%" user' = false ->
  headers user token = headers user' token' ->
  user = user' /\ token = token'.
Proof.
  intros Hu Hu' H. unfold headers in H.
  injection H as H.
  exact (split_at_separator _ _ _ _ Hu Hu' H).
Qed.

Lemma session_cookie_injective_witness :
  "user_01" = "user_01" /\ "tok" = "tok".
Proof.
  apply (session_cookie_injective "user_01" "user_01" "tok" "tok");
    reflexivity.
Defined.

(** Without that condition two credentials can share a cookie. *)
Example session_cookie_ambiguous :
  headers "a%3A%3Ab" "c" = headers "a" "b%3A%3Ac".
Proof. reflexivity. Qed.

End CursorSpec.

(* ===================================================================== *)
(** * database.py: properties                                            *)
(* ===================================================================== *)

Module DatabaseSpec.
Import Database.
Local Open Scope list_scope.

Lemma dialect_prefix (url : string) :
  exists rest, url = (dialect url ++ rest)%string.
Proof.
  induction url as [|c url [rest IH]]; cbn [dialect].
  - exists "". reflexivity.
  - destruct (Ascii.eqb c "+" || Ascii.eqb c ":")%bool.
    + eexists. reflexivity.
    + exists rest. cbn. now rewrite <- IH.
Qed.

(** A connection string of the SQLite dialect starts with [sqlite]. *)
Lemma sqlite_family_mentions (url : string) :
  sqlite_family url = true -> mentions_sqlite url.
Proof.
  unfold sqlite_family. intro H. apply String.eqb_eq in H.
  destruct (dialect_prefix url) as [rest Hrest]. rewrite H in Hrest.
  exists "", rest. exact Hrest.
Qed.

(** C7.  [create_engine] makes one [create_async_engine] call on the
    configured connection string.  It passes
    [connect_args = {"check_same_thread": False}] for every connection string
    of the SQLite dialect, and more generally whenever the text [sqlite]
    occurs anywhere in the string; it passes empty [connect_args] when that
    text does not occur, in which case the string is not of the SQLite
    dialect. *)
Theorem create_engine_flag_by_text (url : string) (lib : faults) :
  (sqlite_family url = true ->
   fst (create_engine url lib)
   = [CreateAsyncEngine url false [("check_same_thread", VBool false)] true])
  /\ (mentions_sqlite url ->
      fst (create_engine url lib)
      = [CreateAsyncEngine url false [("check_same_thread", VBool false)] true])
  /\ (~ mentions_sqlite url ->
      fst (create_engine url lib) = [CreateAsyncEngine url false [] true]
      /\ sqlite_family url = false).
Proof.
  assert (Hflag : mentions_sqlite url ->
            fst (create_engine url lib)
            = [CreateAsyncEngine url false [("check_same_thread", VBool false)] true]).
  { unfold create_engine, call, connect_args, mentions_sqlite. cbn [fst].
    intro H. apply PyFacts.str_contains_iff in H. now rewrite H. }
  split; [|split].
  - intro H. apply Hflag, sqlite_family_mentions, H.
  - exact Hflag.
  - intro H. split.
    + unfold create_engine, call, connect_args. cbn [fst].
      destruct (str_contains "sqlite" url) eqn:E; [|reflexivity].
      apply PyFacts.str_contains_iff in E. contradiction.
    + destruct (sqlite_family url) eqn:E; [|reflexivity].
      elim H. now apply sqlite_family_mentions.
Qed.

Lemma create_engine_flag_by_text_witness :
  fst (create_engine "sqlite+aiosqlite:///./accounts.db" healthy)
  = [CreateAsyncEngine "sqlite+aiosqlite:///./accounts.db" false
       [("check_same_thread", VBool false)] true]
  /\ fst (create_engine "mysql+aiomysql://u:p@db/accounts" healthy)
     = [CreateAsyncEngine "mysql+aiomysql://u:p@db/accounts" false [] true].
Proof.
  split.
  - exact (proj1 (create_engine_flag_by_text
                    "sqlite+aiosqlite:///./accounts.db" healthy) eq_refl).
  - apply (proj2 (proj2 (create_engine_flag_by_text
                           "mysql+aiomysql://u:p@db/accounts" healthy))).
    intro H. apply PyFacts.str_contains_iff in H. vm_compute in H.
    discriminate H.
Defined.

(** A PostgreSQL connection string whose database name contains [sqlite]:
    not of the file-based family, and yet the flag is passed. *)
Lemma create_engine_flags_other_dialect :
  let url := "postgresql+asyncpg://app:pw@db.internal/sqlite_archive" in
  dialect url = "postgresql"
  /\ sqlite_family url = false
  /\ fst (create_engine url healthy)
     = [CreateAsyncEngine url false [("check_same_thread", VBool false)] true].
Proof. repeat split. Qed.

(** *** The scoped session *)

(** What happens inside the [try] of [get_session]: the connectivity check,
    then the body. *)
Lemma get_session_unfold (url : string) (lib : faults) (A : Type) (body : M A) :
  create_async_engine_fault lib = None ->
  get_session url lib body =
  let scope :=
    try_except
      (bind (call (Execute "SELECT 1") (execute_fault lib)) (fun _ => body))
      (fun e =>
         bind (log (SessionError (exn_str e))) (fun _ =>
         bind (try_except (call Rollback (rollback_fault lib))
                 (fun re => log (RollbackFailed (exn_str re)))) (fun _ =>
         raise e))) in
  ([CreateAsyncEngine url false (connect_args url) true; NewSession]
     ++ fst scope
     ++ [Close] ++ logged CloseFailed (close_fault lib)
     ++ [Dispose] ++ logged DisposeFailed (dispose_fault lib),
   snd scope).
Proof.
  intro Hengine. unfold get_session, create_engine. rewrite Hengine.
  cbv zeta.
  match goal with
  | |- context [try_except ?m ?h] =>
      match m with
      | bind (call (Execute _) _) _ => destruct (try_except m h) as [t r]
      end
  end.
  destruct (close_fault lib), (dispose_fault lib); cbn;
    rewrite <- ?app_assoc; reflexivity.
Qed.

(** *** The session helper in a task that can be cancelled *)

(** Without cancellation or interrupt, on a body of the first embedding, the
    helper in a task is the helper of the first embedding. *)
Lemma get_session_task_undisturbed
  (url : string) (lib : faults) (A : Type) (body : M A) :
  get_session_task url lib undisturbed (task_of body)
  = task_of (get_session url lib body).
Proof.
  unfold get_session_task, get_session, create_engine.
  destruct body as [t [a|e]];
    destruct lib as [[c|] [x|] [r|] [cl|] [d|] bf cf cmf];
    cbn -[isinstance]; rewrite ?PyFacts.isinstance_Exception; cbn -[isinstance];
    rewrite ?PyFacts.isinstance_Exception; cbn -[isinstance];
    rewrite ?PyFacts.isinstance_Exception; cbn -[isinstance];
    rewrite <- ?app_assoc; reflexivity.
Qed.

(** The trace and the outcome of the [finally] block. *)
Lemma session_cleanup_run (lib : faults) (signals : interrupts) :
  session_cleanup lib signals =
  match close_interrupt signals with
  | Some s => ([Close], Raises (Sig s))
  | None =>
      ([Close] ++ logged CloseFailed (close_fault lib) ++ [Dispose]
       ++ match dispose_interrupt signals with
          | Some _ => []
          | None => logged DisposeFailed (dispose_fault lib)
          end,
       match dispose_interrupt signals with
       | Some s => Raises (Sig s)
       | None => Returns tt
       end)
  end.
Proof.
  unfold session_cleanup.
  destruct (close_interrupt signals) as [s|]; [reflexivity|].
  destruct (close_fault lib) as [e|], (dispose_interrupt signals) as [s|],
    (dispose_fault lib) as [e'|];
    cbn -[isinstance]; rewrite ?PyFacts.isinstance_Exception; cbn -[isinstance];
    rewrite ?PyFacts.isinstance_Exception; reflexivity.
Qed.

Lemma get_session_task_unfold
  (url : string) (lib : faults) (signals : interrupts)
  (A : Type) (body : Task A) :
  create_async_engine_fault lib = None ->
  setup_interrupt signals = None ->
  get_session_task url lib signals body =
  ([CreateAsyncEngine url false (connect_args url) true; NewSession]
     ++ fst (session_scope lib signals body) ++ fst (session_cleanup lib signals),
   match snd (session_cleanup lib signals) with
   | Returns _ => snd (session_scope lib signals body)
   | Raises t => Raises t
   end).
Proof.
  intros Hengine Hsetup. unfold get_session_task, create_engine, await.
  rewrite Hengine, Hsetup. cbn [await_raises].
  fold (await (Execute "SELECT 1")
          (execute_fault lib) (execute_interrupt signals)).
  fold (await Rollback (rollback_fault lib) (rollback_interrupt signals)).
  fold (await Close (close_fault lib) (close_interrupt signals)).
  fold (await Dispose (dispose_fault lib) (dispose_interrupt signals)).
  fold (session_scope lib signals body). fold (session_cleanup lib signals).
  destruct (session_scope lib signals body) as [t r].
  destruct (session_cleanup lib signals) as [t' [[]|x]]; reflexivity.
Qed.

(** The trace and the outcome of the [try] with its handler. *)
Lemma session_scope_run {A} (lib : faults) (signals : interrupts) (body : Task A) :
  rollback_interrupt signals = None ->
  session_scope lib signals body =
  match await_raises (execute_fault lib) (execute_interrupt signals) with
  | Some t => ([Execute "SELECT 1"] ++ handled lib t, Raises t)
  | None =>
      match snd body with
      | Returns a => ([Execute "SELECT 1"] ++ fst body, Returns a)
      | Raises t => ([Execute "SELECT 1"] ++ fst body ++ handled lib t, Raises t)
      end
  end.
Proof.
  intro Hrb. unfold session_scope, await, handled. rewrite Hrb.
  destruct body as [tb [a|[e|s]]];
    destruct (execute_interrupt signals) as [s'|], (execute_fault lib) as [x|],
      (rollback_fault lib) as [r|];
    cbn -[isinstance]; rewrite ?PyFacts.isinstance_Exception; cbn -[isinstance];
    rewrite ?PyFacts.isinstance_Exception; cbn -[isinstance];
    rewrite <- ?app_assoc, ?app_nil_r; reflexivity.
Qed.





(** C6.  When the [try] of [get_session] ends by an exception, raised by
    the connectivity check or by the body, and no exception outside
    [Exception] arrives during the rollback or the cleanup, the block ends with
    that same exception.  If it is an instance of [Exception] the helper logs
    it, calls [session.rollback()], and logs a failure of the rollback without
    raising it; an exception outside [Exception] is neither logged nor rolled
    back.  In both cases the session and the engine are released. *)
Theorem get_session_task_reraises
  (url : string) (lib : faults) (signals : interrupts)
  (A : Type) (body : Task A) (t : thrown) :
  create_async_engine_fault lib = None ->
  setup_interrupt signals = None ->
  rollback_interrupt signals = None ->
  close_interrupt signals = None ->
  dispose_interrupt signals = None ->
  await_raises (execute_fault lib) (execute_interrupt signals) = Some t \/
  (await_raises (execute_fault lib) (execute_interrupt signals) = None
   /\ snd body = Raises t) ->
  snd (get_session_task url lib signals body) = Raises t
  /\ fst (get_session_task url lib signals body)
     = [CreateAsyncEngine url false (connect_args url) true;
        NewSession; Execute "SELECT 1"]
       ++ match await_raises (execute_fault lib)
                (execute_interrupt signals) with
          | Some _ => []
          | None => fst body
          end
       ++ match t with
          | Exc e => [Log (SessionError (exn_str e)); Rollback]
                     ++ logged RollbackFailed (rollback_fault lib)
          | Sig _ => []
          end
       ++ [Close] ++ logged CloseFailed (close_fault lib)
       ++ [Dispose] ++ logged DisposeFailed (dispose_fault lib).
Proof.
  intros Hengine Hsetup Hrb Hclose Hdispose Hraise.
  rewrite (get_session_task_unfold url lib signals A body Hengine Hsetup).
  rewrite session_cleanup_run, Hclose, Hdispose,
    (session_scope_run lib signals body Hrb).
  cbn [fst snd].
  destruct Hraise as [Hexec | [Hexec Hbody]]; rewrite Hexec.
  - split; reflexivity.
  - rewrite Hbody. cbn [fst snd]. split; [reflexivity|].
    unfold handled. cbn [app]. rewrite <- !app_assoc. reflexivity.
Qed.

Lemma get_session_task_reraises_witness :
  snd (get_session_task "sqlite+aiosqlite:///./accounts.db" failing_cleanup
         undisturbed (task_of failing_body))
  = Raises (Exc (mk_exn ValueError "bad account")).
Proof.
  apply (get_session_task_reraises "sqlite+aiosqlite:///./accounts.db"
           failing_cleanup undisturbed unit (task_of failing_body)
           (Exc (mk_exn ValueError "bad account")));
    try reflexivity.
  right. split; reflexivity.
Defined.

(** A body that is cancelled is not an error to the helper: nothing is
    logged and no rollback is attempted. *)
Lemma get_session_task_cancelled_body :
  snd (get_session_task "sqlite+aiosqlite:///./accounts.db" healthy
         undisturbed cancelled_body)
  = Raises (Sig (mk_signal CancelledError ""))
  /\ log_lines (fst (get_session_task "sqlite+aiosqlite:///./accounts.db"
                       healthy undisturbed cancelled_body)) = []
  /\ ~ In Rollback
        (fst (get_session_task "sqlite+aiosqlite:///./accounts.db" healthy
                undisturbed cancelled_body)).
Proof.
  split; [reflexivity|]. split; [reflexivity|].
  cbn. intros [H|[H|[H|[H|[H|[H|[]]]]]]]; discriminate H.
Qed.

(** The connectivity check failing: the body never runs, and the error of
    the check is what the caller sees. *)
Example get_session_unreachable :
  get_session "postgresql+asyncpg://db/accounts"
    (mk_faults None (Some (mk_exn ConnectionError "refused"))
       None None None None None None)
    failing_body
  = ([CreateAsyncEngine "postgresql+asyncpg://db/accounts" false [] true;
      NewSession;
      Execute "SELECT 1";
      Log (SessionError "refused");
      Rollback;
      Close;
      Dispose],
     Raise (mk_exn ConnectionError "refused")).
Proof. reflexivity. Qed.

(** *** Schema creation *)



(** On the success path the engine is disposed, once. *)
Example init_db_success :
  init_db "sqlite+aiosqlite:///./accounts.db" healthy
  = ([CreateAsyncEngine "sqlite+aiosqlite:///./accounts.db" false
        [("check_same_thread", VBool false)] true;
      Begin; CreateAll; Commit; Dispose; Log InitSucceeded],
     Return tt).
Proof. reflexivity. Qed.

(** *** Further properties of the session helper *)

(** X6.  When [create_async_engine] itself fails, [get_session] stops
    there: the exception leaves the helper unlogged, no session is opened, the
    body does not run and nothing is closed or disposed.  [init_db], whose
    [try] covers the engine creation, logs the failure before re-raising. *)
Theorem engine_creation_failure
  (url : string) (lib : faults) (A : Type) (body : M A) (e : exn) :
  create_async_engine_fault lib = Some e ->
  get_session url lib body
  = ([CreateAsyncEngine url false (connect_args url) true], Raise e)
  /\ init_db url lib
     = ([CreateAsyncEngine url false (connect_args url) true;
         Log (InitFailed (exn_str e))], Raise e).
Proof.
  intro H. unfold get_session, init_db, create_engine. rewrite H.
  split; reflexivity.
Qed.

Lemma engine_creation_failure_witness :
  get_session "sqlite+aiosqlite://" failing_engine failing_body
  = ([CreateAsyncEngine "sqlite+aiosqlite://" false
        [("check_same_thread", VBool false)] true],
     Raise (mk_exn SQLAlchemyError "Could not parse SQLAlchemy URL")).
Proof.
  exact (proj1 (engine_creation_failure "sqlite+aiosqlite://" failing_engine
                  unit failing_body
                  (mk_exn SQLAlchemyError "Could not parse SQLAlchemy URL")
                  eq_refl)).
Defined.

(** X7.  A block that ends normally is returned as it ends: the helper
    performs the connectivity check before the body and [close] and [dispose]
    after it, and neither rolls back nor logs a session error. *)
Theorem get_session_clean_exit
  (url : string) (lib : faults) (A : Type) (body : M A) (a : A) :
  create_async_engine_fault lib = None ->
  execute_fault lib = None ->
  snd body = Return a ->
  get_session url lib body
  = ([CreateAsyncEngine url false (connect_args url) true; NewSession;
      Execute "SELECT 1"]
       ++ fst body
       ++ [Close] ++ logged CloseFailed (close_fault lib)
       ++ [Dispose] ++ logged DisposeFailed (dispose_fault lib),
     Return a).
Proof.
  intros Hengine Hexec Hbody.
  rewrite (get_session_unfold url lib A body Hengine). cbv zeta.
  rewrite Hexec. destruct body as [t r]. cbn in Hbody. subst r. cbn.
  reflexivity.
Qed.

Lemma get_session_clean_exit_witness :
  get_session "sqlite+aiosqlite:///./accounts.db" healthy committing_body
  = ([CreateAsyncEngine "sqlite+aiosqlite:///./accounts.db" false
        [("check_same_thread", VBool false)] true;
      NewSession; Execute "SELECT 1";
      UserCode "session.add(account)"; Commit;
      Close; Dispose],
     Return 1).
Proof.
  exact (get_session_clean_exit "sqlite+aiosqlite:///./accounts.db" healthy
           Z committing_body 1 eq_refl eq_refl eq_refl).
Defined.

Lemma commits_app (t t' : list event) :
  commits (t ++ t') = (commits t + commits t')%nat.
Proof. unfold commits. now rewrite filter_app, length_app. Qed.

Lemma commits_logged (message : string -> log_message) (fault : option exn) :
  commits (logged message fault) = 0%nat.
Proof. now destruct fault. Qed.

(** X8.  [get_session] never commits: the [commit] calls of a block are
    those its body makes, and there is none when the body does not run. *)
Theorem get_session_never_commits
  (url : string) (lib : faults) (A : Type) (body : M A) :
  commits (fst (get_session url lib body))
  = match create_async_engine_fault lib, execute_fault lib with
    | None, None => commits (fst body)
    | _, _ => 0%nat
    end.
Proof.
  destruct (create_async_engine_fault lib) as [e|] eqn:Hengine.
  - unfold get_session, create_engine. rewrite Hengine. reflexivity.
  - rewrite (get_session_unfold url lib A body Hengine). cbv zeta.
    cbn [fst]. rewrite !commits_app, !commits_logged.
    destruct body as [t r].
    destruct (execute_fault lib) as [e|]; cbn [fst].
    + destruct (rollback_fault lib); reflexivity.
    + destruct r as [a|e]; [|destruct (rollback_fault lib)];
        cbn [bind try_except call log raise fst snd app];
        rewrite ?app_nil_r; unfold commits; cbn;
        rewrite ?filter_app, ?length_app; cbn; lia.
Qed.

(** X9.  When the connectivity check fails the body is not run: the calls
    made and the outcome are the same for every body, namely the error log,
    the rollback, the cleanup, and the exception of the check. *)
Theorem get_session_check_failure
  (url : string) (lib : faults) (A : Type) (body : M A) (e : exn) :
  create_async_engine_fault lib = None ->
  execute_fault lib = Some e ->
  get_session url lib body
  = ([CreateAsyncEngine url false (connect_args url) true; NewSession;
      Execute "SELECT 1"; Log (SessionError (exn_str e)); Rollback]
       ++ logged RollbackFailed (rollback_fault lib)
       ++ [Close] ++ logged CloseFailed (close_fault lib)
       ++ [Dispose] ++ logged DisposeFailed (dispose_fault lib),
     Raise e).
Proof.
  intros Hengine Hexec.
  rewrite (get_session_unfold url lib A body Hengine). cbv zeta.
  rewrite Hexec. destruct body as [t r].
  destruct (rollback_fault lib); reflexivity.
Qed.

Lemma get_session_check_failure_witness :
  get_session "postgresql+asyncpg://db/accounts" unreachable committing_body
  = ([CreateAsyncEngine "postgresql+asyncpg://db/accounts" false [] true;
      NewSession; Execute "SELECT 1"; Log (SessionError "refused"); Rollback;
      Close; Dispose],
     Raise (mk_exn ConnectionError "refused")).
Proof.
  exact (get_session_check_failure "postgresql+asyncpg://db/accounts"
           unreachable Z committing_body (mk_exn ConnectionError "refused")
           eq_refl eq_refl).
Defined.

(** *** Further properties of [init_db] *)

(** X10.  [init_db] returns normally exactly when none of its five calls
    fails; otherwise it raises the exception of the first call that failed.
    Either way it logs one line: the success message, or the failure message
    with the text of that exception. *)
Theorem init_db_outcome (url : string) (lib : faults) :
  snd (init_db url lib)
  = match first_fault lib with
    | None => Return tt
    | Some e => Raise e
    end
  /\ log_lines (fst (init_db url lib))
     = [match first_fault lib with
        | None => InitSucceeded
        | Some e => InitFailed (exn_str e)
        end].
Proof.
  unfold init_db, create_engine, engine_begin, first_fault.
  destruct (create_async_engine_fault lib); [split; reflexivity|].
  destruct (begin_fault lib); [split; reflexivity|].
  destruct (create_all_fault lib); [split; reflexivity|].
  destruct (commit_fault lib); [split; reflexivity|].
  destruct (dispose_fault lib); split; reflexivity.
Qed.

(** X11.  [init_db] disposes its engine exactly when the transaction has
    been committed: once then, and not at all when the engine creation, the
    opening of the transaction, the schema creation or the commit fails. *)
Theorem init_db_disposes (url : string) (lib : faults) :
  disposes (fst (init_db url lib))
  = match create_async_engine_fault lib, begin_fault lib,
          create_all_fault lib, commit_fault lib with
    | None, None, None, None => 1%nat
    | _, _, _, _ => 0%nat
    end.
Proof.
  unfold init_db, create_engine, engine_begin.
  destruct (create_async_engine_fault lib); [reflexivity|].
  destruct (begin_fault lib); [reflexivity|].
  destruct (create_all_fault lib); [reflexivity|].
  destruct (commit_fault lib); [reflexivity|].
  destruct (dispose_fault lib); reflexivity.
Qed.

(** X12.  A failure of [engine.dispose()] is reported as a failed
    initialisation although the tables have been created and committed:
    [init_db] logs the failure message, not the success message, and
    raises. *)
Theorem init_db_dispose_failure (url : string) (lib : faults) (e : exn) :
  create_async_engine_fault lib = None ->
  begin_fault lib = None ->
  create_all_fault lib = None ->
  commit_fault lib = None ->
  dispose_fault lib = Some e ->
  init_db url lib
  = ([CreateAsyncEngine url false (connect_args url) true;
      Begin; CreateAll; Commit; Dispose; Log (InitFailed (exn_str e))],
     Raise e).
Proof.
  intros He Hb Hc Hm Hd. unfold init_db, create_engine, engine_begin.
  rewrite He, Hb, Hc, Hm, Hd. reflexivity.
Qed.

Lemma init_db_dispose_failure_witness :
  init_db "sqlite+aiosqlite:///./accounts.db" failing_dispose
  = ([CreateAsyncEngine "sqlite+aiosqlite:///./accounts.db" false
        [("check_same_thread", VBool false)] true;
      Begin; CreateAll; Commit; Dispose; Log (InitFailed "dispose failed")],
     Raise (mk_exn SQLAlchemyError "dispose failed")).
Proof.
  exact (init_db_dispose_failure "sqlite+aiosqlite:///./accounts.db"
           failing_dispose (mk_exn SQLAlchemyError "dispose failed")
           eq_refl eq_refl eq_refl eq_refl eq_refl).
Defined.

End DatabaseSpec.

(* ===================================================================== *)
(** * hashlib: digest sizes and test vectors                             *)
(* ===================================================================== *)

Module Sha2Facts.
Import Sha2.
Local Open Scope list_scope.

Lemma length_big_endian (n : nat) (z : Z) : List.length (big_endian n z) = n.
Proof. induction n as [|n IH]; cbn; [reflexivity | now rewrite IH]. Qed.

Lemma length_add8 (v : variant) (h s : list Z) :
  List.length (add8 v h s) = List.length h.
Proof.
  unfold add8.
  do 8 (destruct h as [|? h]; [reflexivity|]).
  destruct h; [|reflexivity].
  do 8 (destruct s as [|? s]; [reflexivity|]).
  destruct s; reflexivity.
Qed.

Lemma length_fold_compress (v : variant) (ks : list Z) (bl : list (list Z))
  (h : list Z) :
  List.length (fold_left (compress v ks) bl h) = List.length h.
Proof.
  revert h. induction bl as [|b bl IH]; intro h; cbn [fold_left].
  - reflexivity.
  - rewrite IH. apply length_add8.
Qed.

Lemma length_flat_map_fixed {A B} (f : A -> list B) (n : nat) (l : list A) :
  (forall a, List.length (f a) = n) ->
  List.length (flat_map f l) = (n * List.length l)%nat.
Proof.
  intro Hf. induction l as [|a l IH]; cbn [flat_map List.length]; [lia|].
  rewrite length_app, Hf, IH. lia.
Qed.

(** The digest has as many bytes as the eight words of the hash value. *)
Lemma length_digest_with (v : variant) (h0 ks : list Z) (msg : list Byte.byte) :
  List.length (digest_with v h0 ks msg)
  = (word_bytes v * List.length h0)%nat.
Proof.
  unfold digest_with.
  rewrite (length_flat_map_fixed _ (word_bytes v))
    by (intro a; apply length_big_endian).
  now rewrite length_fold_compress.
Qed.

Lemma length_sha256 (msg : list Byte.byte) :
  List.length (sha256 msg) = 32%nat.
Proof. unfold sha256. now rewrite length_digest_with. Qed.

Lemma length_sha512 (msg : list Byte.byte) :
  List.length (sha512 msg) = 64%nat.
Proof. unfold sha512. now rewrite length_digest_with. Qed.

(** The first and last round constants and the first words of the initial
    hash values, as the standard lists them. *)
Example constants_256 :
  List.length K256 = 64%nat /\ hd 0 K256 = 0x428a2f98
  /\ last K256 0 = 0xc67178f2 /\ hd 0 H256 = 0x6a09e667.
Proof. repeat split. Qed.

Example constants_512 :
  List.length K512 = 80%nat /\ hd 0 K512 = 0x428a2f98d728ae22
  /\ last K512 0 = 0x6c44198c4a475817 /\ hd 0 H512 = 0x6a09e667f3bcc908.
Proof. repeat split. Qed.

(** The digests of the empty message and of [abc]. *)
Example sha256_empty :
  ResetMachine.hex_of_bytes (sha256 [])
  = "e3b0c44298fc1c149afbf4c8996fb92427ae41e4649b934ca495991b7852b855"%string.
Proof. vm_compute. reflexivity. Qed.

Example sha256_abc :
  ResetMachine.hex_of_bytes (sha256 (list_byte_of_string "abc"))
  = "ba7816bf8f01cfea414140de5dae2223b00361a396177a9cb410ff61f20015ad"%string.
Proof. vm_compute. reflexivity. Qed.

(** A message of 56 bytes needs a second block for its padding. *)
Example sha256_two_blocks :
  ResetMachine.hex_of_bytes (sha256 (repeat Byte.x61 56))
  = "b35439a4ac6f0948b6d6f9e3c6af0f5f590ce20f1bde7090ef7970686ec6738a"%string.
Proof. vm_compute. reflexivity. Qed.

Example sha512_abc :
  ResetMachine.hex_of_bytes (sha512 (list_byte_of_string "abc"))
  = ("ddaf35a193617abacc417349ae20413112e6fa4e89a97ea20a9eeee64b55d39a"
     ++ "2192992a274fc1a836ba3c23a3feebbd454d4423643ce80e2a9ac94fa54ca49f")%string.
Proof. vm_compute. reflexivity. Qed.

End Sha2Facts.

(* ===================================================================== *)
(** * reset_machine.py: properties                                       *)
(* ===================================================================== *)

Module ResetMachineSpec.
Import ResetMachine.

(** *** Hexadecimal text *)

Lemma length_app (s t : string) :
  String.length (s ++ t) = (String.length s + String.length t)%nat.
Proof. induction s as [|c s IH]; cbn; [reflexivity | now rewrite IH]. Qed.

Lemma length_substring (s : string) (n m : nat) :
  (n + m <= String.length s)%nat -> String.length (substring n m s) = m.
Proof.
  revert n m. induction s as [|c s IH]; intros n m H; cbn in H.
  - assert (n = 0%nat /\ m = 0%nat) as [-> ->] by lia. reflexivity.
  - destruct n as [|n]; cbn.
    + destruct m as [|m]; cbn; [reflexivity|]. rewrite (IH 0%nat m); lia.
    + apply IH. lia.
Qed.

Lemma length_hex_width (w : nat) (z : Z) : String.length (hex_width w z) = w.
Proof. induction w as [|w IH]; cbn; [reflexivity | now rewrite IH]. Qed.

Lemma length_hex_of_bytes (bs : list Byte.byte) :
  String.length (hex_of_bytes bs) = (2 * List.length bs)%nat.
Proof.
  induction bs as [|b bs IH]; cbn [hex_of_bytes List.length]; [reflexivity|].
  rewrite length_app, length_hex_width, IH. lia.
Qed.

Lemma length_upper (s : string) : String.length (upper s) = String.length s.
Proof. induction s as [|c s IH]; cbn; [reflexivity | now rewrite IH]. Qed.

Lemma length_uuid_str (i : Z) : String.length (uuid_str i) = 36%nat.
Proof.
  unfold uuid_str. cbv zeta.
  rewrite !length_app, !length_substring by (rewrite length_hex_width; lia).
  reflexivity.
Qed.

Lemma nibble_range (z : Z) : 0 <= Z.land z 15 < 16.
Proof.
  change 15 with (Z.ones 4). rewrite Z.land_ones by lia.
  apply Z.mod_pos_bound. reflexivity.
Qed.

Lemma hex_digit_is_hex (n : Z) : 0 <= n < 16 -> is_lower_hex (hex_digit n) = true.
Proof.
  intro H.
  assert (Hnat : forall k : nat, (k < 16)%nat ->
                 is_lower_hex (hex_digit (Z.of_nat k)) = true).
  { intros k Hk. do 16 (destruct k as [|k]; [reflexivity|]). lia. }
  rewrite <- (Z2Nat.id n) by lia. apply Hnat. lia.
Qed.

Lemma hex_width_is_hex (w : nat) (z : Z) :
  all_chars is_lower_hex (hex_width w z) = true.
Proof.
  induction w as [|w IH]; cbn [hex_width all_chars]; [reflexivity|].
  now rewrite hex_digit_is_hex, IH by apply nibble_range.
Qed.

Lemma all_chars_app (p : ascii -> bool) (s t : string) :
  all_chars p (s ++ t) = all_chars p s && all_chars p t.
Proof.
  induction s as [|c s IH]; cbn; [reflexivity|].
  now rewrite IH, andb_assoc.
Qed.

Lemma hex_of_bytes_is_hex (bs : list Byte.byte) :
  all_chars is_lower_hex (hex_of_bytes bs) = true.
Proof.
  induction bs as [|b bs IH]; cbn [hex_of_bytes]; [reflexivity|].
  now rewrite all_chars_app, hex_width_is_hex, IH.
Qed.

(** *** Version-4 UUIDs *)

Lemma uuid4_version (bs : list Byte.byte) : uuid_version (uuid4_int bs) = 4.
Proof.
  unfold uuid_version, uuid4_int. cbv zeta.
  generalize (int_from_bytes bs). intro i.
  apply Z.bits_inj'. intros n Hn.
  rewrite Z.land_spec, Z.shiftr_spec, Z.lor_spec, Z.land_spec, Z.lnot_spec
    by lia.
  destruct (Z.ltb_spec n 4) as [Hlt|Hge].
  - assert (n = 0 \/ n = 1 \/ n = 2 \/ n = 3) as Hcases by lia.
    destruct Hcases as [-> | [-> | [-> | ->]]];
      cbn [Z.add Pos.add Pos.succ Pos.add_carry];
      match goal with
      | |- context [Z.testbit (Z.shiftl 61440 64) ?m] =>
          change (Z.testbit (Z.shiftl 61440 64) m) with true
      end;
      cbn [negb]; rewrite andb_false_r; reflexivity.
  - rewrite (Z.bits_above_log2 15 n), (Z.bits_above_log2 4 n)
      by (cbn; lia).
    apply andb_false_r.
Qed.

Lemma uuid4_variant (bs : list Byte.byte) : uuid_variant (uuid4_int bs) = 2.
Proof.
  unfold uuid_variant, uuid4_int. cbv zeta.
  generalize (int_from_bytes bs). intro i.
  apply Z.bits_inj'. intros n Hn.
  rewrite Z.land_spec, Z.shiftr_spec, Z.lor_spec, Z.land_spec, Z.lnot_spec,
    Z.lor_spec, Z.land_spec, Z.lnot_spec by lia.
  destruct (Z.ltb_spec n 2) as [Hlt|Hge].
  - assert (n = 0 \/ n = 1) as Hcases by lia.
    destruct Hcases as [-> | ->];
      cbn [Z.add Pos.add Pos.succ Pos.add_carry];
      match goal with
      | |- context [Z.testbit (Z.shiftl 49152 48) ?m] =>
          change (Z.testbit (Z.shiftl 49152 48) m) with true;
          change (Z.testbit (Z.shiftl 61440 64) m) with false;
          change (Z.testbit (Z.shiftl 4 76) m) with false
      end;
      cbn [negb]; rewrite andb_false_r, andb_true_r, orb_false_r; reflexivity.
  - rewrite (Z.bits_above_log2 3 n), (Z.bits_above_log2 2 n) by (cbn; lia).
    apply andb_false_r.
Qed.

(** The character after the second dash is the version digit. *)
Lemma uuid_str_version_digit (i : Z) :
  String.get 14 (uuid_str i) = Some (hex_digit (uuid_version i)).
Proof. cbv -[Z.land Z.shiftr hex_digit]. reflexivity. Qed.

Lemma uuid_str_dashes (i : Z) :
  String.get 8 (uuid_str i) = Some "-"%char
  /\ String.get 13 (uuid_str i) = Some "-"%char
  /\ String.get 18 (uuid_str i) = Some "-"%char
  /\ String.get 23 (uuid_str i) = Some "-"%char.
Proof. cbv -[Z.land Z.shiftr hex_digit]. repeat split. Qed.

(** Sixteen bytes make an integer below [2^128], so that the 32 digits of
    [hex_width] are all of ['%032x']. *)
Lemma int_from_bytes_range (bs : list Byte.byte) :
  0 <= int_from_bytes bs < 256 ^ Z.of_nat (List.length bs).
Proof.
  unfold int_from_bytes.
  assert (H : forall acc, 0 <= acc ->
            0 <= fold_left (fun a b => a * 256 + byte_val b) bs acc
              < (acc + 1) * 256 ^ Z.of_nat (List.length bs)).
  { induction bs as [|b bs IH]; intros acc Hacc; cbn [fold_left List.length].
    - cbn. lia.
    - assert (Hb : 0 <= byte_val b < 256).
      { unfold byte_val. pose proof (Byte.to_N_bounded b). lia. }
      specialize (IH (acc * 256 + byte_val b) ltac:(lia)).
      rewrite Nat2Z.inj_succ, Z.pow_succ_r by lia.
      assert (0 < 256 ^ Z.of_nat (List.length bs)) by (apply Z.pow_pos_nonneg; lia).
      nia. }
  specialize (H 0 ltac:(lia)). lia.
Qed.

Lemma uuid4_int_range (bs : list Byte.byte) :
  List.length bs = 16%nat -> 0 <= uuid4_int bs < 2 ^ 128.
Proof.
  intro Hlen. pose proof (int_from_bytes_range bs) as Hi. rewrite Hlen in Hi.
  change (256 ^ Z.of_nat 16) with (2 ^ 128) in Hi.
  unfold uuid4_int. cbv zeta. revert Hi.
  generalize (int_from_bytes bs). intros i Hi.
  match goal with |- 0 <= ?x < _ => set (u := x) end.
  assert (Hmod : Z.land u (Z.ones 128) = u).
  { apply Z.bits_inj'. intros n Hn. rewrite Z.land_spec.
    destruct (Z.ltb_spec n 128) as [Hlt|Hge].
    - rewrite Z.ones_spec_low by lia. apply andb_true_r.
    - rewrite Z.ones_spec_high by lia. rewrite andb_false_r.
      subst u.
      rewrite Z.lor_spec, Z.land_spec, Z.lnot_spec, Z.lor_spec, Z.land_spec,
        Z.lnot_spec by lia.
      assert (Hbit : Z.testbit i n = false).
      { destruct (Z.eq_dec i 0) as [->|Hnz]; [apply Z.bits_0|].
        apply Z.bits_above_log2; [lia|].
        assert (Z.log2 i < 128) by (apply Z.log2_lt_pow2; lia). lia. }
      rewrite Hbit.
      rewrite (Z.bits_above_log2 (Z.shiftl 49152 48) n),
        (Z.bits_above_log2 (Z.shiftl 32768 48) n),
        (Z.bits_above_log2 (Z.shiftl 61440 64) n),
        (Z.bits_above_log2 (Z.shiftl 4 76) n) by (cbn; lia).
      reflexivity. }
  rewrite Z.land_ones in Hmod by lia.
  rewrite <- Hmod. apply Z.mod_pos_bound. reflexivity.
Qed.

(** *** [generate_new_ids] *)

Lemma length_draw (w : world) (from n : nat) : List.length (draw w from n) = n.
Proof. unfold draw. now rewrite length_map, length_seq. Qed.

Lemma different_lengths (s t : string) :
  String.length s <> String.length t -> s <> t.
Proof. intros H E. apply H. now rewrite E. Qed.

(** [generate_new_ids] always returns; it draws 128 bytes of entropy and
    touches nothing else. *)
Lemma generate_new_ids_run {hashlib : Hashlib}
  (self : MachineIDResetter) (w : world) :
  generate_new_ids self w =
  (Return
     [ ("telemetry.devDeviceId", VStr (uuid_str (uuid4_int (draw w 0 16))));
       ("telemetry.macMachineId", VStr (hex_of_bytes (sha512 (draw w 48 64))));
       ("telemetry.machineId", VStr (hex_of_bytes (sha256 (draw w 16 32))));
       ("telemetry.sqmId",
        VStr ("{" ++ upper (uuid_str (uuid4_int (draw w 112 16))) ++ "}")) ],
   mk_world (fs w) (stdout w) (entropy w) (drawn w + 128)).
Proof.
  unfold generate_new_ids, uuid4, io_bind, os_urandom, io_ret, draw.
  cbn [fs stdout entropy drawn].
  rewrite Nat.add_0_r.
  replace (drawn w + 16 + 32)%nat with (drawn w + 48)%nat by lia.
  replace (drawn w + 48 + 64)%nat with (drawn w + 112)%nat by lia.
  replace (drawn w + 112 + 16)%nat with (drawn w + 128)%nat by lia.
  reflexivity.
Qed.

(** *** Running the script *)

Lemma printed_printed (w : world) (a b : list message) :
  printed (printed w a) b = printed w (a ++ b).
Proof. unfold printed. cbn. now rewrite app_assoc. Qed.

Lemma bind_print {B} (m : message) (k : unit -> IO B) (w : world) :
  io_bind (print m) k w = k tt (printed w [m]).
Proof. reflexivity. Qed.

Lemma print_ids_run (ids : dict) (w : world) :
  print_ids ids w
  = (Return tt, printed w (map (fun kv => NewId (fst kv) (snd kv)) ids)).
Proof.
  revert w. induction ids as [|[k v] ids IH]; intro w.
  - unfold printed. cbn. rewrite app_nil_r. now destruct w.
  - cbn [print_ids]. rewrite bind_print, IH, printed_printed. reflexivity.
Qed.

(** Reading changes nothing. *)
Lemma read_text_pure (path : string) (w : world) (ms : list message) :
  read_text path (printed w ms) = (fst (read_text path w), printed w ms).
Proof.
  unfold read_text. cbn [fs printed].
  destruct (open_read_fault _); [reflexivity|].
  destruct (at_path _); reflexivity.
Qed.

Lemma read_text_returns (path text : string) (w : world) :
  fst (read_text path w) = Return text ->
  at_path (fs w path) = File text /\ open_read_fault (fs w path) = None.
Proof.
  unfold read_text. destruct (open_read_fault _); [discriminate|].
  destruct (at_path _); cbn; intro H; try discriminate H.
  injection H as ->. split; reflexivity.
Qed.

(** A write that returns has replaced the content at its path, and only
    there. *)
Lemma write_text_returns (path text : string) (w w' : world) :
  write_text path text w = (Return tt, w') ->
  w' = set_node w path (File text).
Proof.
  unfold write_text. destruct (open_write_fault _); [discriminate|].
  destruct (at_path _); try discriminate;
    destruct (write_fault _) as [[k e]|]; try discriminate;
    intro H; injection H as <-; reflexivity.
Qed.

(** A write that fails at [open] has changed nothing. *)
Lemma write_text_open_raises (path text : string) (w : world) (e : exn) :
  open_write_fault (fs w path) = Some e ->
  write_text path text w = (Raise e, w).
Proof. unfold write_text. now intros ->. Qed.

Lemma set_node_here (w : world) (path : string) (n : node) :
  at_path (fs (set_node w path n) path) = n.
Proof. unfold set_node. cbn. now rewrite String.eqb_refl. Qed.

Lemma set_node_elsewhere (w : world) (path other : string) (n : node) :
  other <> path -> fs (set_node w path n) other = fs w other.
Proof.
  intro H. unfold set_node. cbn.
  destruct (String.eqb other path) eqn:E; [|reflexivity].
  apply String.eqb_eq in E. contradiction.
Qed.

Section Resetter.

Context {hashlib : Hashlib}.
Variable json_load : string -> result value.
Variable json_dump : value -> string.

Local Abbreviation reset_attempt := (reset_attempt json_load json_dump).
Local Abbreviation reset_machine_ids := (reset_machine_ids json_load json_dump).

(** The identifiers depend on the entropy source only. *)
Lemma generate_new_ids_printed
  (self : MachineIDResetter) (w : world) (ms : list message) :
  fst (generate_new_ids self (printed w ms)) = fst (generate_new_ids self w)
  /\ fs (snd (generate_new_ids self (printed w ms))) = fs w.
Proof. rewrite !generate_new_ids_run. split; reflexivity. Qed.

Lemma generate_new_ids_keys
  (self : MachineIDResetter) (w : world) (ids : dict) :
  fst (generate_new_ids self w) = Return ids ->
  dict_keys ids = telemetry_keys.
Proof.
  rewrite generate_new_ids_run. cbn [fst]. intro H.
  apply (f_equal (fun r => match r with
                           | Return d => dict_keys d
                           | Raise _ => []
                           end)) in H.
  symmetry. exact H.
Qed.

(** The [try] block, branch by branch. *)
Lemma reset_attempt_run (self : MachineIDResetter) (w : world) :
  reset_attempt self w =
  let p := db_path self in
  match at_path (fs w p) with
  | Missing => (Return false, printed w [Checking; ConfigMissing p])
  | _ =>
    if access_rw (fs w p) then
      match fst (read_text p w) with
      | Raise e => (Raise e, printed w [Checking; Reading])
      | Return text =>
        match json_load text with
        | Raise e => (Raise e, printed w [Checking; Reading])
        | Return config =>
          let g := generate_new_ids self
                     (printed w [Checking; Reading; Generating]) in
          match fst g with
          | Raise e => (Raise e, snd g)
          | Return ids =>
            match py_update config ids with
            | Raise e => (Raise e, snd g)
            | Return config' =>
              match write_text p (json_dump config') (printed (snd g) [Saving])
              with
              | (Raise e, w2) => (Raise e, w2)
              | (Return _, w2) =>
                (Return true,
                 printed w2 ([ResetDone; NewIdsHeader]
                             ++ map (fun kv => NewId (fst kv) (snd kv)) ids))
              end
            end
          end
        end
      end
    else (Return false, printed w [Checking; CannotReadWrite; ReadOnlyHint p])
  end.
Proof.
  assert (Haccess :
    at_path (fs w (db_path self)) <> Missing ->
    io_bind (os_access_rw (db_path self))
      (fun allowed : bool =>
         if negb allowed
         then io_bind (print CannotReadWrite) (fun _ =>
              io_bind (print (ReadOnlyHint (db_path self))) (fun _ => io_ret false))
         else
           io_bind (print Reading) (fun _ =>
           io_bind (read_text (db_path self)) (fun text =>
           io_bind (lift (json_load text)) (fun config =>
           io_bind (print Generating) (fun _ =>
           io_bind (generate_new_ids self) (fun new_ids =>
           io_bind (lift (py_update config new_ids)) (fun config0 =>
           io_bind (print Saving) (fun _ =>
           io_bind (write_text (db_path self) (json_dump config0)) (fun _ =>
           io_bind (print ResetDone) (fun _ =>
           io_bind (print NewIdsHeader) (fun _ =>
           io_bind (print_ids new_ids) (fun _ => io_ret true))))))))))))
      (printed w [Checking])
    = if access_rw (fs w (db_path self)) then
        match fst (read_text (db_path self) w) with
        | Raise e => (Raise e, printed w [Checking; Reading])
        | Return text =>
          match json_load text with
          | Raise e => (Raise e, printed w [Checking; Reading])
          | Return config =>
            let g := generate_new_ids self
                       (printed w [Checking; Reading; Generating]) in
            match fst g with
            | Raise e => (Raise e, snd g)
            | Return ids =>
              match py_update config ids with
              | Raise e => (Raise e, snd g)
              | Return config' =>
                match write_text (db_path self) (json_dump config')
                        (printed (snd g) [Saving])
                with
                | (Raise e, w2) => (Raise e, w2)
                | (Return _, w2) =>
                  (Return true,
                   printed w2 ([ResetDone; NewIdsHeader]
                               ++ map (fun kv => NewId (fst kv) (snd kv)) ids))
                end
              end
            end
          end
        end
      else (Return false,
            printed w [Checking; CannotReadWrite; ReadOnlyHint (db_path self)])).
  { intro Hnode. unfold io_bind at 1. unfold os_access_rw at 1.
    cbn [fs printed].
    replace (match at_path (fs w (db_path self)) with
             | Missing => false
             | _ => access_rw (fs w (db_path self))
             end) with (access_rw (fs w (db_path self)))
      by (destruct (at_path (fs w (db_path self))); [contradiction | | ];
          reflexivity).
    destruct (access_rw _); cbn [negb].
    - rewrite bind_print, printed_printed. unfold io_bind at 1.
      rewrite read_text_pure.
      destruct (fst (read_text _ w)) as [text|e]; [|reflexivity].
      unfold io_bind at 1. unfold lift at 1.
      destruct (json_load text) as [config|e]; [|reflexivity].
      rewrite bind_print, printed_printed. unfold io_bind at 1. cbn [app].
      cbv zeta.
      destruct (generate_new_ids self _) as [[ids|e] w1]; cbn [fst snd];
        [|reflexivity].
      unfold io_bind at 1. unfold lift at 1.
      destruct (py_update config ids) as [config'|e]; [|reflexivity].
      rewrite bind_print. unfold io_bind at 1.
      destruct (write_text _ _ _) as [[[]|e] w2]; [|reflexivity].
      rewrite !bind_print, printed_printed. unfold io_bind at 1.
      rewrite print_ids_run, printed_printed. reflexivity.
    - rewrite !bind_print, !printed_printed. reflexivity. }
  cbv zeta. unfold ResetMachine.reset_attempt.
  rewrite bind_print.
  unfold io_bind at 1. unfold os_path_exists at 1. cbn [fs printed].
  destruct (at_path (fs w (db_path self))) eqn:Hnode; cbn [negb].
  - rewrite bind_print. unfold io_ret. now rewrite printed_printed.
  - rewrite Haccess by discriminate. reflexivity.
  - rewrite Haccess by discriminate. reflexivity.
Qed.

(** What the two handlers make of an exception of the [try] block. *)
Lemma reset_handles (self : MachineIDResetter) (w w1 : world) (e : exn) :
  reset_attempt self w = (Raise e, w1) ->
  reset_machine_ids self w =
  (Return false,
   printed w1 (if isinstance e PermissionError
               then [PermissionProblem (exn_str e); RunAsAdminHint]
               else [ResetFailed (exn_str e)])).
Proof.
  intro H. unfold ResetMachine.reset_machine_ids, io_try_except. rewrite H.
  destruct (isinstance e PermissionError).
  - rewrite !bind_print, printed_printed. reflexivity.
  - rewrite bind_print. reflexivity.
Qed.

Lemma reset_passes (self : MachineIDResetter) (w w1 : world) (b : bool) :
  reset_attempt self w = (Return b, w1) ->
  reset_machine_ids self w = (Return b, w1).
Proof.
  intro H. unfold ResetMachine.reset_machine_ids, io_try_except. now rewrite H.
Qed.

Lemma py_update_returns (config config' : value) (other : dict) :
  py_update config other = Return config' ->
  exists d, config = VDict d /\ config' = VDict (dict_update d other).
Proof.
  destruct config; cbn; intro H; try discriminate H.
  injection H as <-. eauto.
Qed.

Lemma py_update_not_dict (config : value) (other : dict) :
  (forall d, config <> VDict d) ->
  exists e, py_update config other = Raise e.
Proof.
  intro H. destruct config; cbn; eauto. now elim (H d).
Qed.

(** C3.  A reset that succeeds found a file whose text decodes to a JSON
    object, and leaves at the same path the dump of that object updated with
    the identifiers [generate_new_ids] produced: the four telemetry keys hold
    the new identifiers, every other key holds what it held (or is absent as
    before), and no other path of the file system is touched. *)
Theorem reset_preserves_other_keys
  (self : MachineIDResetter) (w w' : world) :
  reset_machine_ids self w = (Return true, w') ->
  exists (text : string) (config new_ids merged : dict),
    at_path (fs w (db_path self)) = File text
    /\ json_load text = Return (VDict config)
    /\ fst (generate_new_ids self w) = Return new_ids
    /\ dict_keys new_ids = telemetry_keys
    /\ merged = dict_update config new_ids
    /\ at_path (fs w' (db_path self)) = File (json_dump (VDict merged))
    /\ (forall k, In k telemetry_keys ->
        dict_get merged k = dict_get new_ids k)
    /\ (forall k, ~ In k telemetry_keys ->
        dict_get merged k = dict_get config k)
    /\ (forall path, path <> db_path self -> fs w' path = fs w path).
Proof.
  intro Hrun.
  destruct (reset_attempt self w) as [[b|e] w1] eqn:Hattempt.
  2:{ rewrite (reset_handles self w w1 e Hattempt) in Hrun. discriminate Hrun. }
  rewrite (reset_passes self w w1 b Hattempt) in Hrun.
  injection Hrun as -> ->.
  rewrite reset_attempt_run in Hattempt. cbv zeta in Hattempt.
  destruct (generate_new_ids_printed self w [Checking; Reading; Generating])
    as [Hids Hfs].
  assert (Hgoal :
    (if access_rw (fs w (db_path self)) then
       match fst (read_text (db_path self) w) with
       | Raise e => (Raise e, printed w [Checking; Reading])
       | Return text =>
         match json_load text with
         | Raise e => (Raise e, printed w [Checking; Reading])
         | Return config =>
           match fst (generate_new_ids self
                        (printed w [Checking; Reading; Generating])) with
           | Raise e =>
               (Raise e, snd (generate_new_ids self
                                (printed w [Checking; Reading; Generating])))
           | Return ids =>
             match py_update config ids with
             | Raise e =>
                 (Raise e, snd (generate_new_ids self
                                  (printed w [Checking; Reading; Generating])))
             | Return config' =>
               match write_text (db_path self) (json_dump config')
                       (printed (snd (generate_new_ids self
                          (printed w [Checking; Reading; Generating])))
                          [Saving])
               with
               | (Raise e, w2) => (Raise e, w2)
               | (Return _, w2) =>
                 (Return true,
                  printed w2 ([ResetDone; NewIdsHeader]
                              ++ map (fun kv => NewId (fst kv) (snd kv)) ids))
               end
             end
           end
         end
       end
     else (Return false,
           printed w [Checking; CannotReadWrite; ReadOnlyHint (db_path self)]))
    = (Return true, w')).
  { destruct (at_path (fs w (db_path self)));
      [discriminate Hattempt | exact Hattempt | exact Hattempt]. }
  clear Hattempt.
  destruct (access_rw _); [|discriminate Hgoal].
  destruct (fst (read_text _ w)) as [text|e] eqn:Hread; [|discriminate Hgoal].
  destruct (json_load text) as [config|e] eqn:Hload; [|discriminate Hgoal].
  rewrite Hids in Hgoal.
  destruct (fst (generate_new_ids self w)) as [ids|e] eqn:Hgen;
    [|discriminate Hgoal].
  destruct (py_update config ids) as [config'|e] eqn:Hupdate;
    [|discriminate Hgoal].
  destruct (write_text _ _ _) as [[[]|e] w2] eqn:Hwrite; [|discriminate Hgoal].
  injection Hgoal as <-.
  apply write_text_returns in Hwrite. subst w2.
  apply read_text_returns in Hread. destruct Hread as [Hnode _].
  apply py_update_returns in Hupdate. destruct Hupdate as [d [-> ->]].
  pose proof (generate_new_ids_keys self w ids Hgen) as Hkeys.
  exists text, d, ids, (dict_update d ids).
  split; [exact Hnode|]. split; [exact Hload|]. split; [reflexivity|].
  split; [exact Hkeys|]. split; [reflexivity|].
  split; [|split; [|split]].
  - cbn [printed fs]. apply set_node_here.
  - intros k Hin. apply PyFacts.dict_get_update_in.
    + rewrite Hkeys. unfold telemetry_keys.
      repeat constructor; cbn [In]; intro H;
        repeat (destruct H as [H|H]); try discriminate H; contradiction.
    + now rewrite Hkeys.
  - intros k Hnot. apply PyFacts.dict_get_update_frame. now rewrite Hkeys.
  - intros path Hpath. cbn [printed fs].
    rewrite set_node_elsewhere by exact Hpath. cbn [printed fs].
    now rewrite Hfs.
Qed.

(** C10.  If the text of the configuration file does not decode, or decodes
    to a value that is not a JSON object, [reset_machine_ids] returns [False]
    and the file system is as it was: nothing is written before the file has
    been decoded to an object and updated. *)
Theorem reset_keeps_undecodable_file
  (self : MachineIDResetter) (w : world) (text : string) :
  at_path (fs w (db_path self)) = File text ->
  access_rw (fs w (db_path self)) = true ->
  (exists e, json_load text = Raise e) \/
  (exists v, json_load text = Return v /\ forall d, v <> VDict d) ->
  exists w', reset_machine_ids self w = (Return false, w')
             /\ fs w' = fs w
             /\ at_path (fs w' (db_path self)) = File text.
Proof.
  intros Hnode Haccess Hbad.
  assert (Hsame : exists e w1, reset_attempt self w = (Raise e, w1)
                               /\ fs w1 = fs w).
  { rewrite reset_attempt_run. cbv zeta. rewrite Hnode, Haccess.
    unfold read_text. rewrite Hnode.
    destruct (open_read_fault _) as [e|]; cbn [fst]; [eauto|].
    destruct Hbad as [[e Hload] | [v [Hload Hv]]]; rewrite Hload; [eauto|].
    destruct (generate_new_ids_printed self w [Checking; Reading; Generating])
      as [Hids Hfs].
    rewrite Hids, generate_new_ids_run. cbn [fst].
    destruct (py_update_not_dict v
                [("telemetry.devDeviceId",
                  VStr (uuid_str (uuid4_int (draw w 0 16))));
                 ("telemetry.macMachineId",
                  VStr (hex_of_bytes (sha512 (draw w 48 64))));
                 ("telemetry.machineId",
                  VStr (hex_of_bytes (sha256 (draw w 16 32))));
                 ("telemetry.sqmId",
                  VStr ("{" ++ upper (uuid_str (uuid4_int (draw w 112 16)))
                        ++ "}"))] Hv) as [e He].
    rewrite He. eauto. }
  destruct Hsame as [e [w1 [Hattempt Hfs]]].
  eexists. split; [apply (reset_handles self w w1 e Hattempt)|].
  cbn [printed fs]. split; [exact Hfs|]. now rewrite Hfs.
Qed.

End Resetter.

(** *** The script on a machine *)

(** [hashlib] with the two functions of FIPS 180-4. *)
Definition fips : Hashlib :=
  {| sha256 := Sha2.sha256;
     sha512 := Sha2.sha512;
     sha256_digest_size := Sha2Facts.length_sha256;
     sha512_digest_size := Sha2Facts.length_sha512 |}.

(** With the entropy bytes 0, 1, 2, ... the four identifiers are those Python
    computes from the same bytes. *)
Example generate_new_ids_counting :
  fst (generate_new_ids (hashlib := fips) sample_self sample_world)
  = Return
      [ ("telemetry.devDeviceId",
         VStr "00010203-0405-4607-8809-0a0b0c0d0e0f");
        ("telemetry.macMachineId",
         VStr ("b5421c7b4f67baf82f33f7426f58873d880222b14a155bc176ca12c2f7d34baf"
               ++ "6e97422e7582bc260fbdd81cf5aff9ca6047942e995ea7d52757a0eb96307d02"));
        ("telemetry.machineId",
         VStr "89c7460452eddff119fea0419e785c74de2ffb139dbe74323aca4a01e198a5dc");
        ("telemetry.sqmId",
         VStr "{70717273-7475-4677-B879-7A7B7C7D7E7F}") ].
Proof. vm_compute. reflexivity. Qed.

Lemma run_of {A} (m : IO A) (w : world) (r : result A) :
  fst (m w) = r -> m w = (r, snd (m w)).
Proof. intros <-. apply surjective_pairing. Qed.

Lemma reset_preserves_other_keys_witness :
  exists merged : dict,
    at_path (fs (snd (reset_machine_ids (hashlib := fips)
                        (decoding "CONFIG" sample_config) sample_dump
                        sample_self sample_world))
                (db_path sample_self))
    = File (sample_dump (VDict merged))
    /\ dict_get merged "a" = Some (VInt 1)
    /\ dict_get merged "telemetry.machineId"
       = Some (VStr "89c7460452eddff119fea0419e785c74de2ffb139dbe74323aca4a01e198a5dc").
Proof.
  destruct (reset_preserves_other_keys (hashlib := fips)
              (decoding "CONFIG" sample_config) sample_dump
              sample_self sample_world _
              (run_of (reset_machine_ids (hashlib := fips)
                         (decoding "CONFIG" sample_config) sample_dump
                         sample_self)
                      sample_world (Return true)
                      ltac:(vm_compute; reflexivity)))
    as [text [config [ids [merged
         [Hnode [Hload [Hgen [_ [_ [Hfile [Hin [Hout _]]]]]]]]]]]].
  exists merged. split; [exact Hfile|].
  injection Hnode as <-. injection Hload as <-.
  rewrite generate_new_ids_counting in Hgen. injection Hgen as <-.
  split.
  - rewrite Hout; [reflexivity|].
    cbn. intros [H|[H|[H|[H|[]]]]]; discriminate H.
  - rewrite Hin; [reflexivity|]. cbn. tauto.
Defined.

Lemma reset_keeps_undecodable_file_witness :
  exists w',
    reset_machine_ids (hashlib := fips) (decoding "[]" (VList [])) sample_dump
      sample_self array_world = (Return false, w')
    /\ at_path (fs w' (db_path sample_self)) = File "[]".
Proof.
  destruct (reset_keeps_undecodable_file (hashlib := fips)
              (decoding "[]" (VList [])) sample_dump sample_self array_world
              "[]" eq_refl eq_refl
              (or_intror (ex_intro _ (VList [])
                            (conj eq_refl
                               (fun d (H : VList [] = VDict d) =>
                                  eq_ind (VList []) (fun v => match v with
                                                             | VList _ => True
                                                             | _ => False
                                                             end) I _ H)))))
    as [w' [Hrun [_ Hnode]]].
  exists w'. split; [exact Hrun | exact Hnode].
Defined.

(** *** Further properties of the identifiers *)

Lemma generate_new_ids_returns {hashlib : Hashlib}
  (self : MachineIDResetter) (w : world) :
  generate_new_ids self w = (Return (new_ids_of self w), drew w 128).
Proof.
  unfold new_ids_of. rewrite generate_new_ids_run. reflexivity.
Qed.

Lemma new_ids_of_printed {hashlib : Hashlib}
  (self : MachineIDResetter) (w : world) (ms : list message) :
  new_ids_of self (printed w ms) = new_ids_of self w.
Proof. unfold new_ids_of. now rewrite !generate_new_ids_run. Qed.

Lemma new_ids_of_keys {hashlib : Hashlib}
  (self : MachineIDResetter) (w : world) :
  dict_keys (new_ids_of self w) = telemetry_keys.
Proof. unfold new_ids_of. now rewrite generate_new_ids_run. Qed.

Lemma telemetry_keys_NoDup : NoDup telemetry_keys.
Proof.
  unfold telemetry_keys.
  repeat constructor; cbn [In]; intro H;
    repeat (destruct H as [H|H]); try discriminate H; contradiction.
Qed.

(** X13.  [generate_new_ids] prints nothing and touches no file; it only
    consumes 128 bytes of entropy, so that a second call builds its four
    identifiers from the next 128 bytes, none of which the first call has
    seen. *)
Theorem generate_new_ids_twice {hashlib : Hashlib}
  (self : MachineIDResetter) (w : world) :
  let w1 := snd (generate_new_ids self w) in
  fs w1 = fs w /\ stdout w1 = stdout w /\ drawn w1 = (drawn w + 128)%nat
  /\ fst (generate_new_ids self w1)
     = Return
         [ ("telemetry.devDeviceId",
            VStr (uuid_str (uuid4_int (draw w 128 16))));
           ("telemetry.macMachineId",
            VStr (hex_of_bytes (sha512 (draw w 176 64))));
           ("telemetry.machineId",
            VStr (hex_of_bytes (sha256 (draw w 144 32))));
           ("telemetry.sqmId",
            VStr ("{" ++ upper (uuid_str (uuid4_int (draw w 240 16)))
                  ++ "}")) ].
Proof.
  cbv zeta. rewrite (generate_new_ids_run self w). cbn [snd fs stdout drawn].
  repeat split.
  rewrite generate_new_ids_run. cbn [fst]. unfold draw.
  cbn [drawn entropy].
  replace (drawn w + 128 + 0)%nat with (drawn w + 128)%nat by lia.
  replace (drawn w + 128 + 48)%nat with (drawn w + 176)%nat by lia.
  replace (drawn w + 128 + 16)%nat with (drawn w + 144)%nat by lia.
  replace (drawn w + 128 + 112)%nat with (drawn w + 240)%nat by lia.
  reflexivity.
Qed.

Lemma upper_hex_digit (n : Z) :
  0 <= n < 16 -> is_upper_hex (upper_char (hex_digit n)) = true.
Proof.
  intro H.
  assert (Hnat : forall k : nat, (k < 16)%nat ->
                 is_upper_hex (upper_char (hex_digit (Z.of_nat k))) = true).
  { intros k Hk. do 16 (destruct k as [|k]; [reflexivity|]). lia. }
  rewrite <- (Z2Nat.id n) by lia. apply Hnat. lia.
Qed.

(** The text of a UUID has the 8-4-4-4-12 layout with lowercase digits,
    its uppercase form the same layout with uppercase digits. *)
Lemma uuid_text_layout (i : Z) :
  uuid_layout is_lower_hex (uuid_str i) = true
  /\ uuid_layout is_upper_hex (upper (uuid_str i)) = true.
Proof.
  split.
  - cbv -[Z.land Z.shiftr hex_digit is_lower_hex andb].
    rewrite !hex_digit_is_hex by apply nibble_range. reflexivity.
  - cbv -[Z.land Z.shiftr hex_digit is_upper_hex upper_char andb].
    rewrite !upper_hex_digit by apply nibble_range. reflexivity.
Qed.


(** *** The identifiers read back *)

(** The digits [hex_digit] writes, in either case, are read back by
    [digit_value], and none of them is a dash or a brace. *)
Lemma digit_value_hex_digit (n : Z) :
  0 <= n < 16 ->
  digit_value (hex_digit n) = Some n
  /\ digit_value (upper_char (hex_digit n)) = Some n
  /\ (Ascii.eqb (hex_digit n) "-" || Ascii.eqb (hex_digit n) "{"
      || Ascii.eqb (hex_digit n) "}")%bool = false
  /\ (Ascii.eqb (upper_char (hex_digit n)) "-"
      || Ascii.eqb (upper_char (hex_digit n)) "{"
      || Ascii.eqb (upper_char (hex_digit n)) "}")%bool = false.
Proof.
  intro H.
  assert (Hnat : forall k : nat, (k < 16)%nat ->
    digit_value (hex_digit (Z.of_nat k)) = Some (Z.of_nat k)
    /\ digit_value (upper_char (hex_digit (Z.of_nat k))) = Some (Z.of_nat k)
    /\ (Ascii.eqb (hex_digit (Z.of_nat k)) "-"
        || Ascii.eqb (hex_digit (Z.of_nat k)) "{"
        || Ascii.eqb (hex_digit (Z.of_nat k)) "}")%bool = false
    /\ (Ascii.eqb (upper_char (hex_digit (Z.of_nat k))) "-"
        || Ascii.eqb (upper_char (hex_digit (Z.of_nat k))) "{"
        || Ascii.eqb (upper_char (hex_digit (Z.of_nat k))) "}")%bool = false).
  { intros k Hk. do 16 (destruct k as [|k]; [repeat split|]). lia. }
  rewrite <- (Z2Nat.id n) by lia. apply Hnat. lia.
Qed.

Lemma nibble_div (z : Z) (k : nat) :
  Z.land (Z.shiftr z (4 * Z.of_nat k)) 15 = (z / 16 ^ Z.of_nat k) mod 16.
Proof.
  change 15 with (Z.ones 4). rewrite Z.land_ones, Z.shiftr_div_pow2 by lia.
  rewrite Z.pow_mul_r by lia. reflexivity.
Qed.

Lemma mod_pow16_succ (z : Z) (k : nat) :
  z mod 16 ^ Z.of_nat (S k)
  = ((z / 16 ^ Z.of_nat k) mod 16) * 16 ^ Z.of_nat k + z mod 16 ^ Z.of_nat k.
Proof.
  rewrite Nat2Z.inj_succ, Z.pow_succ_r by lia.
  assert (0 < 16 ^ Z.of_nat k) by (apply Z.pow_pos_nonneg; lia).
  rewrite (Z.mul_comm 16), Z.rem_mul_r by lia. lia.
Qed.

(** Reading the digits [hex_width] writes gives the number back. *)
Lemma read_uuid_hex_width (k : nat) (z acc : Z) (rest : string) :
  read_uuid acc (hex_width k z ++ rest)
  = read_uuid (acc * 16 ^ Z.of_nat k + z mod 16 ^ Z.of_nat k) rest
  /\ read_uuid acc (upper (hex_width k z) ++ rest)
     = read_uuid (acc * 16 ^ Z.of_nat k + z mod 16 ^ Z.of_nat k) rest.
Proof.
  revert acc. induction k as [|k IH]; intro acc.
  - cbn [hex_width upper append]. rewrite Z.mod_1_r.
    replace (acc * 16 ^ Z.of_nat 0 + 0) with acc by (cbn; lia).
    split; reflexivity.
  - cbn [hex_width upper append read_uuid].
    destruct (digit_value_hex_digit
                (Z.land (Z.shiftr z (4 * Z.of_nat k)) 15) (nibble_range _))
      as [Hd [Hu [Hs Hs']]].
    rewrite Hd, Hu, Hs, Hs'.
    destruct (IH (16 * acc + Z.land (Z.shiftr z (4 * Z.of_nat k)) 15))
      as [IHl IHu].
    rewrite IHl, IHu, nibble_div, mod_pow16_succ.
    rewrite Nat2Z.inj_succ, Z.pow_succ_r by lia.
    split; f_equal; ring.
Qed.

Lemma upper_app (s t : string) : upper (s ++ t) = upper s ++ upper t.
Proof. induction s as [|c s IH]; cbn; [reflexivity | now rewrite IH]. Qed.


Lemma read_uuid_digit (acc x : Z) (rest : string) :
  read_uuid acc (String (hex_digit (Z.land x 15)) rest)
  = read_uuid (16 * acc + Z.land x 15) rest
  /\ read_uuid acc (String (upper_char (hex_digit (Z.land x 15))) rest)
     = read_uuid (16 * acc + Z.land x 15) rest.
Proof.
  destruct (digit_value_hex_digit (Z.land x 15) (nibble_range _))
    as [Hd [Hu [Hs Hs']]].
  cbn [read_uuid]. now rewrite Hd, Hu, Hs, Hs'.
Qed.

Lemma read_uuid_dash (acc : Z) (rest : string) :
  read_uuid acc (String "-" rest) = read_uuid acc rest
  /\ read_uuid acc (String (upper_char "-") rest) = read_uuid acc rest.
Proof. split; reflexivity. Qed.

Lemma read_uuid_brace (acc : Z) (rest : string) :
  read_uuid acc (String "{" rest) = read_uuid acc rest.
Proof. reflexivity. Qed.

Lemma read_uuid_closing (acc : Z) :
  read_uuid acc (String "}" EmptyString) = read_uuid acc EmptyString.
Proof. reflexivity. Qed.

(** [uuid.UUID] reads back from either text the integer it was written
    from. *)
Lemma uuid_of_text_uuid_str (i : Z) :
  0 <= i < 2 ^ 128 ->
  uuid_of_text (uuid_str i) = Some i
  /\ uuid_of_text ("{" ++ upper (uuid_str i) ++ "}") = Some i.
Proof.
  intro Hi.
  assert (Hval : read_uuid 0 (hex_width 32 i ++ "") = Some i).
  { rewrite (proj1 (read_uuid_hex_width 32 i 0 "")). cbn [read_uuid].
    f_equal. change (16 ^ Z.of_nat 32) with (2 ^ 128).
    rewrite Z.mod_small by exact Hi. lia. }
  cbv -[Z.land Z.shiftr hex_digit read_uuid] in Hval.
  rewrite !(fun acc x rest => proj1 (read_uuid_digit acc x rest)) in Hval.
  unfold uuid_of_text. split.
  - cbv -[Z.land Z.shiftr hex_digit read_uuid].
    repeat first
      [ rewrite (fun acc x rest => proj1 (read_uuid_digit acc x rest))
      | rewrite (fun acc rest => proj1 (read_uuid_dash acc rest)) ].
    exact Hval.
  - cbv -[Z.land Z.shiftr hex_digit upper_char read_uuid].
    rewrite read_uuid_brace.
    repeat first
      [ rewrite (fun acc x rest => proj2 (read_uuid_digit acc x rest))
      | rewrite (fun acc rest => proj2 (read_uuid_dash acc rest)) ].
    rewrite read_uuid_closing. exact Hval.
Qed.


(** *** The bits of the entropy in the identifiers *)

Lemma byte_val_range (b : Byte.byte) : 0 <= byte_val b < 256.
Proof. unfold byte_val. pose proof (Byte.to_N_bounded b). lia. Qed.

Lemma testbit_append_byte (a b n : Z) :
  0 <= b < 256 -> 0 <= n ->
  Z.testbit (a * 256 + b) n
  = if n <? 8 then Z.testbit b n else Z.testbit a (n - 8).
Proof.
  intros Hb Hn.
  assert (Hhigh : forall m, 8 <= m -> Z.testbit b m = false).
  { intros m Hm. destruct (Z.eq_dec b 0) as [->|Hnz]; [apply Z.bits_0|].
    apply Z.bits_above_log2; [lia|].
    assert (Z.log2 b < 8) by (apply Z.log2_lt_pow2; lia). lia. }
  assert (Hdisjoint : Z.land (Z.shiftl a 8) b = 0).
  { apply Z.bits_inj'. intros m Hm. rewrite Z.land_spec, Z.bits_0.
    destruct (Z.ltb_spec m 8) as [Hlt|Hge].
    - rewrite Z.shiftl_spec_low by lia. reflexivity.
    - rewrite Hhigh by lia. apply andb_false_r. }
  replace (a * 256 + b) with (Z.lor (Z.shiftl a 8) b).
  - rewrite Z.lor_spec. destruct (Z.ltb_spec n 8) as [Hlt|Hge].
    + rewrite Z.shiftl_spec_low by lia. reflexivity.
    + rewrite Z.shiftl_spec, Hhigh by lia. apply orb_false_r.
  - rewrite <- Z.lxor_lor, <- Z.add_nocarry_lxor by exact Hdisjoint.
    rewrite Z.shiftl_mul_pow2 by lia. reflexivity.
Qed.

Lemma int_from_bytes_snoc (bs : list Byte.byte) (b : Byte.byte) :
  int_from_bytes (bs ++ [b]) = int_from_bytes bs * 256 + byte_val b.
Proof. unfold int_from_bytes. now rewrite fold_left_app. Qed.

(** [int.from_bytes(bs, "big")] is big-endian: bit [n] of the integer is bit
    [n mod 8] of the byte [n / 8] places before the last. *)
Lemma testbit_int_from_bytes (bs : list Byte.byte) (n : Z) :
  0 <= n < 8 * Z.of_nat (List.length bs) ->
  Z.testbit (int_from_bytes bs) n
  = Z.testbit
      (byte_val (nth (List.length bs - 1 - Z.to_nat (n / 8)) bs Byte.x00))
      (n mod 8).
Proof.
  revert n. induction bs as [|b bs IH] using rev_ind; intros n Hn.
  - cbn in Hn. lia.
  - rewrite List.length_app in Hn |- *. cbn [List.length] in Hn |- *.
    rewrite int_from_bytes_snoc,
      testbit_append_byte by (apply byte_val_range || lia).
    destruct (Z.ltb_spec n 8) as [Hlt|Hge].
    + rewrite Z.div_small, Z.mod_small by lia.
      replace (List.length bs + 1 - 1 - Z.to_nat 0)%nat
        with (List.length bs + 0)%nat by lia.
      rewrite app_nth2_plus. reflexivity.
    + rewrite IH by lia.
      replace n with ((n - 8) + 1 * 8) at 3 4 by lia.
      rewrite Z.div_add, Z.mod_add by lia.
      assert (0 <= (n - 8) / 8 < Z.of_nat (List.length bs)).
      { split; [apply Z.div_pos; lia|].
        apply Z.div_lt_upper_bound; lia. }
      replace (List.length bs + 1 - 1 - Z.to_nat ((n - 8) / 8 + 1))%nat
        with (List.length bs - 1 - Z.to_nat ((n - 8) / 8))%nat by lia.
      rewrite app_nth1 by lia. reflexivity.
Qed.

Lemma mask_clear (c s n : Z) :
  0 < c -> 0 <= s -> 0 <= n -> n < s \/ s + Z.log2 c < n ->
  Z.testbit (Z.shiftl c s) n = false.
Proof.
  intros Hc Hs Hn [Hlow|Hhigh].
  - apply Z.shiftl_spec_low. exact Hlow.
  - rewrite Z.shiftl_spec by lia. apply Z.bits_above_log2; lia.
Qed.

(** Outside the variant bits 62-63 and the version bits 76-79, a version-4
    UUID has the bits of the sixteen bytes it was made of. *)
Lemma testbit_uuid4_int (bs : list Byte.byte) (n : Z) :
  0 <= n -> ~ 62 <= n <= 63 -> ~ 76 <= n <= 79 ->
  Z.testbit (uuid4_int bs) n = Z.testbit (int_from_bytes bs) n.
Proof.
  intros Hn Hvariant Hversion. unfold uuid4_int. cbv zeta.
  generalize (int_from_bytes bs). intro i.
  change (Z.shiftl 49152 48) with (Z.shiftl 3 62).
  change (Z.shiftl 32768 48) with (Z.shiftl 1 63).
  change (Z.shiftl 61440 64) with (Z.shiftl 15 76).
  change (Z.shiftl 4 76) with (Z.shiftl 1 78).
  rewrite Z.lor_spec, Z.land_spec, Z.lnot_spec, Z.lor_spec, Z.land_spec,
    Z.lnot_spec by lia.
  rewrite (mask_clear 3 62), (mask_clear 1 63), (mask_clear 15 76),
    (mask_clear 1 78) by (cbn; lia).
  cbn [negb]. now rewrite !andb_true_r, !orb_false_r.
Qed.

Lemma nth_draw (w : world) (from n k : nat) :
  (k < n)%nat ->
  nth k (draw w from n) Byte.x00 = entropy w (drawn w + from + k)%nat.
Proof.
  intro Hk. unfold draw.
  rewrite (nth_indep _ Byte.x00 (entropy w 0%nat))
    by (rewrite length_map, length_seq; exact Hk).
  rewrite map_nth, seq_nth by exact Hk. reflexivity.
Qed.

Lemma testbit_uuid4_entropy (w : world) (from : nat) (n : Z) :
  0 <= n < 128 -> ~ 62 <= n <= 63 -> ~ 76 <= n <= 79 ->
  Z.testbit (uuid4_int (draw w from 16)) n = entropy_bit w from n.
Proof.
  intros Hn Hvariant Hversion.
  rewrite testbit_uuid4_int by lia.
  rewrite testbit_int_from_bytes by (rewrite length_draw; lia).
  rewrite length_draw. unfold entropy_bit.
  assert (0 <= n / 8 < 16)
    by (split; [apply Z.div_pos; lia | apply Z.div_lt_upper_bound; lia]).
  replace (16 - 1 - Z.to_nat (n / 8))%nat with (15 - Z.to_nat (n / 8))%nat
    by lia.
  rewrite nth_draw by lia. reflexivity.
Qed.

(** *** Hex digests read back *)

Lemma bytes_fromhex_hex_of_bytes (bs : list Byte.byte) :
  bytes_fromhex (hex_of_bytes bs) = Some bs.
Proof.
  induction bs as [|b bs IH]; [reflexivity|].
  cbn [hex_of_bytes hex_width append bytes_fromhex].
  destruct (digit_value_hex_digit
              (Z.land (Z.shiftr (byte_val b) (4 * Z.of_nat 1)) 15)
              (nibble_range _)) as [Hhi _].
  destruct (digit_value_hex_digit
              (Z.land (Z.shiftr (byte_val b) (4 * Z.of_nat 0)) 15)
              (nibble_range _)) as [Hlo _].
  rewrite Hhi, Hlo, IH, !nibble_div.
  pose proof (byte_val_range b) as Hb.
  replace (16 * ((byte_val b / 16 ^ Z.of_nat 1) mod 16)
           + (byte_val b / 16 ^ Z.of_nat 0) mod 16) with (byte_val b).
  - unfold byte_val. now rewrite N2Z.id, Byte.of_to_N.
  - change (16 ^ Z.of_nat 1) with 16. change (16 ^ Z.of_nat 0) with 1.
    rewrite Z.div_1_r.
    rewrite (Z.mod_small (byte_val b / 16))
      by (split; [apply Z.div_pos; lia | apply Z.div_lt_upper_bound; lia]).
    pose proof (Z.div_mod (byte_val b) 16 ltac:(lia)). lia.
Qed.


(** The braces and what is between them. *)
Lemma braced_upper_uuid (i : Z) :
  String.length ("{" ++ upper (uuid_str i) ++ "}") = 38%nat
  /\ String.get 0 ("{" ++ upper (uuid_str i) ++ "}") = Some "{"%char
  /\ String.get 37 ("{" ++ upper (uuid_str i) ++ "}") = Some "}"%char
  /\ uuid_layout is_upper_hex
       (substring 1 36 ("{" ++ upper (uuid_str i) ++ "}")) = true.
Proof.
  split; [|split; [|split]].
  - cbn [append String.length]. rewrite length_app, length_upper,
      length_uuid_str. reflexivity.
  - reflexivity.
  - cbv -[Z.land Z.shiftr hex_digit upper_char]. reflexivity.
  - cbv -[Z.land Z.shiftr hex_digit is_upper_hex upper_char andb].
    rewrite !upper_hex_digit by apply nibble_range. reflexivity.
Qed.

(** C5.  Every call of [generate_new_ids] returns a mapping whose keys are
    exactly the four telemetry keys.  [telemetry.devDeviceId] is the
    lowercase 8-4-4-4-12 text of a version-4 UUID: read back, it is an
    integer whose version is 4 and variant [10] and whose other 122 bits are
    the bits of sixteen bytes taken from the entropy source.
    [telemetry.machineId] is 64 lowercase hexadecimal characters that read
    back as the SHA-256 digest of the next 32 bytes of entropy, and
    [telemetry.macMachineId] 128 that read back as the SHA-512 digest of the
    64 bytes after those.  [telemetry.sqmId] is a brace, the uppercase
    8-4-4-4-12 text of a second version-4 UUID made in the same way of the
    next sixteen bytes, and a closing brace.  The four values are pairwise
    distinct. *)
Theorem generate_new_ids_shape {hashlib : Hashlib}
  (self : MachineIDResetter) (w : world) :
  exists (uuid1 uuid2 : Z) (r32 r64 : list Byte.byte)
         (dev mac machine sqm : string),
    fst (generate_new_ids self w)
    = Return [ ("telemetry.devDeviceId", VStr dev);
               ("telemetry.macMachineId", VStr mac);
               ("telemetry.machineId", VStr machine);
               ("telemetry.sqmId", VStr sqm) ]
    /\ (uuid1 = uuid4_int (draw w 0 16) /\ uuid_version uuid1 = 4
        /\ uuid_variant uuid1 = 2 /\ 0 <= uuid1 < 2 ^ 128
        /\ dev = uuid_str uuid1
        /\ String.get 14 dev = Some "4"%char
        /\ uuid_layout is_lower_hex dev = true
        /\ uuid_of_text dev = Some uuid1
        /\ (forall n, 0 <= n < 128 -> ~ 62 <= n <= 63 -> ~ 76 <= n <= 79 ->
            Z.testbit uuid1 n = entropy_bit w 0 n))
    /\ (r32 = draw w 16 32 /\ List.length r32 = 32%nat
        /\ (forall k, (k < 32)%nat ->
            nth k r32 Byte.x00 = entropy w (drawn w + 16 + k)%nat)
        /\ machine = hex_of_bytes (sha256 r32)
        /\ String.length machine = 64%nat
        /\ all_chars is_lower_hex machine = true
        /\ bytes_fromhex machine = Some (sha256 r32))
    /\ (r64 = draw w 48 64 /\ List.length r64 = 64%nat
        /\ (forall k, (k < 64)%nat ->
            nth k r64 Byte.x00 = entropy w (drawn w + 48 + k)%nat)
        /\ mac = hex_of_bytes (sha512 r64)
        /\ String.length mac = 128%nat
        /\ all_chars is_lower_hex mac = true
        /\ bytes_fromhex mac = Some (sha512 r64))
    /\ (uuid2 = uuid4_int (draw w 112 16) /\ uuid_version uuid2 = 4
        /\ uuid_variant uuid2 = 2 /\ 0 <= uuid2 < 2 ^ 128
        /\ sqm = "{" ++ upper (uuid_str uuid2) ++ "}"
        /\ String.length sqm = 38%nat
        /\ String.get 0 sqm = Some "{"%char
        /\ String.get 37 sqm = Some "}"%char
        /\ uuid_layout is_upper_hex (substring 1 36 sqm) = true
        /\ uuid_of_text sqm = Some uuid2
        /\ (forall n, 0 <= n < 128 -> ~ 62 <= n <= 63 -> ~ 76 <= n <= 79 ->
            Z.testbit uuid2 n = entropy_bit w 112 n))
    /\ NoDup [dev; mac; machine; sqm].
Proof.
  rewrite generate_new_ids_run. cbn [fst].
  do 8 eexists. split; [reflexivity|].
  assert (Hdev : forall i, String.length (uuid_str i) = 36%nat)
    by apply length_uuid_str.
  assert (Hmachine : String.length (hex_of_bytes (sha256 (draw w 16 32))) = 64%nat)
    by (rewrite length_hex_of_bytes, sha256_digest_size; reflexivity).
  assert (Hmac : String.length (hex_of_bytes (sha512 (draw w 48 64))) = 128%nat)
    by (rewrite length_hex_of_bytes, sha512_digest_size; reflexivity).
  pose proof (uuid4_int_range (draw w 0 16) (length_draw w 0 16)) as Hr1.
  pose proof (uuid4_int_range (draw w 112 16) (length_draw w 112 16)) as Hr2.
  destruct (braced_upper_uuid (uuid4_int (draw w 112 16)))
    as [Hsqm [Hopen [Hclose Hinner]]].
  split; [|split; [|split; [|split]]].
  - split; [reflexivity|]. split; [apply uuid4_version|].
    split; [apply uuid4_variant|]. split; [exact Hr1|].
    split; [reflexivity|].
    split; [rewrite uuid_str_version_digit, uuid4_version; reflexivity|].
    split; [apply (proj1 (uuid_text_layout _))|].
    split; [exact (proj1 (uuid_of_text_uuid_str _ Hr1))|].
    intros n Hn Hvariant Hversion.
    exact (testbit_uuid4_entropy w 0 n Hn Hvariant Hversion).
  - split; [reflexivity|]. split; [apply length_draw|].
    split; [intros k Hk; exact (nth_draw w 16 32 k Hk)|].
    split; [reflexivity|]. split; [exact Hmachine|].
    split; [apply hex_of_bytes_is_hex | apply bytes_fromhex_hex_of_bytes].
  - split; [reflexivity|]. split; [apply length_draw|].
    split; [intros k Hk; exact (nth_draw w 48 64 k Hk)|].
    split; [reflexivity|]. split; [exact Hmac|].
    split; [apply hex_of_bytes_is_hex | apply bytes_fromhex_hex_of_bytes].
  - split; [reflexivity|]. split; [apply uuid4_version|].
    split; [apply uuid4_variant|]. split; [exact Hr2|].
    split; [reflexivity|]. split; [exact Hsqm|]. split; [exact Hopen|].
    split; [exact Hclose|]. split; [exact Hinner|].
    split; [exact (proj2 (uuid_of_text_uuid_str _ Hr2))|].
    intros n Hn Hvariant Hversion.
    exact (testbit_uuid4_entropy w 112 n Hn Hvariant Hversion).
  - repeat constructor; cbn [In]; intros H;
      repeat (destruct H as [H|H]);
      try contradiction;
      apply (f_equal String.length) in H;
      rewrite ?Hdev, ?Hmachine, ?Hmac, ?Hsqm in H; discriminate H.
Qed.

Lemma generate_new_ids_shape_witness :
  exists dev mac machine sqm : string,
    fst (generate_new_ids (hashlib := fips) sample_self sample_world)
    = Return [ ("telemetry.devDeviceId", VStr dev);
               ("telemetry.macMachineId", VStr mac);
               ("telemetry.machineId", VStr machine);
               ("telemetry.sqmId", VStr sqm) ]
    /\ NoDup [dev; mac; machine; sqm]
    /\ uuid_layout is_lower_hex dev = true
    /\ uuid_layout is_upper_hex (substring 1 36 sqm) = true.
Proof.
  destruct (generate_new_ids_shape (hashlib := fips) sample_self sample_world)
    as (u1 & u2 & r32 & r64 & dev & mac & machine & sqm
        & H & Hd & _ & _ & Hs & Hnd).
  destruct Hd as (_ & _ & _ & _ & _ & _ & Hdev & _).
  destruct Hs as (_ & _ & _ & _ & _ & _ & _ & _ & Hsqm & _).
  exists dev, mac, machine, sqm.
  split; [exact H|]. split; [exact Hnd|]. split; [exact Hdev | exact Hsqm].
Defined.

(** X14.  [telemetry.devDeviceId] has the 8-4-4-4-12 layout of a UUID
    with lowercase hexadecimal digits, and [telemetry.sqmId] is an opening
    brace, a text of the same layout with uppercase digits, and a closing
    brace. *)
Theorem generate_new_ids_layout {hashlib : Hashlib}
  (self : MachineIDResetter) (w : world) :
  exists dev inner,
    dict_get (new_ids_of self w) "telemetry.devDeviceId" = Some (VStr dev)
    /\ dict_get (new_ids_of self w) "telemetry.sqmId"
       = Some (VStr ("{" ++ inner ++ "}"))
    /\ uuid_layout is_lower_hex dev = true
    /\ uuid_layout is_upper_hex inner = true.
Proof.
  unfold new_ids_of. rewrite generate_new_ids_run. cbn [fst].
  exists (uuid_str (uuid4_int (draw w 0 16))),
         (upper (uuid_str (uuid4_int (draw w 112 16)))).
  split; [reflexivity|]. split; [reflexivity|]. split.
  - apply (proj1 (uuid_text_layout _)).
  - apply (proj2 (uuid_text_layout _)).
Qed.


(** *** Further properties of the reset *)

Lemma write_text_frame (path text other : string) (w : world) :
  other <> path -> fs (snd (write_text path text w)) other = fs w other.
Proof.
  intro H. unfold write_text.
  destruct (open_write_fault _); [reflexivity|].
  destruct (at_path _); try reflexivity;
    destruct (write_fault _) as [[k e]|]; cbn [snd];
    now rewrite set_node_elsewhere.
Qed.

Lemma write_text_entropy (path text : string) (w : world) :
  drawn (snd (write_text path text w)) = drawn w
  /\ stdout (snd (write_text path text w)) = stdout w.
Proof.
  unfold write_text.
  destruct (open_write_fault _); [split; reflexivity|].
  destruct (at_path _); try (split; reflexivity);
    destruct (write_fault _) as [[k e]|]; split; reflexivity.
Qed.

Section Further.

Context {hashlib : Hashlib}.
Variable json_load : string -> result value.
Variable json_dump : value -> string.

Local Abbreviation reset_attempt := (reset_attempt json_load json_dump).
Local Abbreviation reset_machine_ids := (reset_machine_ids json_load json_dump).

(** The [try] block once the file has been read. *)
Lemma attempt_decoded (self : MachineIDResetter) (w : world) (text : string) :
  at_path (fs w (db_path self)) = File text ->
  access_rw (fs w (db_path self)) = true ->
  open_read_fault (fs w (db_path self)) = None ->
  reset_attempt self w =
  match json_load text with
  | Raise e => (Raise e, printed w [Checking; Reading])
  | Return config =>
    let ids := new_ids_of self w in
    let w1 := drew (printed w [Checking; Reading; Generating]) 128 in
    match py_update config ids with
    | Raise e => (Raise e, w1)
    | Return config' =>
      match write_text (db_path self) (json_dump config') (printed w1 [Saving])
      with
      | (Raise e, w2) => (Raise e, w2)
      | (Return _, w2) =>
        (Return true, printed w2 ([ResetDone; NewIdsHeader] ++ id_lines ids))
      end
    end
  end.
Proof.
  intros Hnode Haccess Hfault.
  rewrite reset_attempt_run. cbv zeta. rewrite Hnode, Haccess.
  unfold read_text. rewrite Hfault, Hnode. cbn [fst].
  destruct (json_load text) as [config|e]; [|reflexivity].
  rewrite generate_new_ids_returns, new_ids_of_printed. cbn [fst snd].
  reflexivity.
Qed.

(** The outcome and the final world of a run, from those of the [try]
    block. *)
Lemma reset_from_attempt (self : MachineIDResetter) (w : world) :
  reset_machine_ids self w =
  match reset_attempt self w with
  | (Return b, w1) => (Return b, w1)
  | (Raise e, w1) =>
      (Return false,
       printed w1 (if isinstance e PermissionError
                   then [PermissionProblem (exn_str e); RunAsAdminHint]
                   else [ResetFailed (exn_str e)]))
  end.
Proof.
  destruct (reset_attempt self w) as [[b|e] w1] eqn:H.
  - exact (reset_passes json_load json_dump self w w1 b H).
  - exact (reset_handles json_load json_dump self w w1 e H).
Qed.

(** The world a successful run ends in. *)
Lemma reset_success_inv (self : MachineIDResetter) (w : world) :
  fst (reset_machine_ids self w) = Return true ->
  exists text d,
    at_path (fs w (db_path self)) = File text
    /\ access_rw (fs w (db_path self)) = true
    /\ open_read_fault (fs w (db_path self)) = None
    /\ json_load text = Return (VDict d)
    /\ open_write_fault (fs w (db_path self)) = None
    /\ write_fault (fs w (db_path self)) = None
    /\ snd (reset_machine_ids self w)
       = printed
           (set_node
              (printed (drew (printed w [Checking; Reading; Generating]) 128)
                 [Saving])
              (db_path self)
              (File (json_dump
                       (VDict (dict_update d (new_ids_of self w))))))
           ([ResetDone; NewIdsHeader] ++ id_lines (new_ids_of self w)).
Proof.
  rewrite reset_from_attempt. intro H.
  destruct (at_path (fs w (db_path self))) as [| |text] eqn:Hnode.
  - rewrite reset_attempt_run in H. cbv zeta in H. rewrite Hnode in H.
    discriminate H.
  - rewrite reset_attempt_run in H. cbv zeta in H. rewrite Hnode in H.
    unfold read_text in H. rewrite Hnode in H.
    destruct (access_rw _); [|discriminate H].
    destruct (open_read_fault _); discriminate H.
  - destruct (access_rw (fs w (db_path self))) eqn:Haccess.
    2:{ rewrite reset_attempt_run in H. cbv zeta in H.
        rewrite Hnode, Haccess in H. discriminate H. }
    destruct (open_read_fault (fs w (db_path self))) eqn:Hfault.
    1:{ rewrite reset_attempt_run in H. cbv zeta in H.
        rewrite Hnode, Haccess in H. unfold read_text in H.
        rewrite Hfault in H. discriminate H. }
    rewrite (attempt_decoded self w text Hnode Haccess Hfault) in H |- *.
    cbv zeta in H |- *.
    destruct (json_load text) as [config|e] eqn:Hload; [|discriminate H].
    destruct config; try discriminate H.
    cbn [py_update] in H |- *. unfold write_text in H |- *.
    cbn [fs printed drew] in H |- *.
    destruct (open_write_fault (fs w (db_path self))); [discriminate H|].
    rewrite Hnode in H |- *.
    destruct (write_fault (fs w (db_path self))) as [[k e]|];
      [discriminate H|].
    exists text, d. repeat split; try exact Hload; reflexivity.
Qed.

(** X16.  [reset_machine_ids] returns [True] exactly when the
    configuration path holds a readable and writable file whose text decodes
    to a JSON object and both the opening for writing and the writing itself
    succeed. *)
Theorem reset_succeeds_iff (self : MachineIDResetter) (w : world) :
  fst (reset_machine_ids self w) = Return true <->
  exists text d,
    at_path (fs w (db_path self)) = File text
    /\ access_rw (fs w (db_path self)) = true
    /\ open_read_fault (fs w (db_path self)) = None
    /\ json_load text = Return (VDict d)
    /\ open_write_fault (fs w (db_path self)) = None
    /\ write_fault (fs w (db_path self)) = None.
Proof.
  split.
  - intro H. destruct (reset_success_inv self w H)
      as [text [d [Hnode [Haccess [Hfault [Hload [Hopen [Hwrite _]]]]]]]].
    exists text, d. repeat split; assumption.
  - intros [text [d [Hnode [Haccess [Hfault [Hload [Hopen Hwrite]]]]]]].
    rewrite reset_from_attempt.
    rewrite (attempt_decoded self w text Hnode Haccess Hfault). cbv zeta.
    rewrite Hload. cbn [py_update]. unfold write_text. cbn [fs printed drew].
    rewrite Hopen, Hnode, Hwrite. reflexivity.
Qed.

(** X17.  Whatever the outcome, a run changes the file system at the
    configuration path only. *)
Theorem reset_touches_one_path
  (self : MachineIDResetter) (w : world) (path : string) :
  path <> db_path self ->
  fs (snd (reset_machine_ids self w)) path = fs w path.
Proof.
  intro Hpath. rewrite reset_from_attempt.
  assert (Hattempt : fs (snd (reset_attempt self w)) path = fs w path).
  { rewrite reset_attempt_run. cbv zeta.
    destruct (at_path (fs w (db_path self))); [reflexivity| |];
      (destruct (access_rw _); [|reflexivity];
       destruct (fst (read_text _ w)); [|reflexivity];
       destruct (json_load _); [|reflexivity];
       rewrite generate_new_ids_returns; cbn [fst snd];
       destruct (py_update _ _); [|reflexivity];
       match goal with
       | |- context [write_text ?p ?t ?w0] =>
           pose proof (write_text_frame p t path w0 Hpath) as Hw;
           destruct (write_text p t w0) as [[[]|e] w2]
       end; cbn [snd printed fs] in *; exact Hw). }
  destruct (reset_attempt self w) as [[b|e] w1]; exact Hattempt.
Qed.

(** X18.  There is no backup and no temporary file: when the writing fails
    after the file has been opened, [reset_machine_ids] returns [False] and
    the configuration file holds only the part of the new text that was
    written before the error, the old text being gone. *)
Theorem reset_failed_write
  (self : MachineIDResetter) (w : world) (text : string) (d : dict)
  (k : nat) (e : exn) :
  at_path (fs w (db_path self)) = File text ->
  access_rw (fs w (db_path self)) = true ->
  open_read_fault (fs w (db_path self)) = None ->
  json_load text = Return (VDict d) ->
  open_write_fault (fs w (db_path self)) = None ->
  write_fault (fs w (db_path self)) = Some (k, e) ->
  fst (reset_machine_ids self w) = Return false
  /\ at_path (fs (snd (reset_machine_ids self w)) (db_path self))
     = File (substring 0 k
               (json_dump (VDict (dict_update d (new_ids_of self w))))).
Proof.
  intros Hnode Haccess Hfault Hload Hopen Hwrite.
  rewrite reset_from_attempt.
  rewrite (attempt_decoded self w text Hnode Haccess Hfault). cbv zeta.
  rewrite Hload. cbn [py_update]. unfold write_text. cbn [fs printed drew].
  rewrite Hopen, Hnode, Hwrite. cbn [fst snd printed fs].
  split; [reflexivity|]. unfold set_node. cbn [fs].
  now rewrite String.eqb_refl.
Qed.

(** X19.  When [open(path, "w")] is refused the file is left as it was:
    the run has read the file, drawn the identifiers and announced the
    saving, then prints the message of the handler that matches the
    exception, the permission hint for a [PermissionError], and returns
    [False]. *)
Theorem reset_open_refused
  (self : MachineIDResetter) (w : world) (text : string) (d : dict) (e : exn) :
  at_path (fs w (db_path self)) = File text ->
  access_rw (fs w (db_path self)) = true ->
  open_read_fault (fs w (db_path self)) = None ->
  json_load text = Return (VDict d) ->
  open_write_fault (fs w (db_path self)) = Some e ->
  fst (reset_machine_ids self w) = Return false
  /\ fs (snd (reset_machine_ids self w)) = fs w
  /\ stdout (snd (reset_machine_ids self w))
     = (stdout w ++ [Checking; Reading; Generating; Saving]
          ++ (if isinstance e PermissionError
              then [PermissionProblem (exn_str e); RunAsAdminHint]
              else [ResetFailed (exn_str e)]))%list.
Proof.
  intros Hnode Haccess Hfault Hload Hopen.
  rewrite reset_from_attempt.
  rewrite (attempt_decoded self w text Hnode Haccess Hfault). cbv zeta.
  rewrite Hload. cbn [py_update]. unfold write_text. cbn [fs printed drew].
  rewrite Hopen. cbn [fst snd printed fs stdout drew].
  split; [reflexivity|]. split; [reflexivity|].
  rewrite <- !app_assoc. reflexivity.
Qed.

(** X21.  A successful reset keeps the keys of the configuration in their
    order: the telemetry keys the file already had stay where they were, and
    those it lacked are added after the last key, in the order
    [devDeviceId], [macMachineId], [machineId], [sqmId].  Keys that were
    unique remain unique. *)
Theorem reset_keeps_key_order (self : MachineIDResetter) (w : world) :
  fst (reset_machine_ids self w) = Return true ->
  exists text config merged,
    at_path (fs w (db_path self)) = File text
    /\ json_load text = Return (VDict config)
    /\ at_path (fs (snd (reset_machine_ids self w)) (db_path self))
       = File (json_dump (VDict merged))
    /\ dict_keys merged
       = (dict_keys config
            ++ filter (fun k => negb (dict_mem config k)) telemetry_keys)%list
    /\ (NoDup (dict_keys config) -> NoDup (dict_keys merged)).
Proof.
  intro H. destruct (reset_success_inv self w H)
    as [text [d [Hnode [_ [_ [Hload [_ [_ Hworld]]]]]]]].
  exists text, d, (dict_update d (new_ids_of self w)).
  split; [exact Hnode|]. split; [exact Hload|]. split; [|split].
  - rewrite Hworld. cbn [printed fs]. apply set_node_here.
  - rewrite PyFacts.dict_keys_update, new_ids_of_keys; [reflexivity|].
    rewrite new_ids_of_keys. apply telemetry_keys_NoDup.
  - apply PyFacts.dict_update_NoDup.
Qed.

(** X22.  After a successful reset the terminal shows the progress lines
    and then, one line per key, the identifiers of this run; each identifier
    shown is the one the written configuration holds under that key. *)
Theorem reset_prints_what_it_wrote (self : MachineIDResetter) (w : world) :
  fst (reset_machine_ids self w) = Return true ->
  exists config merged,
    at_path (fs (snd (reset_machine_ids self w)) (db_path self))
    = File (json_dump (VDict merged))
    /\ merged = dict_update config (new_ids_of self w)
    /\ stdout (snd (reset_machine_ids self w))
       = (stdout w
            ++ [Checking; Reading; Generating; Saving; ResetDone; NewIdsHeader]
            ++ id_lines (new_ids_of self w))%list
    /\ (forall k v, In (NewId k v) (id_lines (new_ids_of self w)) ->
        dict_get merged k = Some v).
Proof.
  intro H. destruct (reset_success_inv self w H)
    as [text [d [_ [_ [_ [_ [_ [_ Hworld]]]]]]]].
  exists d, (dict_update d (new_ids_of self w)).
  split; [|split; [reflexivity|split]].
  - rewrite Hworld. cbn [printed fs]. apply set_node_here.
  - rewrite Hworld. cbn [printed stdout set_node drew].
    now rewrite <- !app_assoc.
  - intros k v Hin. unfold id_lines in Hin. apply in_map_iff in Hin.
    destruct Hin as [[k' v'] [Heq Hin]]. cbn in Heq.
    injection Heq as -> ->.
    assert (Hnd : NoDup (dict_keys (new_ids_of self w))).
    { rewrite new_ids_of_keys. apply telemetry_keys_NoDup. }
    rewrite PyFacts.dict_get_update_in.
    + now apply PyFacts.dict_get_in.
    + exact Hnd.
    + apply (in_map fst) in Hin. exact Hin.
Qed.

(** X23.  The identifiers are drawn as soon as the file has been decoded,
    before the decoded value is known to be an object: a run that gets that
    far consumes 128 bytes of entropy even when it then fails, and every
    other run consumes none. *)
Theorem reset_entropy (self : MachineIDResetter) (w : world) :
  ((exists text v,
      at_path (fs w (db_path self)) = File text
      /\ access_rw (fs w (db_path self)) = true
      /\ open_read_fault (fs w (db_path self)) = None
      /\ json_load text = Return v) ->
   drawn (snd (reset_machine_ids self w)) = (drawn w + 128)%nat)
  /\ (~ (exists text v,
          at_path (fs w (db_path self)) = File text
          /\ access_rw (fs w (db_path self)) = true
          /\ open_read_fault (fs w (db_path self)) = None
          /\ json_load text = Return v) ->
      drawn (snd (reset_machine_ids self w)) = drawn w).
Proof.
  assert (Hhandler : forall r w1,
            drawn (snd (match r : result bool with
                        | Return b => (Return b, w1)
                        | Raise e =>
                            (Return false,
                             printed w1
                               (if isinstance e PermissionError
                                then [PermissionProblem (exn_str e);
                                      RunAsAdminHint]
                                else [ResetFailed (exn_str e)]))
                        end)) = drawn w1).
  { intros [b|e] w1; reflexivity. }
  split.
  - intros [text [v [Hnode [Haccess [Hfault Hload]]]]].
    rewrite reset_from_attempt.
    rewrite (attempt_decoded self w text Hnode Haccess Hfault). cbv zeta.
    rewrite Hload.
    destruct (py_update v (new_ids_of self w)) as [config'|e];
      [|reflexivity].
    match goal with
    | |- context [write_text ?p ?t ?w0] =>
        pose proof (proj1 (write_text_entropy p t w0)) as Hw;
        destruct (write_text p t w0) as [[[]|e] w2]
    end; cbn [snd printed drawn drew] in *; exact Hw.
  - intro Hnot. rewrite reset_from_attempt, reset_attempt_run. cbv zeta.
    destruct (at_path (fs w (db_path self))) as [| |text] eqn:Hnode;
      [reflexivity| |].
    + destruct (access_rw _); [|reflexivity].
      unfold read_text. rewrite Hnode.
      destruct (open_read_fault _); reflexivity.
    + destruct (access_rw (fs w (db_path self))) eqn:Haccess; [|reflexivity].
      unfold read_text. rewrite Hnode.
      destruct (open_read_fault (fs w (db_path self))) eqn:Hfault;
        [reflexivity|].
      cbn [fst].
      destruct (json_load text) as [v|e] eqn:Hload; [|reflexivity].
      elim Hnot. exists text, v. repeat split; assumption.
Qed.


End Further.

Lemma reset_touches_one_path_witness :
  fs (snd (reset_machine_ids (hashlib := fips)
             (decoding "CONFIG" sample_config) sample_dump
             sample_self sample_world)) "/etc/passwd"
  = fs sample_world "/etc/passwd".
Proof.
  apply (reset_touches_one_path (hashlib := fips)
           (decoding "CONFIG" sample_config) sample_dump
           sample_self sample_world "/etc/passwd").
  discriminate.
Defined.

Lemma reset_failed_write_witness :
  fst (reset_machine_ids (hashlib := fips)
         (decoding "CONFIG" sample_config) sample_dump
         sample_self full_disk_world) = Return false
  /\ at_path (fs (snd (reset_machine_ids (hashlib := fips)
                         (decoding "CONFIG" sample_config) sample_dump
                         sample_self full_disk_world))
                 (db_path sample_self))
     = File "{a,telemet".
Proof.
  destruct (reset_failed_write (hashlib := fips)
              (decoding "CONFIG" sample_config) sample_dump
              sample_self full_disk_world "CONFIG"
              [("a", VInt 1); ("telemetry.machineId", VStr "old")]
              10 (mk_exn OSError "[Errno 28] No space left on device")
              eq_refl eq_refl eq_refl eq_refl eq_refl eq_refl)
    as [Hfalse Hfile].
  split; [exact Hfalse|]. rewrite Hfile. vm_compute. reflexivity.
Defined.

Lemma reset_open_refused_witness :
  fst (reset_machine_ids (hashlib := fips)
         (decoding "CONFIG" sample_config) sample_dump
         sample_self locked_world) = Return false
  /\ stdout (snd (reset_machine_ids (hashlib := fips)
                    (decoding "CONFIG" sample_config) sample_dump
                    sample_self locked_world))
     = [Checking; Reading; Generating; Saving;
        PermissionProblem "[Errno 13] Permission denied"; RunAsAdminHint].
Proof.
  destruct (reset_open_refused (hashlib := fips)
              (decoding "CONFIG" sample_config) sample_dump
              sample_self locked_world "CONFIG"
              [("a", VInt 1); ("telemetry.machineId", VStr "old")]
              (mk_exn PermissionError "[Errno 13] Permission denied")
              eq_refl eq_refl eq_refl eq_refl eq_refl)
    as [Hfalse [_ Hout]].
  split; [exact Hfalse | exact Hout].
Defined.

Lemma reset_keeps_key_order_witness :
  exists merged,
    at_path (fs (snd (reset_machine_ids (hashlib := fips)
                        (decoding "CONFIG" sample_config) sample_dump
                        sample_self sample_world))
                (db_path sample_self))
    = File (sample_dump (VDict merged))
    /\ dict_keys merged
       = ["a"; "telemetry.machineId"; "telemetry.devDeviceId";
          "telemetry.macMachineId"; "telemetry.sqmId"].
Proof.
  destruct (reset_keeps_key_order (hashlib := fips)
              (decoding "CONFIG" sample_config) sample_dump
              sample_self sample_world
              ltac:(vm_compute; reflexivity))
    as [text [config [merged [Hnode [Hload [Hfile [Hkeys _]]]]]]].
  exists merged. split; [exact Hfile|].
  injection Hnode as <-. injection Hload as <-.
  rewrite Hkeys. reflexivity.
Defined.

Lemma reset_prints_what_it_wrote_witness :
  exists merged,
    at_path (fs (snd (reset_machine_ids (hashlib := fips)
                        (decoding "CONFIG" sample_config) sample_dump
                        sample_self sample_world))
                (db_path sample_self))
    = File (sample_dump (VDict merged))
    /\ dict_get merged "telemetry.devDeviceId"
       = Some (VStr "00010203-0405-4607-8809-0a0b0c0d0e0f").
Proof.
  destruct (reset_prints_what_it_wrote (hashlib := fips)
              (decoding "CONFIG" sample_config) sample_dump
              sample_self sample_world
              ltac:(vm_compute; reflexivity))
    as [config [merged [Hfile [_ [_ Hshown]]]]].
  exists merged. split; [exact Hfile|].
  apply Hshown. unfold id_lines, new_ids_of.
  rewrite generate_new_ids_counting. left. reflexivity.
Defined.

Lemma reset_entropy_witness :
  drawn (snd (reset_machine_ids (hashlib := fips)
                (decoding "[]" (VList [])) sample_dump
                sample_self array_world)) = 128%nat
  /\ drawn (snd (reset_machine_ids (hashlib := fips)
                   (decoding "CONFIG" sample_config) sample_dump
                   sample_self empty_world)) = 0%nat.
Proof.
  split.
  - apply (proj1 (reset_entropy (hashlib := fips)
                    (decoding "[]" (VList [])) sample_dump
                    sample_self array_world)).
    exists "[]", (VList []). repeat split.
  - apply (proj2 (reset_entropy (hashlib := fips)
                    (decoding "CONFIG" sample_config) sample_dump
                    sample_self empty_world)).
    intros [text [v [H _]]]. discriminate H.
Defined.

(** A machine without the configuration file: the script says so and ends
    as after a successful reset. *)
Example main_without_configuration :
  snd (main (hashlib := fips) (decoding "CONFIG" sample_config) sample_dump
         posix_os "linux" (Some "") empty_world)
  = [Rule true; Title; Rule false;
     Said Checking; Said (ConfigMissing (db_path sample_self));
     Rule true; ExitPrompt].
Proof. reflexivity. Qed.

(** *** Construction *)

(** X24.  Building a [MachineIDResetter] fails in two cases only: on
    ["win32"] when [APPDATA] is not set, and on every platform whose name is
    not exactly ["win32"], ["darwin"] or ["linux"]; in all other cases it
    yields a resetter. *)
Theorem construction_fails_iff (os : os_module) (platform : string) :
  (__init__ os platform = inl AppDataNotSet
   <-> platform = "win32" /\ getenv os "APPDATA" = None)
  /\ (__init__ os platform = inl (UnsupportedPlatform platform)
      <-> platform <> "win32" /\ platform <> "darwin"
          /\ platform <> "linux")
  /\ (forall err, __init__ os platform = inl err ->
      err = AppDataNotSet \/ err = UnsupportedPlatform platform).
Proof.
  unfold __init__.
  destruct (String.eqb_spec platform "win32") as [Hw|Hw].
  - destruct (getenv os "APPDATA") as [appdata|].
    + split; [|split].
      * split; [discriminate | intros [_ H]; discriminate H].
      * split; [discriminate | intros [H _]; contradiction].
      * intros err H. discriminate H.
    + split; [|split].
      * split; auto.
      * split; [discriminate | intros [H _]; contradiction].
      * intros err H. injection H as <-. now left.
  - destruct (String.eqb_spec platform "darwin") as [Hd|Hd].
    + split; [|split].
      * split; [discriminate | intros [H _]; contradiction].
      * split; [discriminate | intros [_ [H _]]; contradiction].
      * intros err H. discriminate H.
    + destruct (String.eqb_spec platform "linux") as [Hl|Hl].
      * split; [|split].
        -- split; [discriminate | intros [H _]; contradiction].
        -- split; [discriminate | intros [_ [_ H]]; contradiction].
        -- intros err H. discriminate H.
      * split; [|split].
        -- split; [discriminate | intros [H _]; contradiction].
        -- split; auto.
        -- intros err H. injection H as <-. now right.
Qed.

Lemma construction_fails_iff_witness :
  __init__ posix_os "win32" = inl AppDataNotSet
  /\ __init__ posix_os "freebsd13" = inl (UnsupportedPlatform "freebsd13").
Proof.
  split.
  - apply (proj1 (construction_fails_iff posix_os "win32")).
    split; reflexivity.
  - apply (proj1 (proj2 (construction_fails_iff posix_os "freebsd13"))).
    repeat split; discriminate.
Defined.

(** On Linux the path is the one under the user's configuration
    directory. *)
Example construction_linux :
  __init__ posix_os "linux" = inr sample_self.
Proof. reflexivity. Qed.

Lemma reset_succeeds_iff_witness :
  fst (reset_machine_ids (hashlib := fips)
         (decoding "CONFIG" sample_config) sample_dump
         sample_self sample_world) = Return true.
Proof.
  apply (reset_succeeds_iff (hashlib := fips)
           (decoding "CONFIG" sample_config) sample_dump
           sample_self sample_world).
  exists "CONFIG",
         [("a", VInt 1); ("telemetry.machineId", VStr "old")].
  repeat split.
Defined.

(** *** The script on a host that can refuse a line or interrupt *)

Lemma bind_print_on {B} (h : host) (m : message) (k : unit -> Hosted B)
  (w : world) :
  terminal h (Said m) = None ->
  hosted_bind (print_on h m) k w = k tt (printed w [m]).
Proof. intro H. unfold hosted_bind, print_on. now rewrite H. Qed.

Lemma bind_print_on_refused {B} (h : host) (m : message)
  (k : unit -> Hosted B) (w : world) (t : thrown) :
  terminal h (Said m) = Some t ->
  hosted_bind (print_on h m) k w = (Raises t, w).
Proof. intro H. unfold hosted_bind, print_on. now rewrite H. Qed.

Lemma no_signal_ret {A} (a : A) : raises_no_signal (hosted_ret a).
Proof. intros w s w' H. discriminate H. Qed.

Lemma no_signal_bind {A B} (m : Hosted A) (k : A -> Hosted B) :
  raises_no_signal m -> (forall a, raises_no_signal (k a)) ->
  raises_no_signal (hosted_bind m k).
Proof.
  intros Hm Hk w s w' H. unfold hosted_bind in H.
  destruct (m w) as [[a|t] w1] eqn:E.
  - exact (Hk a w1 s w' H).
  - injection H as -> ->. exact (Hm w s w' E).
Qed.

Lemma no_signal_hosted {A} (m : IO A) : raises_no_signal (hosted m).
Proof.
  intros w s w' H. unfold hosted in H.
  destruct (m w) as [[a|e] w1]; discriminate H.
Qed.

Section Signals.

Variable h : host.
Hypothesis Hterminal : forall l s, terminal h l <> Some (Sig s).
Hypothesis Hinterrupt : forall st, interrupt h st = None.

Lemma no_signal_print (m : message) : raises_no_signal (print_on h m).
Proof.
  intros w s w' H. unfold print_on in H.
  destruct (terminal h (Said m)) as [t|] eqn:E; [|discriminate H].
  injection H as -> _. exact (Hterminal _ _ E).
Qed.

Lemma no_signal_interruptible {A} (st : statement) (m : Hosted A) :
  raises_no_signal m -> raises_no_signal (interruptible h st m).
Proof.
  intros Hm w s w' H. unfold interruptible in H.
  rewrite Hinterrupt in H. exact (Hm w s w' H).
Qed.

Lemma no_signal_access (path : string) :
  raises_no_signal (os_access_rw_on h path).
Proof. intros w s w' H. discriminate H. Qed.

Lemma no_signal_read (path : string) : raises_no_signal (read_text_on h path).
Proof.
  intros w s w' H. unfold read_text_on in H.
  destruct (open_read_fault _); [discriminate H|].
  destruct (at_path _); discriminate H.
Qed.

Lemma no_signal_write (path text : string) :
  raises_no_signal (write_text_on h path text).
Proof.
  apply no_signal_interruptible. intros w s w' H.
  rewrite Hinterrupt in H.
  destruct (open_write_fault _); [discriminate H|].
  destruct (at_path _); try discriminate H;
    destruct (write_fault _) as [[k e]|]; discriminate H.
Qed.

Lemma no_signal_print_ids (d : dict) : raises_no_signal (print_ids_on h d).
Proof.
  induction d as [|[k v] d IH]; cbn [print_ids_on].
  - apply no_signal_ret.
  - apply no_signal_bind; [apply no_signal_print | intros _; exact IH].
Qed.

Context {hashlib : Hashlib}.
Variable json_load : string -> result value.
Variable json_dump : value -> string.

Lemma no_signal_attempt (self : MachineIDResetter) :
  raises_no_signal (reset_attempt_on json_load json_dump h self).
Proof.
  unfold reset_attempt_on.
  repeat first
    [ apply no_signal_ret
    | apply no_signal_print
    | apply no_signal_print_ids
    | apply no_signal_write
    | apply no_signal_interruptible
    | apply no_signal_hosted
    | apply no_signal_access
    | apply no_signal_read
    | apply no_signal_bind
    | intros []
    | intro ].
Qed.

End Signals.


Section Contained.

Context {hashlib : Hashlib}.
Variable json_load : string -> result value.
Variable json_dump : value -> string.
Variable h : host.

Local Abbreviation reset_attempt_on := (reset_attempt_on json_load json_dump h).
Local Abbreviation reset_machine_ids_on :=
  (reset_machine_ids_on json_load json_dump h).

(** What the handlers make of an exception of the [try] block when the
    terminal takes their lines. *)
Lemma reset_on_handles (self : MachineIDResetter) (w w1 : world) (e : exn) :
  reset_attempt_on self w = (Raises (Exc e), w1) ->
  terminal h (Said (PermissionProblem (exn_str e))) = None ->
  terminal h (Said RunAsAdminHint) = None ->
  terminal h (Said (ResetFailed (exn_str e))) = None ->
  reset_machine_ids_on self w =
  (Returns false,
   printed w1 (if isinstance e PermissionError
               then [PermissionProblem (exn_str e); RunAsAdminHint]
               else [ResetFailed (exn_str e)])).
Proof.
  intros H Hp Ha Hf. unfold ResetMachine.reset_machine_ids_on, hosted_try_except.
  rewrite H, PyFacts.isinstance_Exception.
  destruct (isinstance e PermissionError).
  - rewrite !bind_print_on, printed_printed by assumption. reflexivity.
  - rewrite bind_print_on by assumption. reflexivity.
Qed.

(** A handler whose own first line the terminal refuses lets the exception
    of [print] out. *)
Lemma reset_on_handler_fails
  (self : MachineIDResetter) (w w1 : world) (e : exn) (t : thrown) :
  reset_attempt_on self w = (Raises (Exc e), w1) ->
  terminal h (Said (if isinstance e PermissionError
                    then PermissionProblem (exn_str e)
                    else ResetFailed (exn_str e))) = Some t ->
  reset_machine_ids_on self w = (Raises t, w1).
Proof.
  intros H Ht. unfold ResetMachine.reset_machine_ids_on, hosted_try_except.
  rewrite H, PyFacts.isinstance_Exception.
  destruct (isinstance e PermissionError);
    now rewrite (bind_print_on_refused _ _ _ _ t).
Qed.

Lemma reset_on_passes (self : MachineIDResetter) (w w1 : world) (b : bool) :
  reset_attempt_on self w = (Returns b, w1) ->
  reset_machine_ids_on self w = (Returns b, w1).
Proof.
  intro H. unfold ResetMachine.reset_machine_ids_on, hosted_try_except. now rewrite H.
Qed.

Lemma reset_on_interrupted (self : MachineIDResetter) (w w1 : world)
  (s : signal) :
  reset_attempt_on self w = (Raises (Sig s), w1) ->
  reset_machine_ids_on self w = (Raises (Sig s), w1).
Proof.
  intro H. unfold ResetMachine.reset_machine_ids_on, hosted_try_except. now rewrite H.
Qed.

(** The first two branches of the [try] block. *)
Lemma attempt_on_missing (self : MachineIDResetter) (w : world) :
  at_path (fs w (db_path self)) = Missing ->
  interrupt h PathExists = None ->
  terminal h (Said Checking) = None ->
  terminal h (Said (ConfigMissing (db_path self))) = None ->
  reset_attempt_on self w
  = (Returns false, printed w [Checking; ConfigMissing (db_path self)]).
Proof.
  intros Hnode Hint Hc Hm. unfold ResetMachine.reset_attempt_on.
  rewrite bind_print_on by exact Hc.
  unfold hosted_bind at 1, interruptible at 1. rewrite Hint.
  unfold hosted, os_path_exists. cbn [fs printed]. rewrite Hnode.
  cbn [of_result negb]. rewrite bind_print_on by exact Hm.
  unfold hosted_ret. now rewrite printed_printed.
Qed.

Lemma attempt_on_not_allowed (self : MachineIDResetter) (w : world) :
  at_path (fs w (db_path self)) <> Missing ->
  (at_path (fs w (db_path self)) = Directory -> sys_platform h <> "win32") ->
  access_rw (fs w (db_path self)) = false ->
  interrupt h PathExists = None ->
  interrupt h Access = None ->
  terminal h (Said Checking) = None ->
  terminal h (Said CannotReadWrite) = None ->
  terminal h (Said (ReadOnlyHint (db_path self))) = None ->
  reset_attempt_on self w
  = (Returns false,
     printed w [Checking; CannotReadWrite; ReadOnlyHint (db_path self)]).
Proof.
  intros Hnode Hdir Haccess Hint Hint' Hc Hr Hh. unfold ResetMachine.reset_attempt_on.
  rewrite bind_print_on by exact Hc.
  unfold hosted_bind at 1, interruptible at 1. rewrite Hint.
  unfold hosted, os_path_exists. cbn [fs printed].
  assert (Hpresent : match at_path (fs w (db_path self)) with
                     | Missing => false
                     | _ => true
                     end = true)
    by (destruct (at_path (fs w (db_path self))); [contradiction| |];
        reflexivity).
  rewrite Hpresent. cbn [of_result negb].
  unfold hosted_bind at 1, interruptible at 1. rewrite Hint'.
  unfold os_access_rw_on. cbn [fs printed].
  assert (Hallowed : match at_path (fs w (db_path self)) with
                     | Missing => false
                     | Directory =>
                         if String.eqb (sys_platform h) "win32" then true
                         else access_rw (fs w (db_path self))
                     | File _ => access_rw (fs w (db_path self))
                     end = false).
  { destruct (at_path (fs w (db_path self))); [reflexivity| |exact Haccess].
    destruct (String.eqb_spec (sys_platform h) "win32") as [E|E];
      [now elim (Hdir eq_refl) | exact Haccess]. }
  rewrite Hallowed. cbn [negb].
  rewrite !bind_print_on by assumption.
  unfold hosted_ret. now rewrite !printed_printed.
Qed.

(** C4.  [reset_machine_ids] returns a boolean, and raises nothing, on every
    host whose terminal takes the lines of the two handlers, where [print]
    raises nothing but instances of [Exception] and where no exception
    outside [Exception] arrives.  When the configuration file does not exist
    it prints that the file is missing and returns [False] with the file
    system as it was; when the file is there but not readable and writable it
    prints the permission messages and returns [False], again writing
    nothing; and any instance of [Exception] raised inside the [try] block, a
    [PermissionError] and a failing [print] included, is printed by the
    matching handler and turned into [False].  An exception outside
    [Exception] is not caught, and neither is the exception of a handler's
    own [print]: both leave [reset_machine_ids]. *)
Theorem reset_machine_ids_on_contained
  (self : MachineIDResetter) (w : world) :
  ((forall detail, terminal h (Said (PermissionProblem detail)) = None) ->
   terminal h (Said RunAsAdminHint) = None ->
   (forall detail, terminal h (Said (ResetFailed detail)) = None) ->
   (forall l s, terminal h l <> Some (Sig s)) ->
   (forall st, interrupt h st = None) ->
   exists (b : bool) (w' : world),
     reset_machine_ids_on self w = (Returns b, w')
     /\ (at_path (fs w (db_path self)) = Missing ->
         terminal h (Said Checking) = None ->
         terminal h (Said (ConfigMissing (db_path self))) = None ->
         b = false /\ fs w' = fs w
         /\ stdout w'
            = (stdout w ++ [Checking; ConfigMissing (db_path self)])%list)
     /\ (at_path (fs w (db_path self)) <> Missing ->
         (at_path (fs w (db_path self)) = Directory ->
          sys_platform h <> "win32") ->
         access_rw (fs w (db_path self)) = false ->
         terminal h (Said Checking) = None ->
         terminal h (Said CannotReadWrite) = None ->
         terminal h (Said (ReadOnlyHint (db_path self))) = None ->
         b = false /\ fs w' = fs w
         /\ stdout w' = (stdout w ++ [Checking; CannotReadWrite;
                                      ReadOnlyHint (db_path self)])%list)
     /\ (forall e w1, reset_attempt_on self w = (Raises (Exc e), w1) ->
         b = false /\ fs w' = fs w1
         /\ stdout w'
            = (stdout w1 ++ if isinstance e PermissionError
                            then [PermissionProblem (exn_str e); RunAsAdminHint]
                            else [ResetFailed (exn_str e)])%list))
  /\ (forall s w1, reset_attempt_on self w = (Raises (Sig s), w1) ->
      reset_machine_ids_on self w = (Raises (Sig s), w1))
  /\ (forall e w1 t, reset_attempt_on self w = (Raises (Exc e), w1) ->
      terminal h (Said (if isinstance e PermissionError
                        then PermissionProblem (exn_str e)
                        else ResetFailed (exn_str e))) = Some t ->
      reset_machine_ids_on self w = (Raises t, w1)).
Proof.
  split; [|split].
  - intros Hp Ha Hf Hterminal Hinterrupt.
    destruct (reset_attempt_on self w) as [[b|[e|s]] w1] eqn:Hattempt.
    + exists b, w1. split; [exact (reset_on_passes self w w1 b Hattempt)|].
      split; [|split].
      * intros Hnode Hc Hm.
        rewrite (attempt_on_missing self w Hnode (Hinterrupt _) Hc Hm)
          in Hattempt.
        injection Hattempt as <- <-. repeat split.
      * intros Hnode Hdir Haccess Hc Hr Hh.
        rewrite (attempt_on_not_allowed self w Hnode Hdir Haccess
                   (Hinterrupt _) (Hinterrupt _) Hc Hr Hh) in Hattempt.
        injection Hattempt as <- <-. repeat split.
      * intros e w2 H. discriminate H.
    + eexists false, _.
      split; [exact (reset_on_handles self w w1 e Hattempt
                       (Hp _) Ha (Hf _))|].
      split; [|split].
      * intros Hnode Hc Hm.
        rewrite (attempt_on_missing self w Hnode (Hinterrupt _) Hc Hm)
          in Hattempt.
        discriminate Hattempt.
      * intros Hnode Hdir Haccess Hc Hr Hh.
        rewrite (attempt_on_not_allowed self w Hnode Hdir Haccess
                   (Hinterrupt _) (Hinterrupt _) Hc Hr Hh) in Hattempt.
        discriminate Hattempt.
      * intros e' w2 H. injection H as <- <-. repeat split.
    + elim (no_signal_attempt h Hterminal Hinterrupt json_load json_dump
              self w s w1 Hattempt).
  - intros s w1. apply reset_on_interrupted.
  - intros e w1 t. apply reset_on_handler_fails.
Qed.

End Contained.

Lemma reset_machine_ids_on_contained_witness :
  exists w',
    reset_machine_ids_on (hashlib := fips) (decoding "CONFIG" sample_config)
      sample_dump quiet_host sample_self empty_world = (Returns false, w')
    /\ stdout w' = [Checking; ConfigMissing (db_path sample_self)].
Proof.
  destruct (proj1 (reset_machine_ids_on_contained (hashlib := fips)
                     (decoding "CONFIG" sample_config) sample_dump
                     quiet_host sample_self empty_world)
              (fun _ => eq_refl) eq_refl (fun _ => eq_refl)
              (fun l s H => ltac:(discriminate H)) (fun _ => eq_refl))
    as [b [w' [Hrun [Hmissing _]]]].
  destruct (Hmissing eq_refl eq_refl eq_refl) as [-> [_ Hout]].
  exists w'. split; [exact Hrun | exact Hout].
Defined.

(** On a terminal that cannot encode the messages the very first [print]
    fails, the handler's own [print] fails in turn, and the exception leaves
    [reset_machine_ids]; an interrupt during the decoding is not caught at
    all. *)
Lemma reset_machine_ids_on_raises :
  fst (reset_machine_ids_on (hashlib := fips) (decoding "CONFIG" sample_config)
         sample_dump ascii_terminal sample_self sample_world)
  = Raises (Exc (mk_exn UnicodeEncodeError
                   "'ascii' codec can't encode character"))
  /\ fst (reset_machine_ids_on (hashlib := fips)
            (decoding "CONFIG" sample_config) sample_dump interrupted_load
            sample_self sample_world)
     = Raises (Sig (mk_signal KeyboardInterrupt "")).
Proof. split; reflexivity. Qed.


(** *** The two embeddings agree *)

Lemma hosted_bind_ext {A B} (m' : Hosted A) (m : IO A)
  (k' : A -> Hosted B) (k : A -> IO B) :
  (forall w, m' w = hosted m w) ->
  (forall a w, k' a w = hosted (k a) w) ->
  forall w, hosted_bind m' k' w = hosted (io_bind m k) w.
Proof.
  intros Hm Hk w. unfold hosted_bind, io_bind, hosted at 1. rewrite Hm.
  unfold hosted at 1. destruct (m w) as [[a|e] w1]; cbn [of_result].
  - apply Hk.
  - reflexivity.
Qed.

Section Agreement.

Context {hashlib : Hashlib}.
Variable json_load : string -> result value.
Variable json_dump : value -> string.
Variable h : host.
Hypothesis Hterminal : forall l, terminal h l = None.
Hypothesis Hinterrupt : forall st, interrupt h st = None.
Hypothesis Hplatform : sys_platform h <> "win32".

Lemma print_on_quiet (m : message) (w : world) :
  print_on h m w = hosted (print m) w.
Proof. unfold print_on. now rewrite Hterminal. Qed.

Lemma interruptible_quiet {A} (st : statement) (m' : Hosted A) (m : IO A) :
  (forall w, m' w = hosted m w) ->
  forall w, interruptible h st m' w = hosted m w.
Proof. intros H w. unfold interruptible. rewrite Hinterrupt. apply H. Qed.

Lemma not_win32 : String.eqb (sys_platform h) "win32" = false.
Proof. now apply String.eqb_neq. Qed.

Lemma os_access_rw_on_quiet (path : string) (w : world) :
  os_access_rw_on h path w = hosted (os_access_rw path) w.
Proof.
  unfold os_access_rw_on, hosted, os_access_rw. rewrite not_win32.
  now destruct (at_path (fs w path)).
Qed.

Lemma read_text_on_quiet (path : string) (w : world) :
  read_text_on h path w = hosted (read_text path) w.
Proof.
  unfold read_text_on, hosted, read_text, open_directory_error.
  rewrite not_win32.
  destruct (open_read_fault _); [reflexivity|].
  now destruct (at_path (fs w path)).
Qed.

Lemma write_text_on_quiet (path text : string) (w : world) :
  write_text_on h path text w = hosted (write_text path text) w.
Proof.
  unfold write_text_on, interruptible, hosted, write_text, open_directory_error.
  rewrite !Hinterrupt, not_win32.
  destruct (open_write_fault _); [reflexivity|].
  destruct (at_path (fs w path)); try reflexivity;
    now destruct (write_fault _) as [[k e]|].
Qed.

Lemma print_ids_on_quiet (d : dict) (w : world) :
  print_ids_on h d w = hosted (print_ids d) w.
Proof.
  revert w. induction d as [|[k v] d IH]; intro w; cbn [print_ids_on print_ids].
  - reflexivity.
  - apply hosted_bind_ext; [apply print_on_quiet | intros _; exact IH].
Qed.

Lemma reset_attempt_on_quiet (self : MachineIDResetter) (w : world) :
  reset_attempt_on json_load json_dump h self w
  = hosted (reset_attempt json_load json_dump self) w.
Proof.
  revert w. unfold reset_attempt_on, reset_attempt.
  repeat first
    [ apply print_on_quiet
    | apply print_ids_on_quiet
    | apply write_text_on_quiet
    | apply os_access_rw_on_quiet
    | apply read_text_on_quiet
    | apply interruptible_quiet
    | apply hosted_bind_ext
    | intros [] | intro
    | reflexivity ].
Qed.

(** On a host other than Windows whose terminal takes every line and where
    nothing interrupts, a run is the run of the fragment in which every
    exception is an instance of [Exception] and [print] cannot fail. *)
Lemma reset_machine_ids_on_quiet (self : MachineIDResetter) (w : world) :
  reset_machine_ids_on json_load json_dump h self w
  = hosted (reset_machine_ids json_load json_dump self) w.
Proof.
  unfold reset_machine_ids_on, hosted_try_except, reset_machine_ids,
    io_try_except, hosted at 1.
  rewrite reset_attempt_on_quiet. unfold hosted at 1.
  destruct (reset_attempt json_load json_dump self w) as [[b|e] w1];
    cbn [of_result]; [reflexivity|].
  rewrite PyFacts.isinstance_Exception.
  destruct (isinstance e PermissionError).
  - rewrite !bind_print_on by apply Hterminal. reflexivity.
  - rewrite bind_print_on by apply Hterminal. reflexivity.
Qed.

End Agreement.


Section OnHosts.

Context {hashlib : Hashlib}.
Variable json_load : string -> result value.
Variable json_dump : value -> string.
Variable h : host.

Local Abbreviation reset_attempt_on := (reset_attempt_on json_load json_dump h).
Local Abbreviation reset_machine_ids_on :=
  (reset_machine_ids_on json_load json_dump h).

(** With a terminal that takes every line and no interrupt, the run
    returns. *)
Lemma reset_on_returns (self : MachineIDResetter) (w : world) :
  (forall l, terminal h l = None) ->
  (forall st, interrupt h st = None) ->
  exists (b : bool) (w' : world),
    reset_machine_ids_on self w = (Returns b, w').
Proof.
  intros Hterminal Hinterrupt.
  destruct (reset_attempt_on self w) as [[b|[e|s]] w1] eqn:Hattempt.
  - exists b, w1. exact (reset_on_passes _ _ h self w w1 b Hattempt).
  - eexists false, _.
    exact (reset_on_handles _ _ h self w w1 e Hattempt
             (Hterminal _) (Hterminal _) (Hterminal _)).
  - assert (Hnone : forall l s', terminal h l <> Some (Sig s'))
      by (intros l s' H; rewrite Hterminal in H; discriminate H).
    elim (no_signal_attempt h Hnone Hinterrupt json_load json_dump
            self w s w1 Hattempt).
Qed.

(** On Windows the [try] block gets as far as opening the directory. *)
Lemma attempt_on_directory_win32 (self : MachineIDResetter) (w : world) :
  (forall l, terminal h l = None) ->
  (forall st, interrupt h st = None) ->
  sys_platform h = "win32" ->
  at_path (fs w (db_path self)) = Directory ->
  open_read_fault (fs w (db_path self)) = None ->
  reset_attempt_on self w
  = (Raises (Exc (mk_exn PermissionError (db_path self))),
     printed w [Checking; Reading]).
Proof.
  intros Hterminal Hinterrupt Hwin Hnode Hfault. unfold ResetMachine.reset_attempt_on.
  rewrite bind_print_on by apply Hterminal.
  unfold hosted_bind at 1, interruptible at 1. rewrite Hinterrupt.
  unfold hosted, os_path_exists. cbn [fs printed]. rewrite Hnode.
  cbn [of_result negb].
  unfold hosted_bind at 1, interruptible at 1. rewrite Hinterrupt.
  unfold os_access_rw_on. cbn [fs printed]. rewrite Hnode, Hwin.
  cbn [String.eqb Ascii.eqb Bool.eqb andb negb].
  rewrite bind_print_on by apply Hterminal.
  unfold hosted_bind at 1, interruptible at 1. rewrite Hinterrupt.
  unfold read_text_on, open_directory_error. cbn [fs printed].
  rewrite Hfault, Hnode, Hwin, printed_printed. reflexivity.
Qed.

(** X20.  A directory at the configuration path, on a terminal that takes
    every line and without interrupts: on Windows it passes the permission
    check whatever its attributes, [open] raises [PermissionError], and the
    permission handler reports; elsewhere it is reported by the general
    handler after [open] raised [IsADirectoryError] if it passed the
    permission check, and by the permission messages of the [try] block if it
    did not.  In all three cases the run returns [False] and the file system
    is as it was. *)
Theorem reset_on_directory_by_platform
  (self : MachineIDResetter) (w : world) :
  (forall l, terminal h l = None) ->
  (forall st, interrupt h st = None) ->
  at_path (fs w (db_path self)) = Directory ->
  open_read_fault (fs w (db_path self)) = None ->
  (sys_platform h = "win32" ->
   exists detail,
     reset_machine_ids_on self w
     = (Returns false,
        printed w [Checking; Reading;
                   PermissionProblem detail; RunAsAdminHint]))
  /\ (sys_platform h <> "win32" ->
      access_rw (fs w (db_path self)) = true ->
      exists detail,
        reset_machine_ids_on self w
        = (Returns false, printed w [Checking; Reading; ResetFailed detail]))
  /\ (sys_platform h <> "win32" ->
      access_rw (fs w (db_path self)) = false ->
      reset_machine_ids_on self w
      = (Returns false,
         printed w [Checking; CannotReadWrite; ReadOnlyHint (db_path self)])).
Proof.
  intros Hterminal Hinterrupt Hnode Hfault. split; [|split].
  - intro Hwin. eexists.
    rewrite (reset_on_handles _ _ h self w _ _
               (attempt_on_directory_win32 self w Hterminal Hinterrupt
                  Hwin Hnode Hfault)
               (Hterminal _) (Hterminal _) (Hterminal _)).
    cbn [isinstance exn_cls exn_str]. rewrite printed_printed. reflexivity.
  - intros Hposix Haccess.
    rewrite (reset_machine_ids_on_quiet json_load json_dump h
               Hterminal Hinterrupt Hposix).
    unfold hosted. rewrite reset_from_attempt, reset_attempt_run. cbv zeta.
    rewrite Hnode, Haccess. unfold read_text. rewrite Hfault, Hnode.
    cbn [fst isinstance exn_cls of_result]. eexists.
    rewrite printed_printed. reflexivity.
  - intros Hposix Haccess.
    apply reset_on_passes. apply attempt_on_not_allowed;
      try apply Hterminal; try apply Hinterrupt.
    + rewrite Hnode. discriminate.
    + intros _. exact Hposix.
    + exact Haccess.
Qed.

(** X25.  A terminal that takes the opening rule and refuses the title
    stops the script there, with the exception of [print] and nothing done.
    On a terminal that takes every line, and without interrupts, the script
    stops before the reset only when the resetter cannot be built, and then
    it has shown the banner and changed nothing; once the resetter is built
    it reaches the exit prompt, and how it ends depends on the operator's
    input alone, not on whether the reset succeeded. *)
Theorem main_on_outcome
  (os : os_module) (stdin : option string) (w : world) :
  (forall t, terminal h (Rule true) = None -> terminal h Title = Some t ->
     main_on json_load json_dump h os stdin w
     = (Traceback t, w, [Rule true]))
  /\ ((forall l, terminal h l = None) ->
      (forall st, interrupt h st = None) ->
      (forall err, __init__ os (sys_platform h) = inl err ->
         main_on json_load json_dump h os stdin w
         = (NotConstructed err, w, [Rule true; Title; Rule false]))
      /\ (forall self, __init__ os (sys_platform h) = inr self ->
          exists (b : bool) (w' : world),
            reset_machine_ids_on self (fresh_terminal w) = (Returns b, w')
            /\ main_on json_load json_dump h os stdin w
               = (match stdin with
                  | Some _ => Exited
                  | None => InputEnded
                  end,
                  w',
                  [Rule true; Title; Rule false] ++ map Said (stdout w')
                    ++ [Rule true; ExitPrompt])%list)).
Proof.
  split.
  - intros t Hrule Htitle. unfold main_on. cbn [print_lines].
    now rewrite Hrule, Htitle.
  - intros Hterminal Hinterrupt. unfold main_on. cbn [print_lines].
    rewrite !Hterminal. split.
    + intros err ->. reflexivity.
    + intros self ->.
      destruct (reset_on_returns self (fresh_terminal w) Hterminal Hinterrupt)
        as [b [w' Hrun]].
      exists b, w'. split; [exact Hrun|]. now rewrite Hrun.
Qed.

End OnHosts.

Lemma reset_on_directory_by_platform_witness :
  (exists detail,
     reset_machine_ids_on (hashlib := fips) (decoding "CONFIG" sample_config)
       sample_dump windows_host sample_self directory_world
     = (Returns false,
        printed directory_world
          [Checking; Reading; PermissionProblem detail; RunAsAdminHint]))
  /\ (exists detail,
        reset_machine_ids_on (hashlib := fips)
          (decoding "CONFIG" sample_config) sample_dump quiet_host
          sample_self directory_world
        = (Returns false,
           printed directory_world [Checking; Reading; ResetFailed detail])).
Proof.
  split.
  - exact (proj1 (reset_on_directory_by_platform (hashlib := fips)
                    (decoding "CONFIG" sample_config) sample_dump
                    windows_host sample_self directory_world
                    (fun _ => eq_refl) (fun _ => eq_refl) eq_refl eq_refl)
             eq_refl).
  - exact (proj1 (proj2 (reset_on_directory_by_platform (hashlib := fips)
                           (decoding "CONFIG" sample_config) sample_dump
                           quiet_host sample_self directory_world
                           (fun _ => eq_refl) (fun _ => eq_refl)
                           eq_refl eq_refl))
             ltac:(discriminate) eq_refl).
Defined.

Lemma main_on_outcome_witness :
  main_on (hashlib := fips) (decoding "CONFIG" sample_config) sample_dump
    (mk_host "freebsd13" (fun _ => None) (fun _ => None)) posix_os None
    sample_world
  = (NotConstructed (UnsupportedPlatform "freebsd13"), sample_world,
     [Rule true; Title; Rule false])
  /\ fst (fst (main_on (hashlib := fips) (decoding "CONFIG" sample_config)
                 sample_dump quiet_host posix_os (Some "") empty_world))
     = Exited
  /\ main_on (hashlib := fips) (decoding "CONFIG" sample_config) sample_dump
       ascii_terminal posix_os (Some "") sample_world
     = (Traceback (Exc (mk_exn UnicodeEncodeError
                          "'ascii' codec can't encode character")),
        sample_world, [Rule true]).
Proof.
  split; [|split].
  - apply (proj2 (main_on_outcome (hashlib := fips)
                    (decoding "CONFIG" sample_config) sample_dump
                    (mk_host "freebsd13" (fun _ => None) (fun _ => None))
                    posix_os None sample_world)
             (fun _ => eq_refl) (fun _ => eq_refl)).
    reflexivity.
  - destruct (proj2 (proj2 (main_on_outcome (hashlib := fips)
                       (decoding "CONFIG" sample_config) sample_dump
                       quiet_host posix_os (Some "") empty_world)
                      (fun _ => eq_refl) (fun _ => eq_refl))
                sample_self eq_refl) as [b [w' [_ Hmain]]].
    rewrite Hmain. reflexivity.
  - apply (proj1 (main_on_outcome (hashlib := fips)
                    (decoding "CONFIG" sample_config) sample_dump
                    ascii_terminal posix_os (Some "") sample_world));
      reflexivity.
Defined.

End ResetMachineSpec.
